(** * MerossManager: device registry, discovery and notification dispatch

    A shallow embedding of [meross_iot/manager.py] (class [MerossManager]).

    The manager is stateful Python: a dict of devices, a list of event
    callbacks, two re-entrant locks, and calls into collaborators that are
    not part of the manager (the HTTP client, the device factory, the device
    objects, the MQTT client, the logger and the registered callbacks).

    The embedding threads the manager's fields through a small state and
    error monad.  Every call that leaves the manager is recorded, in order,
    in the log returned next to the result; each log entry is stamped with
    the number of times each of the two locks is held at that moment.

    A registered callback may call back into the manager while it runs, so
    the loop of [_fire_event], which walks the live list of callbacks, need
    not terminate; it is given fuel, one unit per callback invoked. *)

From Stdlib Require Import List String Ascii ZArith Bool Arith Lia.
Import ListNotations.

Local Open Scope string_scope.
Local Open Scope list_scope.

Set Implicit Arguments.

(** ** Data model *)

(** Modelled from the spec: the device classes live in
    [meross_iot.cloud.devices], outside the manager; the manager only names
    [GenericHub] and hands an arbitrary class to [isinstance]. *)
Inductive DeviceClass :=
| AbstractMerossDevice
| GenericPlug
| GenericBulb
| GenericHub
| GenericSubDevice
| ValveSubDevice.

Definition DeviceClass_eqb (a b : DeviceClass) : bool :=
  match a, b with
  | AbstractMerossDevice, AbstractMerossDevice
  | GenericPlug, GenericPlug
  | GenericBulb, GenericBulb
  | GenericHub, GenericHub
  | GenericSubDevice, GenericSubDevice
  | ValveSubDevice, ValveSubDevice => true
  | _, _ => false
  end.

(** [issubclass c k]: every class derives from [AbstractMerossDevice], and
    the valve derives from the generic sub-device. *)
Definition issubclass (c k : DeviceClass) : bool :=
  DeviceClass_eqb c k
  || DeviceClass_eqb k AbstractMerossDevice
  || (DeviceClass_eqb c ValveSubDevice && DeviceClass_eqb k GenericSubDevice).

(** An attribute of a device that the manager takes to be a string and
    calls [.lower()] on (lines 82 and 104).  The device classes set it from
    the descriptor and the manager checks nothing, so it may be [None]. *)
Definition attr := option string.

Definition str (s : string) : attr := Some s.

Coercion str : string >-> attr.

(** A device object.  [obj] is the identity of the Python object: two
    handles built by two calls of the factory differ in [obj] even when all
    their attributes agree. *)
Record Handle := mkHandle {
  obj : nat;
  hd_class : DeviceClass;
  hd_uuid : string;
  hd_name : attr;
  hd_type : attr;
  hd_online : bool
}.

Definition isinstance (v : Handle) (clazz : DeviceClass) : bool :=
  issubclass (hd_class v) clazz.

(** A descriptor returned by the HTTP API: a dict, of which the manager
    reads the presence and the value of five keys.  [devName] stands for the
    extra fields that are passed through to the factory. *)
Record Descriptor := mkDescriptor {
  onlineStatus : option Z;
  deviceType : option string;
  uuid : option string;
  subDeviceType : option string;
  subDeviceId : option string;
  devName : option string
}.

(** What a factory call decides about the object it returns. *)
Record Blueprint := mkBlueprint {
  bp_class : DeviceClass;
  bp_uuid : string;
  bp_name : attr;
  bp_type : attr;
  bp_online : bool
}.

Definition instantiate (o : nat) (b : Blueprint) : Handle :=
  mkHandle o (bp_class b) (bp_uuid b) (bp_name b) (bp_type b) (bp_online b).

(** Callbacks are Python callables; [x in list] and [list.remove(x)] compare
    them by identity, so a callback is its identity. *)
Definition callback := nat.

Inductive MerossEvent :=
| DeviceOnlineStatusEvent (dev : Handle) (current_status : bool)
| ClientConnectionEvent (status : nat).

Definition Payload := list (string * string).

Record Header := mkHeader {
  from_ : string;
  namespace : string
}.

Record Message := mkMessage {
  header : Header;
  payload : Payload
}.

(** Modelled from the spec: [ClientStatus] is declared in
    [meross_iot.cloud.client_status], outside the manager; the manager only
    asks whether the status is [SUBSCRIBED]. *)
Inductive ClientStatus :=
| INITIALIZED
| CONNECTING
| CONNECTED
| SUBSCRIBED
| CONNECTION_DROPPED.

Definition check_status (current expected : ClientStatus) : bool :=
  match current, expected with
  | INITIALIZED, INITIALIZED
  | CONNECTING, CONNECTING
  | CONNECTED, CONNECTED
  | SUBSCRIBED, SUBSCRIBED
  | CONNECTION_DROPPED, CONNECTION_DROPPED => true
  | _, _ => false
  end.

Inductive PyError :=
| KeyError (key : string)
| IndexError
| AttributeError (attr : string)
| CallbackError (code : nat).

Inductive Lock := DevicesLock | EventCallbacksLock.

(** Calls that leave the manager, plus [event_fired], a marker written when
    [_fire_event] is entered (a fan-out over an empty list is otherwise
    invisible). *)
Inductive Effect :=
| connect_called
| close_called
| check_status_called
| list_devices_called
| list_hub_subdevices_called (hub_uuid : string)
| build_wrapper_called (d_type d_id : string) (built : option Handle)
| build_subdevice_wrapper_called (d_type d_id : string) (parent : Handle)
    (built : option Handle)
| register_event_callback_called (device : Handle) (c : callback)
| handle_push_notification_called (device : Handle) (ns : string)
    (data : Payload) (from_myself : bool)
| callback_called (c : callback) (e : MerossEvent)
| event_fired (e : MerossEvent)
| log_warn (msg : string)
| log_exception (msg : string).

Record Entry := mkEntry {
  eff : Effect;
  devices_lock_held : nat;
  event_callbacks_lock_held : nat
}.

(** ** The dict of devices

    A Python dict keeps insertion order and the manager iterates over it, so
    the dict is an association list with unique keys. *)
Definition Dict := list (string * Handle).

Fixpoint dict_get (k : string) (d : Dict) : option Handle :=
  match d with
  | [] => None
  | (k', v) :: rest => if String.eqb k k' then Some v else dict_get k rest
  end.

Definition dict_contains (k : string) (d : Dict) : bool :=
  match dict_get k d with Some _ => true | None => false end.

(** [d[k] = v]: replaces the value in place when the key exists, appends
    otherwise. *)
Fixpoint dict_set (k : string) (v : Handle) (d : Dict) : Dict :=
  match d with
  | [] => [(k, v)]
  | (k', v') :: rest =>
      if String.eqb k k' then (k', v) :: rest else (k', v') :: dict_set k v rest
  end.

Definition dict_keys (d : Dict) : list string := map fst d.
Definition dict_values (d : Dict) : list Handle := map snd d.

(** ** Strings *)

(** [s.split(sep)] for a one-character separator. *)
Fixpoint split (sep : ascii) (s : string) : list string :=
  match s with
  | EmptyString => [EmptyString]
  | String c rest =>
      if Ascii.eqb c sep then EmptyString :: split sep rest
      else match split sep rest with
           | [] => [String c EmptyString]
           | w :: ws => String c w :: ws
           end
  end.

Definition lower_ascii (c : ascii) : ascii :=
  let n := nat_of_ascii c in
  if Nat.leb 65 n && Nat.leb n 90 then ascii_of_nat (n + 32) else c.

(** [str.lower] itself is Unicode-aware and belongs to the Python runtime;
    the manager's methods take it from the [World] below.  This is what it
    does on ASCII text, for the concrete runs, whose strings are ASCII. *)
Fixpoint ascii_lower (s : string) : string :=
  match s with
  | EmptyString => EmptyString
  | String c rest => String (lower_ascii c) (ascii_lower rest)
  end.

(** ["%s:%s" % (a, b)] *)
Definition format_pair (a b : string) : string :=
  String.append a (String ":" b).

(** ** The manager's fields *)

Record Manager := mkManager {
  _devices : Dict;
  _devices_lock : nat;
  _event_callbacks : list callback;
  _event_callbacks_lock : nat;
  connection_status : ClientStatus;
  next_obj : nat
}.

(** [MerossManager.__init__]: both collections start empty. *)
Definition init : Manager := mkManager [] 0 [] 0 INITIALIZED 0.

(** ** The collaborators *)

(** A call from a callback back into the manager. *)
Inductive BusCall :=
| call_register_event_handler (c : callback)
| call_unregister_event_handler (c : callback).

(** What a callback does when it is invoked: it may call back into the
    manager's [register_event_handler] and [unregister_event_handler], and
    then it returns or raises. *)
Record Script := mkScript {
  calls : list BusCall;
  raises : option PyError
}.

(** What the collaborators answer: the two listings of the HTTP client,
    the two functions of the device factory, the behaviour of every
    callback, whether [_cloud_client.connect()] returns or raises, and the
    [str.lower] of the Python runtime, of which nothing is assumed. *)
Record World := mkWorld {
  list_devices : list Descriptor;
  list_hub_subdevices : string -> list Descriptor;
  build_wrapper : string -> string -> Descriptor -> option Blueprint;
  build_subdevice_wrapper :
    string -> string -> Handle -> Descriptor -> option Blueprint;
  script : callback -> MerossEvent -> Script;
  connect : option PyError;
  lower : string -> string
}.

(** ** The monad *)

(** A method returns a value, or raises, or is still running when the fuel
    of a fan-out is spent.  The first two come with the manager as the call
    left it and with the log of the call. *)
Inductive Outcome (A : Type) :=
| Returned (a : A) (st : Manager) (log : list Entry)
| Raised (e : PyError) (st : Manager) (log : list Entry)
| OutOfFuel.

Arguments Raised {A} e st log.
Arguments OutOfFuel {A}.

Definition M (A : Type) := Manager -> Outcome A.

Definition ret {A} (a : A) : M A := fun st => Returned a st [].

Definition bind {A B} (m : M A) (f : A -> M B) : M B := fun st =>
  match m st with
  | Returned a st1 l1 =>
      match f a st1 with
      | Returned b st2 l2 => Returned b st2 (l1 ++ l2)
      | Raised e st2 l2 => Raised e st2 (l1 ++ l2)
      | OutOfFuel => OutOfFuel
      end
  | Raised e st1 l1 => Raised e st1 l1
  | OutOfFuel => OutOfFuel
  end.

Declare Scope manager_scope.
Delimit Scope manager_scope with manager.
Notation "x <- m ;; k" := (bind m (fun x => k))
  (at level 61, m at next level, right associativity) : manager_scope.
Notation "m ;; k" := (bind m (fun _ => k))
  (at level 61, right associativity) : manager_scope.
Local Open Scope manager_scope.

Definition raise {A} (e : PyError) : M A := fun st => Raised e st [].

Definition gets {A} (f : Manager -> A) : M A := fun st => Returned (f st) st [].

Definition modify (f : Manager -> Manager) : M unit :=
  fun st => Returned tt (f st) [].

Definition emit (e : Effect) : M unit := fun st =>
  Returned tt st [mkEntry e (_devices_lock st) (_event_callbacks_lock st)].

(** [try: m except: handler] with a bare [except], which catches every
    exception. *)
Definition try_except {A} (m : M A) (handler : PyError -> M A) : M A :=
  fun st =>
    match m st with
    | Raised e st1 l1 =>
        match handler e st1 with
        | Returned b st2 l2 => Returned b st2 (l1 ++ l2)
        | Raised e2 st2 l2 => Raised e2 st2 (l1 ++ l2)
        | OutOfFuel => OutOfFuel
        end
    | other => other
    end.

Fixpoint for_each {A} (l : list A) (body : A -> M unit) : M unit :=
  match l with
  | [] => ret tt
  | x :: rest => body x ;; for_each rest body
  end.

Definition set_devices (d : Dict) : Manager -> Manager := fun st =>
  mkManager d (_devices_lock st) (_event_callbacks st)
    (_event_callbacks_lock st) (connection_status st) (next_obj st).

Definition set_event_callbacks (l : list callback) : Manager -> Manager :=
  fun st =>
    mkManager (_devices st) (_devices_lock st) l
      (_event_callbacks_lock st) (connection_status st) (next_obj st).

Definition set_next_obj (n : nat) : Manager -> Manager := fun st =>
  mkManager (_devices st) (_devices_lock st) (_event_callbacks st)
    (_event_callbacks_lock st) (connection_status st) n.

Definition acquire (l : Lock) : Manager -> Manager := fun st =>
  match l with
  | DevicesLock =>
      mkManager (_devices st) (S (_devices_lock st)) (_event_callbacks st)
        (_event_callbacks_lock st) (connection_status st) (next_obj st)
  | EventCallbacksLock =>
      mkManager (_devices st) (_devices_lock st) (_event_callbacks st)
        (S (_event_callbacks_lock st)) (connection_status st) (next_obj st)
  end.

Definition release (l : Lock) : Manager -> Manager := fun st =>
  match l with
  | DevicesLock =>
      mkManager (_devices st) (pred (_devices_lock st)) (_event_callbacks st)
        (_event_callbacks_lock st) (connection_status st) (next_obj st)
  | EventCallbacksLock =>
      mkManager (_devices st) (_devices_lock st) (_event_callbacks st)
        (pred (_event_callbacks_lock st)) (connection_status st) (next_obj st)
  end.

(** [with lock: body].  Both locks are [RLock]s: the owning thread may take
    them again, and the lock is released when the block is left, also by an
    exception. *)
Definition with_lock {A} (l : Lock) (body : M A) : M A := fun st =>
  match body (acquire l st) with
  | Returned a st1 log => Returned a (release l st1) log
  | Raised e st1 log => Raised e (release l st1) log
  | OutOfFuel => OutOfFuel
  end.

Definition mem (c : callback) (l : list callback) : bool :=
  existsb (Nat.eqb c) l.

(** [list.remove(x)]: drops the first occurrence. *)
Fixpoint remove_first (c : callback) (l : list callback) : list callback :=
  match l with
  | [] => []
  | x :: rest => if Nat.eqb c x then rest else x :: remove_first c rest
  end.

(** ** The manager's methods *)

Definition exception_message : string :=
  "An unhandled error occurred while invoking callback".

Definition not_started_message : string :=
  String.append "The manager is not connected to the mqtt broker. "
    "Did you start the Meross manager?".

Definition malformed_message : string :=
  "Discovered device does not seem to be either a full device nor a subdevice.".

Section MerossManager.

Variable w : World.

Definition register_event_handler (c : callback) : M unit :=
  with_lock EventCallbacksLock
    (cbs <- gets _event_callbacks ;;
     if mem c cbs then ret tt
     else modify (set_event_callbacks (cbs ++ [c]))).

Definition unregister_event_handler (c : callback) : M unit :=
  with_lock EventCallbacksLock
    (cbs <- gets _event_callbacks ;;
     if negb (mem c cbs) then ret tt
     else modify (set_event_callbacks (remove_first c cbs))).

Definition run_call (b : BusCall) : M unit :=
  match b with
  | call_register_event_handler c => register_event_handler c
  | call_unregister_event_handler c => unregister_event_handler c
  end.

(** [c(eventobj)] *)
Definition invoke (c : callback) (e : MerossEvent) : M unit :=
  emit (callback_called c e) ;;
  for_each (calls (script w c e)) run_call ;;
  match raises (script w c e) with
  | Some x => raise x
  | None => ret tt
  end.

(** [for c in self._event_callbacks: ...] over the live list: the iterator
    keeps a position [i]; each round reads the list again, stops when [i]
    is past its end, and otherwise takes the element at [i] and advances.
    [fuel] bounds the number of callbacks invoked. *)
Fixpoint fire_loop (fuel i : nat) (e : MerossEvent) : M unit := fun st =>
  match nth_error (_event_callbacks st) i with
  | None => ret tt st
  | Some c =>
      match fuel with
      | 0 => OutOfFuel
      | S fuel' =>
          (try_except (invoke c e)
             (fun _ => emit (log_exception exception_message)) ;;
           fire_loop fuel' (S i) e) st
      end
  end.

Definition _fire_event (fuel : nat) (eventobj : MerossEvent) : M unit :=
  emit (event_fired eventobj) ;;
  fire_loop fuel 0 eventobj.

Definition _ensure_started : M unit :=
  emit check_status_called ;;
  status <- gets connection_status ;;
  if negb (check_status status SUBSCRIBED)
  then emit (log_warn not_started_message)
  else ret tt.

Definition get_device_by_uuid (u : string) : M (option Handle) :=
  _ensure_started ;;
  with_lock DevicesLock (gets (fun st => dict_get u (_devices st))).

(** [s.lower()] for an attribute [s] of a device; [None] has no such
    method. *)
Definition lower_of (s : attr) : M string :=
  match s with
  | Some s => ret (lower w s)
  | None => raise (AttributeError "lower")
  end.

(** The loop of lines 81-83: the first device whose name matches is
    returned at once. *)
Fixpoint find_by_name (name : string) (items : Dict) : M (option Handle) :=
  match items with
  | [] => ret None
  | (k, v) :: rest =>
      n <- lower_of (hd_name v) ;;
      if String.eqb n (lower w name) then ret (Some v)
      else find_by_name name rest
  end.

Definition get_device_by_name (name : string) : M (option Handle) :=
  _ensure_started ;;
  with_lock DevicesLock
    (items <- gets _devices ;;
     find_by_name name items).

Definition get_supported_devices : M (list Handle) :=
  _ensure_started ;;
  gets (fun st => dict_values (_devices st)).

Definition get_devices_by_kind (clazz : DeviceClass) : M (list Handle) :=
  _ensure_started ;;
  with_lock DevicesLock
    (gets (fun st =>
       filter (fun v => isinstance v clazz) (dict_values (_devices st)))).

(** The loop of lines 103-105. *)
Fixpoint filter_by_type (type_name : string) (items : Dict)
  : M (list Handle) :=
  match items with
  | [] => ret []
  | (k, v) :: rest =>
      t <- lower_of (hd_type v) ;;
      res <- filter_by_type type_name rest ;;
      ret (if String.eqb t (lower w type_name) then v :: res else res)
  end.

Definition get_devices_by_type (type_name : string) : M (list Handle) :=
  _ensure_started ;;
  with_lock DevicesLock
    (items <- gets _devices ;;
     filter_by_type type_name items).

(** A factory call: the object it returns is new. *)
Definition allocate (b : option Blueprint) : M (option Handle) :=
  match b with
  | None => ret None
  | Some b =>
      o <- gets next_obj ;;
      modify (set_next_obj (S o)) ;;
      ret (Some (instantiate o b))
  end.

Definition call_build_wrapper (d_type d_id : string) (dev : Descriptor)
  : M (option Handle) :=
  device <- allocate (build_wrapper w d_type d_id dev) ;;
  emit (build_wrapper_called d_type d_id device) ;;
  ret device.

Definition call_build_subdevice_wrapper (d_type d_id : string)
    (parent_hub : Handle) (dev : Descriptor) : M (option Handle) :=
  device <- allocate (build_subdevice_wrapper w d_type d_id parent_hub dev) ;;
  emit (build_subdevice_wrapper_called d_type d_id parent_hub device) ;;
  ret device.

(** The first half of [_handle_device_discovered]: the [if]/[elif]/[else]
    that sets [d_id], [device_id] and [device].  [None] is the [else]
    branch, which warns and returns. *)
Definition resolve (dev : Descriptor) (parent_hub : option Handle)
  : M (option (string * string * option Handle)) :=
  match deviceType dev, uuid dev with
  | Some d_type, Some d_id =>
      let device_id := d_id in
      device <- call_build_wrapper d_type d_id dev ;;
      ret (Some (d_id, device_id, device))
  | _, _ =>
      match subDeviceType dev, subDeviceId dev with
      | Some d_type, Some d_id =>
          match parent_hub with
          | None => raise (AttributeError "uuid")
          | Some hub =>
              let device_id := format_pair (hd_uuid hub) d_id in
              device <- call_build_subdevice_wrapper d_type d_id hub dev ;;
              ret (Some (d_id, device_id, device))
          end
      | _, _ =>
          emit (log_warn malformed_message) ;;
          ret None
      end
  end.

Definition _handle_device_discovered (fuel : nat) (dev : Descriptor)
    (parent_hub : option Handle) : M (option Handle) :=
  r <- resolve dev parent_hub ;;
  match r with
  | None => ret None
  | Some (d_id, device_id, None) => ret None
  | Some (d_id, device_id, Some device) =>
      is_new <- with_lock DevicesLock
        (devices <- gets _devices ;;
         if negb (dict_contains d_id devices)
         then modify (set_devices (dict_set device_id device devices)) ;;
              ret true
         else ret false) ;;
      (if is_new : bool
       then
         with_lock EventCallbacksLock
           (cbs <- gets _event_callbacks ;;
            for_each cbs
              (fun c => emit (register_event_callback_called device c))) ;;
         _fire_event fuel (DeviceOnlineStatusEvent device (hd_online device))
       else ret tt) ;;
      ret (Some device)
  end.

(** The body of the loop of [_discover_devices]. *)
Definition discover_one (fuel : nat) (online_only : bool) (dev : Descriptor)
  : M unit :=
  match onlineStatus dev with
  | None => raise (KeyError "onlineStatus")
  | Some online =>
      if online_only && negb (Z.eqb online 1) then ret tt
      else
        discovered <- _handle_device_discovered fuel dev None ;;
        match discovered with
        | Some hub =>
            if isinstance hub GenericHub
            then
              emit (list_hub_subdevices_called (hd_uuid hub)) ;;
              for_each (list_hub_subdevices w (hd_uuid hub))
                (fun subdev =>
                   _handle_device_discovered fuel subdev (Some hub) ;;
                   ret tt)
            else ret tt
        | None => ret tt
        end
  end.

Definition _discover_devices (fuel : nat) (online_only : bool) : M Dict :=
  emit list_devices_called ;;
  for_each (list_devices w) (discover_one fuel online_only) ;;
  gets _devices.

Definition _dispatch_push_notification (fuel : nat) (message : Message)
    (from_myself : bool) : M unit :=
  let header := header message in
  let payload := payload message in
  match nth_error (split "/" (from_ header)) 2 with
  | None => raise IndexError
  | Some dev_uuid =>
      device <- with_lock DevicesLock
        (gets (fun st => dict_get dev_uuid (_devices st))) ;;
      match device with
      | Some device =>
          let namespace := namespace header in
          emit (handle_push_notification_called device namespace payload
                  from_myself)
      | None =>
          _discover_devices fuel false ;;
          ret tt
      end
  end.

(** [self._cloud_client.connect()]: the call is made, and what it raises
    is not caught. *)
Definition call_connect : M unit :=
  emit connect_called ;;
  match connect w with
  | Some e => raise e
  | None => ret tt
  end.

Definition start (fuel : nat) : M unit :=
  call_connect ;;
  _discover_devices fuel false ;;
  ret tt.

Definition stop : M unit :=
  emit close_called.

End MerossManager.

(** ** Reading logs and outcomes *)

Definition log_of {A} (o : Outcome A) : list Entry :=
  match o with
  | Returned _ _ l => l
  | Raised _ _ l => l
  | OutOfFuel => []
  end.

Definition effects (l : list Entry) : list Effect := map eff l.

(** The callbacks invoked, with the event each one received, in order. *)
Fixpoint invoked (l : list Entry) : list (callback * MerossEvent) :=
  match l with
  | [] => []
  | x :: rest =>
      match eff x with
      | callback_called c e => (c, e) :: invoked rest
      | _ => invoked rest
      end
  end.

(** How many times callback [c] was invoked. *)
Definition times_called (c : callback) (l : list Entry) : nat :=
  List.length (filter (fun p => Nat.eqb (fst p) c) (invoked l)).

(** The events handed to [_fire_event], in order. *)
Fixpoint fired (l : list Entry) : list MerossEvent :=
  match l with
  | [] => []
  | x :: rest =>
      match eff x with
      | event_fired e => e :: fired rest
      | _ => fired rest
      end
  end.

Definition is_list_devices (e : Effect) : bool :=
  match e with list_devices_called => true | _ => false end.

Definition is_push_delivery (e : Effect) : bool :=
  match e with
  | handle_push_notification_called _ _ _ _ => true
  | _ => false
  end.

Definition stamp (st : Manager) (e : Effect) : Entry :=
  mkEntry e (_devices_lock st) (_event_callbacks_lock st).

(** The branch of [_handle_device_discovered] a descriptor takes. *)
Inductive Shape := FullDevice | SubDevice | Neither.

Definition shape_of (dev : Descriptor) : Shape :=
  match deviceType dev, uuid dev with
  | Some _, Some _ => FullDevice
  | _, _ =>
      match subDeviceType dev, subDeviceId dev with
      | Some _, Some _ => SubDevice
      | _, _ => Neither
      end
  end.

(** ** Properties of logs and outcomes *)

(** The log of a fan-out over [cbs] when no callback calls back into the
    manager: one call per callback, followed by the logged exception when
    the callback raises. *)
Definition fanout_log (w : World) (e : MerossEvent) (st : Manager)
    (cbs : list callback) : list Entry :=
  flat_map
    (fun c =>
       stamp st (callback_called c e)
         :: match raises (script w c e) with
            | Some _ => [stamp st (log_exception exception_message)]
            | None => []
            end)
    cbs.

(** The lock stamps the manager gives to what it calls when it is entered
    with the devices lock held [d] times and the callbacks lock held [b]
    times: [device.register_event_callback] runs inside
    [with self._event_callbacks_lock], everything else outside both
    [with] blocks. *)
Definition well_stamped (d b : nat) (x : Entry) : bool :=
  Nat.eqb (devices_lock_held x) d
  && Nat.eqb (event_callbacks_lock_held x)
       (match eff x with
        | register_event_callback_called _ _ => S b
        | _ => b
        end).

(** The effects of handling discovered devices. *)
Definition discovery_effect (e : Effect) : bool :=
  match e with
  | build_wrapper_called _ _ _
  | build_subdevice_wrapper_called _ _ _ _
  | register_event_callback_called _ _
  | callback_called _ _
  | event_fired _
  | log_warn _
  | log_exception _
  | list_hub_subdevices_called _ => true
  | _ => false
  end.

Definition discovery_entry (d b : nat) (x : Entry) : bool :=
  discovery_effect (eff x) && well_stamped d b x.

(** The effects of the loop of [_fire_event]. *)
Definition fanout_effect (e : Effect) : bool :=
  match e with
  | callback_called _ _ | log_exception _ => true
  | _ => false
  end.

Definition fanout_entry (d b : nat) (x : Entry) : bool :=
  fanout_effect (eff x) && well_stamped d b x.

(** A computation that leaves the dict and the object counter alone. *)
Definition keeps_directory {A} (m : M A) : Prop :=
  forall st,
    match m st with
    | Returned _ st' _ | Raised _ st' _ =>
        _devices st' = _devices st /\ next_obj st' = next_obj st
    | OutOfFuel => True
    end.

Definition same_locks (st st' : Manager) : Prop :=
  _devices_lock st' = _devices_lock st
  /\ _event_callbacks_lock st' = _event_callbacks_lock st.

(** An outcome keeps the discipline [P] when the locks are back to what
    they were and every logged entry satisfies [P] at those lock counts. *)
Definition kept (P : nat -> nat -> Entry -> bool) {A} (st : Manager)
    (o : Outcome A) : Prop :=
  match o with
  | Returned _ st' l | Raised _ st' l =>
      same_locks st st'
      /\ forallb (P (_devices_lock st) (_event_callbacks_lock st)) l = true
  | OutOfFuel => True
  end.

Definition disciplined (P : nat -> nat -> Entry -> bool) {A} (m : M A)
  : Prop :=
  forall st, kept P st (m st).

(** A block that logs nothing, always returns and leaves the lock counts
    alone: what the manager does under the devices lock, and under the
    callbacks lock in [register_event_handler] and
    [unregister_event_handler]. *)
Definition silent {A} (m : M A) : Prop :=
  forall st, exists a st', m st = Returned a st' [] /\ same_locks st st'.

(** A computation that lets no error out. *)
Definition never_raises {A} (m : M A) : Prop :=
  forall st, match m st with Raised _ _ _ => False | _ => True end.


(** Started with [cbs] registered, the computation comes back, with [cbs]
    still registered. *)
Definition steady (cbs : list callback) {A} (m : M A) : Prop :=
  forall st, _event_callbacks st = cbs ->
    match m st with
    | Returned _ st' _ | Raised _ st' _ => _event_callbacks st' = cbs
    | OutOfFuel => False
    end.

(** ** Operations of the manager, for statements about all of them *)

Inductive Operation :=
| Start (fuel : nat)
| Stop
| RegisterEventHandler (c : callback)
| UnregisterEventHandler (c : callback)
| GetDeviceByUuid (u : string)
| GetDeviceByName (name : string)
| GetSupportedDevices
| GetDevicesByKind (clazz : DeviceClass)
| GetDevicesByType (type_name : string)
| DispatchPushNotification (fuel : nat) (message : Message)
    (from_myself : bool)
| DiscoverDevices (fuel : nat) (online_only : bool)
| HandleDeviceDiscovered (fuel : nat) (dev : Descriptor)
    (parent_hub : option Handle)
| FireEvent (fuel : nat) (eventobj : MerossEvent)
| EnsureStarted.

Definition void {A} (m : M A) : M unit := m ;; ret tt.

Definition perform (w : World) (op : Operation) : M unit :=
  match op with
  | Start fuel => start w fuel
  | Stop => stop
  | RegisterEventHandler c => register_event_handler c
  | UnregisterEventHandler c => unregister_event_handler c
  | GetDeviceByUuid u => void (get_device_by_uuid u)
  | GetDeviceByName name => void (get_device_by_name w name)
  | GetSupportedDevices => void get_supported_devices
  | GetDevicesByKind clazz => void (get_devices_by_kind clazz)
  | GetDevicesByType type_name => void (get_devices_by_type w type_name)
  | DispatchPushNotification fuel message from_myself =>
      _dispatch_push_notification w fuel message from_myself
  | DiscoverDevices fuel online_only =>
      void (_discover_devices w fuel online_only)
  | HandleDeviceDiscovered fuel dev parent_hub =>
      void (_handle_device_discovered w fuel dev parent_hub)
  | FireEvent fuel eventobj => _fire_event w fuel eventobj
  | EnsureStarted => _ensure_started
  end.

Definition lock_free (x : Entry) : bool :=
  Nat.eqb (devices_lock_held x) 0 && Nat.eqb (event_callbacks_lock_held x) 0.

(** ** A small fleet, for concrete runs *)

Module Fleet.

Definition hub (u : string) : Descriptor :=
  mkDescriptor (Some 1%Z) (Some "msh300") (Some u) None None (Some "hub").

Definition plug (u : string) : Descriptor :=
  mkDescriptor (Some 1%Z) (Some "mss310") (Some u) None None (Some "plug").

Definition valve (i : string) : Descriptor :=
  mkDescriptor None None None (Some "mts100v3") (Some i) None.

(** A factory in the manner of [meross_iot.cloud.device_factory]: the class
    follows the device type, the attributes follow the descriptor. *)
Definition factory (d_type d_id : string) (dev : Descriptor)
  : option Blueprint :=
  Some (mkBlueprint
          (if String.prefix "msh" d_type then GenericHub else GenericPlug)
          d_id
          (match devName dev with Some n => n | None => d_id end)
          d_type
          (match onlineStatus dev with Some 1%Z => true | _ => false end)).

Definition sub_factory (d_type d_id : string) (parent_hub : Handle)
    (dev : Descriptor) : option Blueprint :=
  Some (mkBlueprint
          (if String.eqb d_type "mts100v3" then ValveSubDevice
           else GenericSubDevice)
          (hd_uuid parent_hub) d_id d_type (hd_online parent_hub)).

Definition no_script (c : callback) (e : MerossEvent) : Script :=
  mkScript [] None.

(** One hub [H1] with one valve [S1] behind it. *)
Definition one_hub : World :=
  mkWorld [hub "H1"] (fun _ => [valve "S1"]) factory sub_factory no_script
    None ascii_lower.

(** Two hubs, each reporting a valve whose local identifier is [H1]. *)
Definition two_hubs : World :=
  mkWorld [hub "H1"; hub "H2"] (fun _ => [valve "H1"])
    factory sub_factory no_script None ascii_lower.

(** Callback 1 registers callback 2; callback 3 unregisters itself and
    raises; callback 6 raises; every other callback just returns. *)
Definition scripts (c : callback) (e : MerossEvent) : Script :=
  match c with
  | 1 => mkScript [call_register_event_handler 2] None
  | 3 => mkScript [call_unregister_event_handler 3] (Some (CallbackError 0))
  | 6 => mkScript [] (Some (CallbackError 1))
  | _ => mkScript [] None
  end.

Definition scripted : World :=
  mkWorld [plug "P1"] (fun _ => []) factory sub_factory scripts
    None ascii_lower.

(** The manager after a first pass over [one_hub]. *)
Definition one_hub_known : Manager :=
  Eval vm_compute in
    match _discover_devices one_hub 0 false init with
    | Returned _ st _ => st
    | _ => init
    end.

(** The state and the log of a second pass over [one_hub]. *)
Definition one_hub_again : Manager :=
  Eval vm_compute in
    match _discover_devices one_hub 0 false one_hub_known with
    | Returned _ st _ => st
    | _ => init
    end.

Definition one_hub_again_log : list Entry :=
  Eval vm_compute in
    match _discover_devices one_hub 0 false one_hub_known with
    | Returned _ _ log => log
    | _ => []
    end.

(** The manager after a first pass over [two_hubs]. *)
Definition two_hubs_known : Manager :=
  Eval vm_compute in
    match _discover_devices two_hubs 0 false init with
    | Returned _ st _ => st
    | _ => init
    end.

Definition with_callbacks (cbs : list callback) : Manager :=
  set_event_callbacks cbs init.

End Fleet.

(** The state after a factory call that returned [built]. *)
Definition after_build (built : option Blueprint) (st : Manager) : Manager :=
  match built with
  | Some _ => set_next_obj (S (next_obj st)) st
  | None => st
  end.

(** A known top-level device that is not a hub. *)
Definition known_plain_device (w : World) (devices : Dict)
    (dev : Descriptor) : Prop :=
  exists d_type d_id,
    deviceType dev = Some d_type /\ uuid dev = Some d_id
    /\ dict_contains d_id devices = true
    /\ forall b, build_wrapper w d_type d_id dev = Some b ->
                 issubclass (bp_class b) GenericHub = false.

(** What lines 82 and 104 compare when the attribute is a string. *)
Definition name_matches (w : World) (name : string) (kv : string * Handle)
  : bool :=
  match hd_name (snd kv) with
  | Some n => String.eqb (lower w n) (lower w name)
  | None => false
  end.

Definition type_matches (w : World) (type_name : string) (v : Handle)
  : bool :=
  match hd_type v with
  | Some t => String.eqb (lower w t) (lower w type_name)
  | None => false
  end.

Definition is_query (op : Operation) : bool :=
  match op with
  | GetDeviceByUuid _ | GetDeviceByName _ | GetSupportedDevices
  | GetDevicesByKind _ | GetDevicesByType _ => true
  | _ => false
  end.

(** A manager that is not subscribed and holds a plug whose name is
    [None]. *)
Definition nameless_plug : Manager :=
  mkManager [("P1", mkHandle 0 GenericPlug "P1" None "mss310" true)]
    0 [] 0 INITIALIZED 1.

(** The callbacks in [U] call nothing of the manager but
    [register_event_handler], and what they register is in [U]. *)
Definition registers_within (w : World) (e : MerossEvent)
    (U : list callback) : Prop :=
  forall c b, In c U -> In b (calls (script w c e)) ->
    exists c', b = call_register_event_handler c' /\ In c' U.


(** ** Statements that the code does not satisfy, as they are worded *)

(** The connectivity gate for the five queries: not subscribed, a query
    logs the warning, returns, and leaves the manager as it was. *)
Definition queries_never_fail : Prop :=
  forall w op st,
    is_query op = true ->
    check_status (connection_status st) SUBSCRIBED = false ->
    exists log,
      perform w op st = Returned tt st log
      /\ In (log_warn not_started_message) (effects log).


(** A fan-out under a snapshot: whatever the callbacks do, the callbacks
    invoked are those registered when [_fire_event] was entered, once each
    and in registration order. *)
Definition fan_out_uses_snapshot : Prop :=
  forall w fuel e st st' log,
    _fire_event w fuel e st = Returned tt st' log ->
    invoked log = map (fun c => (c, e)) (_event_callbacks st).

(** Failure isolation for every list of callbacks: when a registered
    callback raises, the fan-out still returns, the error is logged
    and each callback registered after it is invoked once. *)
Definition failure_never_skips_later_callbacks : Prop :=
  forall w fuel e st before c after x,
    _event_callbacks st = before ++ c :: after ->
    NoDup (_event_callbacks st) ->
    raises (script w c e) = Some x ->
    _fire_event w fuel e st <> OutOfFuel ->
    exists st' log,
      _fire_event w fuel e st = Returned tt st' log
      /\ In (log_exception exception_message) (effects log)
      /\ forall c', In c' after -> times_called c' log = 1.



(** Both locks free around every call that leaves the manager. *)
Definition no_lock_held_across_calls : Prop :=
  forall w op st,
    _devices_lock st = 0 -> _event_callbacks_lock st = 0 ->
    forallb lock_free (log_of (perform w op st)) = true.

(** ** Assertions on the manager's state *)

(** A Hoare triple for the monad: started in a state satisfying [P], the
    computation ends, when it returns [a], in a state satisfying [Q a] and,
    when it raises, in a state satisfying [E]. *)
Definition hoare {A} (P : Manager -> Prop) (m : M A)
    (Q : A -> Manager -> Prop) (E : Manager -> Prop) : Prop :=
  forall st, P st ->
    match m st with
    | Returned a st' _ => Q a st'
    | Raised _ st' _ => E st'
    | OutOfFuel => True
    end.

(** [I] is kept by [m], however [m] ends. *)
Definition preserves (I : Manager -> Prop) {A} (m : M A) : Prop :=
  hoare I m (fun _ => I) I.

Fixpoint has_colon (s : string) : bool :=
  match s with
  | EmptyString => false
  | String c rest => Ascii.eqb c ":" || has_colon rest
  end.

(** The devices on which callbacks were registered, with the callbacks, in
    order. *)
Fixpoint registered_on (l : list Entry) : list (Handle * callback) :=
  match l with
  | [] => []
  | x :: rest =>
      match eff x with
      | register_event_callback_called device c =>
          (device, c) :: registered_on rest
      | _ => registered_on rest
      end
  end.

(** A sequence of operations, one after the other. *)
Definition run (w : World) (ops : list Operation) : M unit :=
  for_each ops (perform w).

(** A callback that, each time it is invoked, registers a callback that
    was not registered before, and returns. *)
Definition restless_script (c : callback) (e : MerossEvent) : Script :=
  mkScript [call_register_event_handler (S c)] None.

Definition restless : World :=
  mkWorld [] (fun _ => []) (fun _ _ _ => None) (fun _ _ _ _ => None)
    restless_script None ascii_lower.

(** A world without devices, in which no callback calls back or raises. *)
Definition still : World :=
  mkWorld [] (fun _ => []) (fun _ _ _ => None) (fun _ _ _ _ => None)
    (fun _ _ => mkScript [] None) None ascii_lower.

(** A listing of top-level devices that the factory builds, none of them a
    hub. *)
Definition plain_fleet (w : World) : Prop :=
  forall dev, In dev (list_devices w) ->
    exists online d_type d_id b,
      onlineStatus dev = Some online
      /\ deviceType dev = Some d_type /\ uuid dev = Some d_id
      /\ build_wrapper w d_type d_id dev = Some b
      /\ issubclass (bp_class b) GenericHub = false.

(** The descriptor passes the filter of line 145. *)
Definition not_skipped (online_only : bool) (online : Z) : Prop :=
  online_only = false \/ online = 1%Z.

(** The same collaborators, with another answer to [list_devices]. *)
Definition with_listing (w : World) (l : list Descriptor) : World :=
  mkWorld l (list_hub_subdevices w) (build_wrapper w)
    (build_subdevice_wrapper w) (script w) (connect w) (lower w).

Definition is_online (dev : Descriptor) : bool :=
  match onlineStatus dev with
  | Some online => Z.eqb online 1
  | None => false
  end.

(** The manager after a first pass over the one plug of [Fleet.scripted]. *)
Definition plug_known : Manager :=
  Eval vm_compute in
    match _discover_devices Fleet.scripted 0 false init with
    | Returned _ st _ => st
    | _ => init
    end.

(** An outcome that is not a normal return. *)
Definition fails {A} (o : Outcome A) : Prop :=
  match o with
  | Returned _ _ _ => False
  | _ => True
  end.

(** Descriptors for concrete listings: a plug that is offline, a plug
    without an online status, and a valve with an online status. *)
Definition offline_plug (u : string) : Descriptor :=
  mkDescriptor (Some 0%Z) (Some "mss310") (Some u) None None (Some "plug").

Definition bare_plug (u : string) : Descriptor :=
  mkDescriptor None (Some "mss310") (Some u) None None (Some "plug").

Definition stray_valve (i : string) : Descriptor :=
  mkDescriptor (Some 1%Z) None None (Some "mts100v3") (Some i) None.

Definition mixed_fleet : World :=
  with_listing Fleet.scripted [Fleet.plug "P1"; offline_plug "P2"].

Definition bare_fleet : World :=
  with_listing Fleet.scripted [Fleet.plug "P1"; bare_plug "P2"].

Definition stray_fleet : World :=
  with_listing Fleet.scripted [Fleet.plug "P1"; stray_valve "S1"].

Fixpoint count_char (sep : ascii) (s : string) : nat :=
  match s with
  | EmptyString => 0
  | String c rest =>
      (if Ascii.eqb c sep then 1 else 0) + count_char sep rest
  end.

Definition hub_handle (o : nat) (u : string) : Handle :=
  mkHandle o GenericHub u "hub" "msh300" true.

(** The valve [S1] handled twice, behind [H1] and behind [H2]. *)
Definition two_valves : M (option Handle) :=
  _handle_device_discovered Fleet.one_hub 0 (Fleet.valve "S1")
    (Some (hub_handle 0 "H1")) ;;
  _handle_device_discovered Fleet.one_hub 0 (Fleet.valve "S1")
    (Some (hub_handle 1 "H2")).

(** A message whose origin is the topic of device [u]. *)
Definition message_from (u : string) : Message :=
  mkMessage
    (mkHeader (String.append "/appliance/" (String.append u "/publish"))
       "Appliance.Control.ToggleX")
    [("onoff", "1")].

(** A manager that holds three plugs; the second and the argument ["lAMP"]
    differ in case only, and the third has no name. *)
Definition three_plugs : Manager :=
  mkManager
    [("P1", mkHandle 0 GenericPlug "P1" "Desk" "mss310" true);
     ("P2", mkHandle 1 GenericPlug "P2" "Lamp" "MSS310" true);
     ("P3", mkHandle 2 GenericPlug "P3" None "mss110" true)]
    0 [] 0 SUBSCRIBED 3.

(** ** Basic facts *)

Lemma release_acquire (l : Lock) (st : Manager) : release l (acquire l st) = st.
Proof. destruct st, l; reflexivity. Qed.

Lemma nth_error_skipn_cons {A} (l : list A) (i : nat) (x : A) :
  nth_error l i = Some x -> skipn i l = x :: skipn (S i) l.
Proof.
  revert i; induction l as [|y l IH]; intros [|i] H; simpl in *;
    try discriminate.
  - now inversion H.
  - now apply IH.
Qed.

Lemma nth_error_skipn_nil {A} (l : list A) (i : nat) :
  nth_error l i = None -> skipn i l = [].
Proof.
  revert i; induction l as [|y l IH]; intros [|i] H; simpl in *;
    try discriminate; auto.
Qed.

Lemma invoked_app (l1 l2 : list Entry) :
  invoked (l1 ++ l2) = invoked l1 ++ invoked l2.
Proof.
  induction l1 as [|x l1 IH]; simpl; auto.
  destruct (eff x); simpl; now rewrite ?IH.
Qed.

Lemma fired_app (l1 l2 : list Entry) :
  fired (l1 ++ l2) = fired l1 ++ fired l2.
Proof.
  induction l1 as [|x l1 IH]; simpl; auto.
  destruct (eff x); simpl; now rewrite ?IH.
Qed.

(** ** The event fan-out *)

Section FanOut.

Variable w : World.

Lemma guarded_invoke_quiet (c : callback) (e : MerossEvent) (st : Manager) :
  calls (script w c e) = [] ->
  try_except (invoke w c e)
    (fun _ => emit (log_exception exception_message)) st
  = Returned tt st (fanout_log w e st [c]).
Proof.
  intros Hq. unfold try_except, invoke, bind, emit, fanout_log, stamp.
  rewrite Hq. simpl.
  destruct (raises (script w c e)); reflexivity.
Qed.

Lemma fire_loop_quiet (fuel : nat) : forall i e st,
  (forall c, In c (skipn i (_event_callbacks st)) ->
             calls (script w c e) = []) ->
  List.length (skipn i (_event_callbacks st)) <= fuel ->
  fire_loop w fuel i e st
  = Returned tt st (fanout_log w e st (skipn i (_event_callbacks st))).
Proof.
  induction fuel as [|fuel IH]; intros i e st Hq Hlen.
  - destruct (skipn i (_event_callbacks st)) as [|c rest] eqn:Hs;
      [|simpl in Hlen; lia].
    destruct (nth_error (_event_callbacks st) i) as [c|] eqn:Hn.
    + rewrite (nth_error_skipn_cons _ _ Hn) in Hs. discriminate.
    + simpl. rewrite Hn. reflexivity.
  - simpl. destruct (nth_error (_event_callbacks st) i) as [c|] eqn:Hn.
    + pose proof (nth_error_skipn_cons _ _ Hn) as Hs.
      rewrite Hs in Hq, Hlen |- *.
      change (S (List.length (skipn (S i) (_event_callbacks st))) <= S fuel)
        in Hlen.
      unfold bind at 1.
      rewrite guarded_invoke_quiet by (apply Hq; now left).
      rewrite IH; [|intros c' Hc'; apply Hq; now right|lia].
      unfold fanout_log.
      change (c :: skipn (S i) (_event_callbacks st))
        with ([c] ++ skipn (S i) (_event_callbacks st)).
      now rewrite flat_map_app.
    + rewrite (nth_error_skipn_nil _ _ Hn). reflexivity.
Qed.

Lemma fire_event_quiet (fuel : nat) (e : MerossEvent) (st : Manager) :
  (forall c, In c (_event_callbacks st) -> calls (script w c e) = []) ->
  List.length (_event_callbacks st) <= fuel ->
  _fire_event w fuel e st
  = Returned tt st
      (stamp st (event_fired e) :: fanout_log w e st (_event_callbacks st)).
Proof.
  intros Hq Hlen. unfold _fire_event, bind, emit.
  rewrite fire_loop_quiet by assumption. reflexivity.
Qed.

Lemma invoked_fanout_log (e : MerossEvent) (st : Manager)
    (cbs : list callback) :
  invoked (fanout_log w e st cbs) = map (fun c => (c, e)) cbs.
Proof.
  induction cbs as [|c cbs IH]; simpl; auto.
  fold (fanout_log w e st cbs).
  destruct (raises (script w c e)); simpl; now rewrite IH.
Qed.

End FanOut.

(** ** Lock stamps and effect kinds, compositionally *)

Section Discipline.

Variable P : nat -> nat -> Entry -> bool.

Lemma kept_bind {A B} (m : M A) (f : A -> M B) (st : Manager) :
  kept P st (m st) ->
  (forall a st1 l1, m st = Returned a st1 l1 -> kept P st1 (f a st1)) ->
  kept P st (bind m f st).
Proof.
  unfold bind. intros Hm Hf.
  destruct (m st) as [a st1 l1| |]; auto.
  specialize (Hf a st1 l1 eq_refl).
  destruct Hm as [[Hd Hb] Hl].
  destruct (f a st1) as [b' st2 l2|e st2 l2|]; simpl in *; auto;
    destruct Hf as [[Hd' Hb'] Hl']; rewrite Hd, Hb in *;
    (split; [split; congruence|]); rewrite forallb_app, Hl, Hl'; reflexivity.
Qed.

Lemma disciplined_bind {A B} (m : M A) (f : A -> M B) :
  disciplined P m -> (forall a, disciplined P (f a)) ->
  disciplined P (bind m f).
Proof. intros Hm Hf st. apply kept_bind; auto. intros; apply Hf. Qed.

Lemma disciplined_ret {A} (a : A) : disciplined P (ret a).
Proof. intro st; simpl; repeat split. Qed.

Lemma disciplined_raise {A} (e : PyError) : disciplined P (@raise A e).
Proof. intro st; simpl; repeat split. Qed.

Lemma disciplined_gets {A} (f : Manager -> A) : disciplined P (gets f).
Proof. intro st; simpl; repeat split. Qed.

Lemma disciplined_modify (f : Manager -> Manager) :
  (forall st, same_locks st (f st)) -> disciplined P (modify f).
Proof. intros Hf st; simpl; split; [apply Hf|reflexivity]. Qed.

Lemma disciplined_emit (e : Effect) :
  (forall d b, P d b (mkEntry e d b) = true) -> disciplined P (emit e).
Proof.
  intros He st; simpl. split; [split; reflexivity|].
  now rewrite He.
Qed.

Lemma disciplined_try_except {A} (m : M A) (handler : PyError -> M A) :
  disciplined P m -> (forall e, disciplined P (handler e)) ->
  disciplined P (try_except m handler).
Proof.
  intros Hm Hh st. unfold try_except.
  specialize (Hm st). destruct (m st) as [a st1 l1|e st1 l1|]; auto.
  specialize (Hh e st1). destruct Hm as [[Hd Hb] Hl].
  destruct (handler e st1) as [b' st2 l2|e2 st2 l2|]; simpl in *; auto;
    destruct Hh as [[Hd' Hb'] Hl']; rewrite Hd, Hb in *;
    (split; [split; congruence|]); rewrite forallb_app, Hl, Hl'; reflexivity.
Qed.

Lemma disciplined_for_each {A} (l : list A) (body : A -> M unit) :
  (forall x, disciplined P (body x)) -> disciplined P (for_each l body).
Proof.
  intros Hb. induction l as [|x l IH]; simpl.
  - apply disciplined_ret.
  - apply disciplined_bind; auto.
Qed.

Lemma silent_ret {A} (a : A) : silent (ret a).
Proof. intro st; exists a, st; repeat split. Qed.

Lemma silent_gets {A} (f : Manager -> A) : silent (gets f).
Proof. intro st; exists (f st), st; repeat split. Qed.

Lemma silent_modify (f : Manager -> Manager) :
  (forall st, same_locks st (f st)) -> silent (modify f).
Proof. intros Hf st; exists tt, (f st); split; [reflexivity|apply Hf]. Qed.

Lemma silent_bind {A B} (m : M A) (f : A -> M B) :
  silent m -> (forall a, silent (f a)) -> silent (bind m f).
Proof.
  intros Hm Hf st. destruct (Hm st) as (a & st1 & E1 & [Hd Hb]).
  destruct (Hf a st1) as (b' & st2 & E2 & [Hd' Hb']).
  exists b', st2. unfold bind. rewrite E1, E2.
  split; [reflexivity|split; congruence].
Qed.

Lemma same_locks_release_acquire (l : Lock) (st st' : Manager) :
  same_locks (acquire l st) st' -> same_locks st (release l st').
Proof.
  destruct st, st', l; unfold same_locks; simpl; intros [Hd Hb]; subst;
    split; reflexivity.
Qed.

Lemma disciplined_with_lock_silent {A} (l : Lock) (body : M A) :
  silent body -> disciplined P (with_lock l body).
Proof.
  intros Hs st. unfold with_lock.
  destruct (Hs (acquire l st)) as (a & st' & E & Hl). rewrite E. simpl.
  split; [now apply same_locks_release_acquire|reflexivity].
Qed.

End Discipline.

Lemma same_locks_set_devices (d : Dict) (st : Manager) :
  same_locks st (set_devices d st).
Proof. split; reflexivity. Qed.

Lemma same_locks_set_event_callbacks (l : list callback) (st : Manager) :
  same_locks st (set_event_callbacks l st).
Proof. split; reflexivity. Qed.

Lemma same_locks_set_next_obj (n : nat) (st : Manager) :
  same_locks st (set_next_obj n st).
Proof. split; reflexivity. Qed.

Lemma kept_weaken (P Q : nat -> nat -> Entry -> bool) {A} (st : Manager)
    (o : Outcome A) :
  (forall d b x, P d b x = true -> Q d b x = true) ->
  kept P st o -> kept Q st o.
Proof.
  intros HPQ. destruct o as [a st' l|e st' l|]; simpl; auto;
    intros [Hl Hall]; (split; [assumption|]);
    rewrite forallb_forall in *; auto.
Qed.

Lemma disciplined_weaken (P Q : nat -> nat -> Entry -> bool) {A} (m : M A) :
  (forall d b x, P d b x = true -> Q d b x = true) ->
  disciplined P m -> disciplined Q m.
Proof. intros HPQ Hm st. eapply kept_weaken; eauto. Qed.

Lemma discovery_entry_well_stamped (d b : nat) (x : Entry) :
  discovery_entry d b x = true -> well_stamped d b x = true.
Proof. unfold discovery_entry; intros H; now apply andb_prop in H. Qed.

(** ** The discipline of each method *)

Ltac stamps :=
  intros; unfold discovery_entry, fanout_entry, well_stamped; simpl;
  rewrite ?Nat.eqb_refl; reflexivity.

Ltac discipline :=
  repeat match goal with
  | |- disciplined _ (ret _) => apply disciplined_ret
  | |- disciplined _ (raise _) => apply disciplined_raise
  | |- disciplined _ (gets _) => apply disciplined_gets
  | |- disciplined _ (modify _) =>
      apply disciplined_modify; intro; split; reflexivity
  | |- disciplined _ (emit _) => apply disciplined_emit; stamps
  | |- disciplined _ (bind _ _) => apply disciplined_bind; [|intro]
  end.

Ltac silence :=
  repeat match goal with
  | |- silent (ret _) => apply silent_ret
  | |- silent (gets _) => apply silent_gets
  | |- silent (modify _) => apply silent_modify; intro; split; reflexivity
  | |- silent (bind _ _) => apply silent_bind; [|intro]
  end.

Section MethodDiscipline.

Variable w : World.

Lemma for_each_emit {A} (g : A -> Effect) (l : list A) (st : Manager) :
  for_each l (fun x => emit (g x)) st
  = Returned tt st (map (fun x => stamp st (g x)) l).
Proof.
  induction l as [|x l IH]; simpl; auto.
  unfold bind. change (emit (g x) st) with (Returned tt st [stamp st (g x)]).
  cbv iota beta. rewrite IH. reflexivity.
Qed.

(** Lines 192-194: the callbacks known to the manager are registered on the
    new device while the callbacks lock is held. *)
Lemma register_known_callbacks (device : Handle) (st : Manager) :
  with_lock EventCallbacksLock
    (cbs <- gets _event_callbacks ;;
     for_each cbs (fun c => emit (register_event_callback_called device c))) st
  = Returned tt st
      (map (fun c => mkEntry (register_event_callback_called device c)
                       (_devices_lock st) (S (_event_callbacks_lock st)))
         (_event_callbacks st)).
Proof.
  unfold with_lock, bind, gets. rewrite for_each_emit.
  cbv iota beta. rewrite (release_acquire EventCallbacksLock).
  destruct st; reflexivity.
Qed.

Lemma silent_register_body (c : callback) :
  silent (cbs <- gets _event_callbacks ;;
          if mem c cbs then ret tt
          else modify (set_event_callbacks (cbs ++ [c]))).
Proof. silence. destruct (mem c a); simpl; silence. Qed.

Lemma silent_unregister_body (c : callback) :
  silent (cbs <- gets _event_callbacks ;;
          if negb (mem c cbs) then ret tt
          else modify (set_event_callbacks (remove_first c cbs))).
Proof. silence. destruct (mem c a); simpl; silence. Qed.

Lemma disciplined_register P (c : callback) :
  disciplined P (register_event_handler c).
Proof. apply disciplined_with_lock_silent, silent_register_body. Qed.

Lemma disciplined_unregister P (c : callback) :
  disciplined P (unregister_event_handler c).
Proof. apply disciplined_with_lock_silent, silent_unregister_body. Qed.

Lemma disciplined_invoke (c : callback) (e : MerossEvent) :
  disciplined fanout_entry (invoke w c e).
Proof.
  unfold invoke. discipline.
  - apply disciplined_for_each. intros [c'|c']; simpl.
    + apply disciplined_register.
    + apply disciplined_unregister.
  - destruct (raises (script w c e)); discipline.
Qed.

Lemma fanout_loop_entries (fuel : nat) : forall i e,
  disciplined fanout_entry (fire_loop w fuel i e).
Proof.
  induction fuel as [|fuel IH]; intros i e st; simpl;
    destruct (nth_error (_event_callbacks st) i) as [c|];
    try (apply disciplined_ret); try exact I.
  apply disciplined_bind; [|intro; apply IH].
  apply disciplined_try_except; [apply disciplined_invoke|].
  intro. discipline.
Qed.

Lemma disciplined_fire_loop (fuel i : nat) (e : MerossEvent) :
  disciplined discovery_entry (fire_loop w fuel i e).
Proof.
  apply disciplined_weaken with (P := fanout_entry);
    [|apply fanout_loop_entries].
  intros d b x. unfold fanout_entry, discovery_entry.
  destruct (eff x); simpl; intros H; try discriminate; exact H.
Qed.

Lemma disciplined_fire_event (fuel : nat) (e : MerossEvent) :
  disciplined discovery_entry (_fire_event w fuel e).
Proof. unfold _fire_event. discipline. apply disciplined_fire_loop. Qed.

Lemma disciplined_allocate P (b : option Blueprint) :
  disciplined P (allocate b).
Proof. destruct b; simpl; discipline. Qed.

Lemma disciplined_resolve (dev : Descriptor) (parent_hub : option Handle) :
  disciplined discovery_entry (resolve w dev parent_hub).
Proof.
  unfold resolve, call_build_wrapper, call_build_subdevice_wrapper.
  destruct (deviceType dev), (uuid dev), (subDeviceType dev),
    (subDeviceId dev), parent_hub;
    discipline; apply disciplined_allocate.
Qed.

Lemma silent_insert_if_new (d_id device_id : string) (device : Handle) :
  silent (devices <- gets _devices ;;
          if negb (dict_contains d_id devices)
          then modify (set_devices (dict_set device_id device devices)) ;;
               ret true
          else ret false).
Proof. silence. destruct (dict_contains d_id a); simpl; silence. Qed.

Lemma disciplined_handle_device_discovered (fuel : nat) (dev : Descriptor)
    (parent_hub : option Handle) :
  disciplined discovery_entry (_handle_device_discovered w fuel dev parent_hub).
Proof.
  unfold _handle_device_discovered.
  apply disciplined_bind; [apply disciplined_resolve|].
  intros [[[d_id device_id] [device|]]|]; discipline.
  - apply disciplined_with_lock_silent, silent_insert_if_new.
  - destruct a; discipline.
    + intro st. rewrite register_known_callbacks. simpl.
      split; [split; reflexivity|].
      rewrite forallb_forall. intros x Hx. apply in_map_iff in Hx.
      destruct Hx as (c & <- & _). stamps.
    + apply disciplined_fire_event.
Qed.

Lemma disciplined_discover_one (fuel : nat) (online_only : bool)
    (dev : Descriptor) :
  disciplined discovery_entry (discover_one w fuel online_only dev).
Proof.
  unfold discover_one. destruct (onlineStatus dev) as [online|]; discipline.
  destruct (online_only && negb (Z.eqb online 1)); discipline.
  - apply disciplined_handle_device_discovered.
  - destruct a as [hub|]; discipline.
    destruct (isinstance hub GenericHub); discipline.
    apply disciplined_for_each. intro subdev. discipline.
    apply disciplined_handle_device_discovered.
Qed.

Lemma disciplined_discovery_loop (fuel : nat) (online_only : bool)
    (l : list Descriptor) :
  disciplined discovery_entry (for_each l (discover_one w fuel online_only)).
Proof. apply disciplined_for_each, disciplined_discover_one. Qed.

End MethodDiscipline.

(** ** Which methods can raise *)

Lemma never_raises_ret {A} (a : A) : never_raises (ret a).
Proof. intro st; exact I. Qed.

Lemma never_raises_gets {A} (f : Manager -> A) : never_raises (gets f).
Proof. intro st; exact I. Qed.

Lemma never_raises_modify (f : Manager -> Manager) : never_raises (modify f).
Proof. intro st; exact I. Qed.

Lemma never_raises_emit (e : Effect) : never_raises (emit e).
Proof. intro st; exact I. Qed.

Lemma never_raises_bind {A B} (m : M A) (f : A -> M B) :
  never_raises m -> (forall a, never_raises (f a)) -> never_raises (bind m f).
Proof.
  intros Hm Hf st. unfold bind. specialize (Hm st).
  destruct (m st) as [a st1 l1| |]; auto.
  specialize (Hf a st1). destruct (f a st1); auto.
Qed.

(** A bare [except] whose handler does not raise swallows every error of
    the guarded block. *)
Lemma never_raises_try_except {A} (m : M A) (handler : PyError -> M A) :
  (forall e, never_raises (handler e)) -> never_raises (try_except m handler).
Proof.
  intros Hh st. unfold try_except.
  destruct (m st) as [a st1 l1|e st1 l1|]; auto.
  specialize (Hh e st1). destruct (handler e st1); auto.
Qed.

Lemma never_raises_for_each {A} (l : list A) (body : A -> M unit) :
  (forall x, In x l -> never_raises (body x)) -> never_raises (for_each l body).
Proof.
  induction l as [|x l IH]; intros Hb; simpl.
  - apply never_raises_ret.
  - apply never_raises_bind; [apply Hb; now left|].
    intros _. apply IH. intros y Hy. apply Hb. now right.
Qed.

Lemma never_raises_with_lock {A} (l : Lock) (body : M A) :
  never_raises body -> never_raises (with_lock l body).
Proof.
  intros Hb st. unfold with_lock. specialize (Hb (acquire l st)).
  destruct (body (acquire l st)); auto.
Qed.

Ltac no_raise :=
  repeat match goal with
  | |- never_raises (ret _) => apply never_raises_ret
  | |- never_raises (gets _) => apply never_raises_gets
  | |- never_raises (modify _) => apply never_raises_modify
  | |- never_raises (emit _) => apply never_raises_emit
  | |- never_raises (with_lock _ _) => apply never_raises_with_lock
  | |- never_raises (bind _ _) => apply never_raises_bind; [|intro]
  end.

Section MethodSafety.

Variable w : World.

Lemma never_raises_fire_loop (fuel : nat) : forall i e,
  never_raises (fire_loop w fuel i e).
Proof.
  induction fuel as [|fuel IH]; intros i e st; simpl;
    destruct (nth_error (_event_callbacks st) i) as [c|]; try exact I.
  apply never_raises_bind; [|intro; apply IH].
  apply never_raises_try_except. intro. no_raise.
Qed.

(** [_fire_event] never lets an error out, whatever the callbacks do. *)
Lemma never_raises_fire_event (fuel : nat) (e : MerossEvent) :
  never_raises (_fire_event w fuel e).
Proof. unfold _fire_event. no_raise. apply never_raises_fire_loop. Qed.

Lemma never_raises_allocate (b : option Blueprint) : never_raises (allocate b).
Proof. destruct b; simpl; no_raise. Qed.

Lemma never_raises_resolve (dev : Descriptor) (parent_hub : option Handle) :
  shape_of dev <> SubDevice \/ parent_hub <> None ->
  never_raises (resolve w dev parent_hub).
Proof.
  unfold resolve, shape_of, call_build_wrapper, call_build_subdevice_wrapper.
  intros H.
  destruct (deviceType dev), (uuid dev), (subDeviceType dev),
    (subDeviceId dev), parent_hub;
    no_raise; try apply never_raises_allocate;
    destruct H as [H|H]; congruence.
Qed.

Lemma never_raises_handle_device_discovered (fuel : nat) (dev : Descriptor)
    (parent_hub : option Handle) :
  shape_of dev <> SubDevice \/ parent_hub <> None ->
  never_raises (_handle_device_discovered w fuel dev parent_hub).
Proof.
  intros H. unfold _handle_device_discovered.
  apply never_raises_bind; [now apply never_raises_resolve|].
  intros [[[d_id device_id] [device|]]|]; no_raise.
  - destruct (dict_contains d_id a); simpl; no_raise.
  - destruct a; no_raise.
    + apply never_raises_for_each. intros; no_raise.
    + apply never_raises_fire_event.
Qed.



End MethodSafety.

(** ** Termination when the callbacks leave the manager alone *)

Section Quiet.

Variable w : World.
Variable fuel : nat.
Variable cbs : list callback.

Hypothesis quiet : forall c e, In c cbs -> calls (script w c e) = [].
Hypothesis enough : List.length cbs <= fuel.

Lemma steady_ret {A} (a : A) : steady cbs (ret a).
Proof. intros st H; exact H. Qed.

Lemma steady_raise {A} (e : PyError) : steady cbs (@raise A e).
Proof. intros st H; exact H. Qed.

Lemma steady_gets {A} (f : Manager -> A) : steady cbs (gets f).
Proof. intros st H; exact H. Qed.

Lemma steady_emit (e : Effect) : steady cbs (emit e).
Proof. intros st H; exact H. Qed.

Lemma steady_modify (f : Manager -> Manager) :
  (forall st, _event_callbacks (f st) = _event_callbacks st) ->
  steady cbs (modify f).
Proof. intros Hf st H; simpl. now rewrite Hf. Qed.

Lemma steady_bind {A B} (m : M A) (f : A -> M B) :
  steady cbs m -> (forall a, steady cbs (f a)) -> steady cbs (bind m f).
Proof.
  intros Hm Hf st H. unfold bind. specialize (Hm st H).
  destruct (m st) as [a st1 l1| |]; auto.
  specialize (Hf a st1 Hm). destruct (f a st1); auto.
Qed.

Lemma steady_for_each {A} (l : list A) (body : A -> M unit) :
  (forall x, steady cbs (body x)) -> steady cbs (for_each l body).
Proof.
  intros Hb. induction l as [|x l IH]; simpl.
  - apply steady_ret.
  - apply steady_bind; auto.
Qed.

Lemma steady_with_lock {A} (l : Lock) (body : M A) :
  steady cbs body -> steady cbs (with_lock l body).
Proof.
  intros Hb st H. unfold with_lock.
  assert (Ha : _event_callbacks (acquire l st) = cbs)
    by (destruct l; exact H).
  specialize (Hb _ Ha).
  destruct (body (acquire l st)) as [a st1 l1|e st1 l1|]; auto;
    destruct l; exact Hb.
Qed.

Lemma steady_fire_event (e : MerossEvent) : steady cbs (_fire_event w fuel e).
Proof.
  intros st H. rewrite fire_event_quiet.
  - exact H.
  - intros c Hc. apply quiet. now rewrite <- H.
  - now rewrite H.
Qed.

Ltac steadily :=
  repeat match goal with
  | |- steady _ (ret _) => apply steady_ret
  | |- steady _ (raise _) => apply steady_raise
  | |- steady _ (gets _) => apply steady_gets
  | |- steady _ (emit _) => apply steady_emit
  | |- steady _ (modify _) => apply steady_modify; intro; reflexivity
  | |- steady _ (with_lock _ _) => apply steady_with_lock
  | |- steady _ (for_each _ _) => apply steady_for_each; intro
  | |- steady _ (_fire_event _ _ _) => apply steady_fire_event
  | |- steady _ (bind _ _) => apply steady_bind; [|intro]
  end.

Lemma steady_handle_device_discovered (dev : Descriptor)
    (parent_hub : option Handle) :
  steady cbs (_handle_device_discovered w fuel dev parent_hub).
Proof.
  unfold _handle_device_discovered, resolve, call_build_wrapper,
    call_build_subdevice_wrapper, allocate.
  destruct (deviceType dev), (uuid dev), (subDeviceType dev),
    (subDeviceId dev), parent_hub;
    steadily;
    repeat match goal with
    | |- steady _ (match ?x with _ => _ end) => destruct x; steadily
    end.
Qed.



End Quiet.

(** ** Inverting a computation that returned *)

Lemma bind_returned {A B} (m : M A) (f : A -> M B) (st st' : Manager)
    (b : B) (log : list Entry) :
  bind m f st = Returned b st' log ->
  exists a st1 l1 l2,
    m st = Returned a st1 l1 /\ f a st1 = Returned b st' l2 /\ log = l1 ++ l2.
Proof.
  unfold bind. destruct (m st) as [a st1 l1| |]; try discriminate.
  destruct (f a st1) as [b' st2 l2| |] eqn:E; try discriminate.
  intros H; inversion H; subst. now exists a, st1, l1, l2.
Qed.

Lemma for_each_returned_In {A} (body : A -> M unit) (x : A) :
  forall (l : list A) (st st' : Manager) (log : list Entry),
    for_each l body st = Returned tt st' log ->
    In x l ->
    exists st1 st2 lx,
      body x st1 = Returned tt st2 lx /\ incl lx log.
Proof.
  induction l as [|y l IH]; intros st st' log H Hin; [contradiction|].
  simpl in H. apply bind_returned in H.
  destruct H as ([] & st1 & l1 & l2 & Hy & Hrest & ->).
  destruct Hin as [->|Hin].
  - exists st, st1, l1. split; [assumption|]. now apply incl_appl, incl_refl.
  - destruct (IH _ _ _ Hrest Hin) as (sa & sb & lx & Hx & Hincl).
    exists sa, sb, lx. split; [assumption|]. now apply incl_appr.
Qed.

Lemma effects_incl (l1 l2 : list Entry) (e : Entry) :
  incl l1 l2 -> In e l1 -> In (eff e) (effects l2).
Proof. intros Hi He. apply in_map, Hi, He. Qed.


(** * The claims *)

(** ** Queries *)

Section Queries.

Variable w : World.

Lemma find_by_name_named (name : string) (items : Dict) (st : Manager) :
  Forall (fun kv => hd_name (snd kv) <> None) items ->
  find_by_name w name items st
  = Returned (option_map snd (find (name_matches w name) items)) st [].
Proof.
  induction 1 as [|[k v] items Hv _ IH]; [reflexivity|].
  simpl in *. unfold name_matches at 1. simpl.
  destruct (hd_name v) as [n|]; [|now elim Hv].
  unfold bind, lower_of, ret.
  destruct (String.eqb (lower w n) (lower w name)); [reflexivity|].
  now rewrite IH.
Qed.

(** The scan for a name stops at the first match, and fails at a device
    without a name that it reaches before any match. *)
Lemma find_by_name_first (name : string) (before after : Dict) (k : string)
    (v : Handle) (st : Manager) :
  (forall kv, In kv before -> exists n,
      hd_name (snd kv) = Some n /\ lower w n <> lower w name) ->
  find_by_name w name (before ++ (k, v) :: after) st
  = match hd_name v with
    | None => Raised (AttributeError "lower") st []
    | Some n =>
        if String.eqb (lower w n) (lower w name) then Returned (Some v) st []
        else find_by_name w name after st
    end.
Proof.
  induction before as [|[k' v'] before IH]; intros Hb; simpl.
  - unfold bind, lower_of, ret, raise.
    destruct (hd_name v) as [n|]; [|reflexivity].
    destruct (String.eqb (lower w n) (lower w name)); [reflexivity|].
    destruct (find_by_name w name after st); reflexivity.
  - destruct (Hb (k', v') (or_introl eq_refl)) as (n' & Hn' & Hne).
    simpl in Hn'. unfold bind at 1, lower_of at 1, ret. rewrite Hn'.
    apply String.eqb_neq in Hne. rewrite Hne.
    rewrite IH by (intros kv Hkv; apply Hb; now right).
    destruct (hd_name v) as [n|]; [|reflexivity].
    destruct (String.eqb (lower w n) (lower w name)); [reflexivity|].
    destruct (find_by_name w name after st); reflexivity.
Qed.

Lemma filter_by_type_typed (type_name : string) (items : Dict)
    (st : Manager) :
  Forall (fun kv => hd_type (snd kv) <> None) items ->
  filter_by_type w type_name items st
  = Returned (filter (type_matches w type_name) (dict_values items)) st [].
Proof.
  induction 1 as [|[k v] items Hv _ IH]; [reflexivity|].
  simpl in *. unfold type_matches at 1.
  destruct (hd_type v) as [t|]; [|now elim Hv].
  unfold bind, lower_of, ret. rewrite IH.
  destruct (String.eqb (lower w t) (lower w type_name)); reflexivity.
Qed.

Lemma filter_by_type_untyped (type_name : string) (items : Dict)
    (st : Manager) :
  Exists (fun kv => hd_type (snd kv) = None) items ->
  filter_by_type w type_name items st = Raised (AttributeError "lower") st [].
Proof.
  induction 1 as [[k v] items Hv|[k v] items _ IH]; simpl in *.
  - unfold bind, lower_of, raise. now rewrite Hv.
  - unfold bind, lower_of, ret, raise.
    destruct (hd_type v); [|reflexivity]. now rewrite IH.
Qed.

(** A scan of the dict under the devices lock, after the status check. *)
Lemma locked_scan {A} (scan : Dict -> M A) (st : Manager) (l : list Entry) :
  _ensure_started st = Returned tt st l ->
  (_ensure_started ;;
   with_lock DevicesLock (items <- gets _devices ;; scan items)) st
  = match scan (_devices st) (acquire DevicesLock st) with
    | Returned r st1 l1 => Returned r (release DevicesLock st1) (l ++ l1)
    | Raised e st1 l1 => Raised e (release DevicesLock st1) (l ++ l1)
    | OutOfFuel => OutOfFuel
    end.
Proof.
  intros Hl. unfold bind at 1. rewrite Hl.
  unfold with_lock, bind, gets.
  change (_devices (acquire DevicesLock st)) with (_devices st).
  destruct (scan (_devices st) (acquire DevicesLock st)); simpl;
    rewrite ?app_nil_r; reflexivity.
Qed.

Lemma ensure_started_warns (st : Manager) :
  check_status (connection_status st) SUBSCRIBED = false ->
  _ensure_started st
  = Returned tt st
      [stamp st check_status_called; stamp st (log_warn not_started_message)].
Proof.
  intros Hs. unfold _ensure_started, bind, gets, emit, stamp.
  rewrite Hs. reflexivity.
Qed.

Lemma find_by_name_pure (name : string) (items : Dict) (st : Manager) :
  (exists r, find_by_name w name items st = Returned r st [])
  \/ find_by_name w name items st = Raised (AttributeError "lower") st [].
Proof.
  induction items as [|[k v] items IH]; simpl.
  - left. eexists. reflexivity.
  - unfold bind, lower_of, ret, raise.
    destruct (hd_name v) as [n|]; [|now right].
    destruct (String.eqb (lower w n) (lower w name)).
    + left. eexists. reflexivity.
    + destruct IH as [(r & ->)| ->]; [left; eexists|right]; reflexivity.
Qed.

Lemma filter_by_type_pure (type_name : string) (items : Dict)
    (st : Manager) :
  (exists r, filter_by_type w type_name items st = Returned r st [])
  \/ filter_by_type w type_name items st
     = Raised (AttributeError "lower") st [].
Proof.
  induction items as [|[k v] items IH]; simpl.
  - left. eexists. reflexivity.
  - unfold bind, lower_of, ret, raise.
    destruct (hd_type v) as [t|]; [|now right].
    destruct IH as [(r & ->)| ->]; [left; eexists|right]; reflexivity.
Qed.

Lemma disciplined_locked_scan (P : nat -> nat -> Entry -> bool) {A}
    (scan : Dict -> M A) :
  (forall items st,
      (exists r, scan items st = Returned r st [])
      \/ (exists e, scan items st = Raised e st [])) ->
  disciplined P (with_lock DevicesLock (items <- gets _devices ;; scan items)).
Proof.
  intros Hp st. unfold with_lock, bind, gets.
  destruct (Hp (_devices (acquire DevicesLock st)) (acquire DevicesLock st))
    as [(r & ->)|(e & ->)]; destruct st; simpl;
    (split; [split; reflexivity|reflexivity]).
Qed.

Lemma disciplined_get_device_by_name (P : nat -> nat -> Entry -> bool)
    (name : string) :
  disciplined P (with_lock DevicesLock
                   (items <- gets _devices ;; find_by_name w name items)).
Proof.
  apply disciplined_locked_scan. intros items st.
  destruct (find_by_name_pure name items st) as [H|H]; [now left|right].
  eexists. exact H.
Qed.

Lemma disciplined_get_devices_by_type (P : nat -> nat -> Entry -> bool)
    (type_name : string) :
  disciplined P (with_lock DevicesLock
                   (items <- gets _devices ;;
                    filter_by_type w type_name items)).
Proof.
  apply disciplined_locked_scan. intros items st.
  destruct (filter_by_type_pure type_name items st) as [H|H]; [now left|right].
  eexists. exact H.
Qed.

(** C8, refuted as worded: the manager holds a plug whose name is [None];
    not subscribed, [get_device_by_name] logs the warning and then raises
    [AttributeError] at line 82 instead of returning. *)
Lemma name_lookup_can_raise_when_not_subscribed : ~ queries_never_fail.
Proof.
  intros claim.
  destruct (claim Fleet.scripted (GetDeviceByName "lamp") nameless_plug
              eq_refl eq_refl) as (log & Hrun & _).
  discriminate.
Qed.

(** C8, as the code has it.  A query issued while the connection status is
    not [SUBSCRIBED] logs the warning and goes on to answer from the dict
    as it is, leaving the manager unchanged.  [get_device_by_uuid],
    [get_supported_devices] and [get_devices_by_kind] then return, always.
    [get_device_by_name] and [get_devices_by_type] return when the devices
    in the dict have a name (a type) that is a string, the comparison being
    that of [str.lower]; when the scan comes upon a device whose name (type)
    is [None], they raise [AttributeError], after the warning and with the
    manager unchanged. *)
Theorem queries_answer_when_not_subscribed (st : Manager) :
  check_status (connection_status st) SUBSCRIBED = false ->
  let warned :=
    [stamp st check_status_called; stamp st (log_warn not_started_message)] in
  (forall u,
      get_device_by_uuid u st = Returned (dict_get u (_devices st)) st warned)
  /\ get_supported_devices st
     = Returned (dict_values (_devices st)) st warned
  /\ (forall clazz,
      get_devices_by_kind clazz st
      = Returned (filter (fun v => isinstance v clazz)
                    (dict_values (_devices st))) st warned)
  /\ (forall name,
      Forall (fun kv => hd_name (snd kv) <> None) (_devices st) ->
      get_device_by_name w name st
      = Returned (option_map snd (find (name_matches w name) (_devices st)))
          st warned)
  /\ (forall name before k v after,
      _devices st = before ++ (k, v) :: after ->
      hd_name v = None ->
      (forall kv, In kv before -> exists n,
          hd_name (snd kv) = Some n /\ lower w n <> lower w name) ->
      get_device_by_name w name st
      = Raised (AttributeError "lower") st warned)
  /\ (forall type_name,
      Forall (fun kv => hd_type (snd kv) <> None) (_devices st) ->
      get_devices_by_type w type_name st
      = Returned (filter (type_matches w type_name)
                    (dict_values (_devices st))) st warned)
  /\ (forall type_name,
      Exists (fun kv => hd_type (snd kv) = None) (_devices st) ->
      get_devices_by_type w type_name st
      = Raised (AttributeError "lower") st warned).
Proof.
  intros Hs warned. subst warned.
  pose proof (ensure_started_warns st Hs) as Hw.
  split; [|split; [|split; [|split; [|split; [|split]]]]].
  - intros u. unfold get_device_by_uuid, bind at 1. rewrite Hw.
    destruct st; reflexivity.
  - unfold get_supported_devices, bind at 1. rewrite Hw. reflexivity.
  - intros clazz. unfold get_devices_by_kind, bind at 1. rewrite Hw.
    destruct st; reflexivity.
  - intros name Hall. unfold get_device_by_name.
    rewrite (locked_scan (find_by_name w name) Hw).
    rewrite find_by_name_named by assumption.
    rewrite release_acquire, app_nil_r. reflexivity.
  - intros name before k v after Hd Hv Hb. unfold get_device_by_name.
    rewrite (locked_scan (find_by_name w name) Hw).
    rewrite Hd, find_by_name_first by assumption. rewrite Hv.
    rewrite release_acquire, app_nil_r. reflexivity.
  - intros type_name Hall. unfold get_devices_by_type.
    rewrite (locked_scan (filter_by_type w type_name) Hw).
    rewrite filter_by_type_typed by assumption.
    rewrite release_acquire, app_nil_r. reflexivity.
  - intros type_name Hex. unfold get_devices_by_type.
    rewrite (locked_scan (filter_by_type w type_name) Hw).
    rewrite filter_by_type_untyped by assumption.
    rewrite release_acquire, app_nil_r. reflexivity.
Qed.

End Queries.

Lemma queries_answer_when_not_subscribed_witness :
  check_status (connection_status Fleet.one_hub_known) SUBSCRIBED = false
  /\ get_device_by_uuid "H1" Fleet.one_hub_known
     = Returned (dict_get "H1" (_devices Fleet.one_hub_known))
         Fleet.one_hub_known
         [stamp Fleet.one_hub_known check_status_called;
          stamp Fleet.one_hub_known (log_warn not_started_message)]
  /\ get_device_by_name Fleet.one_hub "HUB" Fleet.one_hub_known
     = Returned
         (option_map snd
            (find (name_matches Fleet.one_hub "HUB")
               (_devices Fleet.one_hub_known)))
         Fleet.one_hub_known
         [stamp Fleet.one_hub_known check_status_called;
          stamp Fleet.one_hub_known (log_warn not_started_message)]
  /\ get_device_by_name Fleet.scripted "lamp" nameless_plug
     = Raised (AttributeError "lower") nameless_plug
         [stamp nameless_plug check_status_called;
          stamp nameless_plug (log_warn not_started_message)].
Proof.
  assert (Hs : check_status (connection_status Fleet.one_hub_known) SUBSCRIBED
               = false) by reflexivity.
  assert (Hnamed : Forall (fun kv => hd_name (snd kv) <> None)
                     (_devices Fleet.one_hub_known)).
  { repeat constructor; discriminate. }
  split; [exact Hs|].
  split;
    [exact (proj1 (queries_answer_when_not_subscribed Fleet.one_hub
                     Fleet.one_hub_known Hs) "H1")|].
  split;
    [exact (proj1 (proj2 (proj2 (proj2
              (queries_answer_when_not_subscribed Fleet.one_hub
                 Fleet.one_hub_known Hs)))) "HUB" Hnamed)|].
  refine (proj1 (proj2 (proj2 (proj2 (proj2
            (queries_answer_when_not_subscribed Fleet.scripted
               nameless_plug eq_refl))))) "lamp" [] "P1"
            (mkHandle 0 GenericPlug "P1" None "mss310" true) []
            eq_refl eq_refl _).
  intros kv [].
Defined.

(** ** Descriptors and their shapes *)

Section Shapes.

Variable w : World.

Lemma handle_neither (fuel : nat) (dev : Descriptor)
    (parent_hub : option Handle) (st : Manager) :
  shape_of dev = Neither ->
  _handle_device_discovered w fuel dev parent_hub st
  = Returned None st [stamp st (log_warn malformed_message)].
Proof.
  unfold shape_of, _handle_device_discovered, resolve.
  destruct (deviceType dev), (uuid dev), (subDeviceType dev),
    (subDeviceId dev); try discriminate; reflexivity.
Qed.

Lemma handle_subdevice_without_parent (fuel : nat) (dev : Descriptor)
    (st : Manager) :
  shape_of dev = SubDevice ->
  _handle_device_discovered w fuel dev None st
  = Raised (AttributeError "uuid") st [].
Proof.
  unfold shape_of, _handle_device_discovered, resolve.
  destruct (deviceType dev), (uuid dev), (subDeviceType dev),
    (subDeviceId dev); try discriminate; reflexivity.
Qed.

(** Whenever the factory is reached, its call opens the log. *)
Lemma handle_built_log (fuel : nat) (dev : Descriptor)
    (parent_hub : option Handle) (st : Manager) :
  shape_of dev = FullDevice
  \/ (shape_of dev = SubDevice /\ parent_hub <> None) ->
  match _handle_device_discovered w fuel dev parent_hub st with
  | Returned _ _ log | Raised _ _ log =>
      exists x rest, log = x :: rest /\ discovery_effect (eff x) = true
                     /\ eff x <> log_warn malformed_message
  | OutOfFuel => True
  end.
Proof.
  unfold shape_of, _handle_device_discovered, resolve, call_build_wrapper,
    call_build_subdevice_wrapper.
  intros H.
  destruct (deviceType dev) as [t|], (uuid dev) as [u|],
    (subDeviceType dev) as [t'|], (subDeviceId dev) as [u'|],
    parent_hub as [hub|];
    try (destruct H as [H|[H H']]; congruence);
    match goal with
    | |- context [allocate ?b] => destruct b as [bp|]
    end;
    unfold bind at 1; simpl;
    try solve [eexists _, _; repeat split; discriminate];
    match goal with
    | |- match match ?o with _ => _ end with _ => _ end =>
        destruct o; try exact I;
        eexists _, _; repeat split; discriminate
    end.
Qed.

(** C10. A descriptor that takes the sub-device branch and is handled
    without a parent hub makes [_handle_device_discovered] raise, before
    anything is built or logged: the branch reads [parent_hub.uuid]
    unconditionally.  The warn-and-skip outcome is that of the descriptors
    matching neither shape, and of no other descriptor. *)
Theorem subdevice_descriptor_needs_parent_hub (fuel : nat) (dev : Descriptor)
    (st : Manager) :
  shape_of dev = SubDevice ->
  _handle_device_discovered w fuel dev None st
  = Raised (AttributeError "uuid") st []
  /\ (forall other parent_hub,
        _handle_device_discovered w fuel other parent_hub st
        = Returned None st [stamp st (log_warn malformed_message)]
        <-> shape_of other = Neither).
Proof.
  intros Hs. split; [now apply handle_subdevice_without_parent|].
  intros other parent_hub. split; [|apply handle_neither].
  intros H.
  destruct (shape_of other) eqn:Ho; [| |reflexivity].
  - pose proof (@handle_built_log fuel other parent_hub st (or_introl Ho))
      as Hb.
    rewrite H in Hb. destruct Hb as (x & rest & E & _ & Hx).
    inversion E; subst. now elim Hx.
  - destruct parent_hub as [hub|].
    + assert (Hp : Some hub <> None) by discriminate.
      pose proof (@handle_built_log fuel other (Some hub) st
                    (or_intror (conj Ho Hp))) as Hb.
      rewrite H in Hb. destruct Hb as (x & rest & E & _ & Hx).
      inversion E; subst. now elim Hx.
    + rewrite handle_subdevice_without_parent in H by assumption.
      discriminate.
Qed.

End Shapes.

Lemma subdevice_descriptor_needs_parent_hub_witness :
  shape_of (Fleet.valve "S1") = SubDevice
  /\ _handle_device_discovered Fleet.one_hub 0 (Fleet.valve "S1") None init
     = Raised (AttributeError "uuid") init [].
Proof.
  split; [reflexivity|].
  exact (proj1 (@subdevice_descriptor_needs_parent_hub Fleet.one_hub 0
                  (Fleet.valve "S1") init eq_refl)).
Defined.

(** ** The event fan-out *)

Lemma times_called_fanout (w : World) (e : MerossEvent) (st : Manager)
    (cbs : list callback) (c : callback) :
  times_called c (fanout_log w e st cbs) = count_occ Nat.eq_dec cbs c.
Proof.
  unfold times_called. rewrite invoked_fanout_log.
  induction cbs as [|x cbs IH]; simpl; auto.
  destruct (Nat.eq_dec x c) as [->|Hne].
  - rewrite Nat.eqb_refl. simpl. now rewrite IH.
  - apply Nat.eqb_neq in Hne. now rewrite Hne.
Qed.

Lemma fired_fanout_log (w : World) (e : MerossEvent) (st : Manager)
    (cbs : list callback) :
  fired (fanout_log w e st cbs) = [].
Proof.
  induction cbs as [|c cbs IH]; simpl; auto.
  fold (fanout_log w e st cbs).
  destruct (raises (script w c e)); simpl; exact IH.
Qed.

Lemma call_in_fanout_log (w : World) (e : MerossEvent) (st : Manager)
    (cbs : list callback) (c : callback) :
  In c cbs -> In (callback_called c e) (effects (fanout_log w e st cbs)).
Proof.
  intros Hc. unfold effects. apply in_map_iff.
  exists (stamp st (callback_called c e)). split; [reflexivity|].
  apply in_flat_map. exists c. split; [assumption|now left].
Qed.

Lemma exception_in_fanout_log (w : World) (e : MerossEvent) (st : Manager)
    (cbs : list callback) (c : callback) (x : PyError) :
  In c cbs -> raises (script w c e) = Some x ->
  In (log_exception exception_message) (effects (fanout_log w e st cbs)).
Proof.
  intros Hc Hr. unfold effects. apply in_map_iff.
  exists (stamp st (log_exception exception_message)). split; [reflexivity|].
  apply in_flat_map. exists c. split; [assumption|].
  rewrite Hr. right. now left.
Qed.

(** [register_event_handler] never stores a callback twice. *)
Lemma register_event_handler_NoDup (c : callback) (st : Manager) :
  NoDup (_event_callbacks st) ->
  match register_event_handler c st with
  | Returned _ st' _ => NoDup (_event_callbacks st')
  | _ => False
  end.
Proof.
  intros Hn. unfold register_event_handler, with_lock, bind, gets. simpl.
  destruct (mem c (_event_callbacks st)) eqn:Hm; simpl; auto.
  apply NoDup_app; auto.
  - constructor; [intros []|constructor].
  - intros x Hx [->|[]].
    assert (mem x (_event_callbacks st) = true); [|congruence].
    unfold mem. apply existsb_exists. exists x. split; auto.
    apply Nat.eqb_refl.
Qed.

(** C4, refuted as worded: callback 1 registers callback 2 while the
    fan-out is in flight, and that same fan-out goes on to invoke
    callback 2, which was not registered when it began. *)
Lemma fan_out_sees_registration_in_flight : ~ fan_out_uses_snapshot.
Proof.
  intros claim.
  specialize (claim Fleet.scripted 5 (ClientConnectionEvent 3)
                (Fleet.with_callbacks [1])).
  simpl in claim. specialize (claim _ _ eq_refl). discriminate.
Qed.

(** C4, as the code has it.  [_fire_event] walks the live list of
    callbacks.  When no registered callback registers or unregisters
    callbacks during the fan-out, it returns after invoking exactly the
    callbacks registered when it was entered, each with the event, once per
    registration and in registration order; the list is left as it was. *)
Theorem fire_event_invokes_registered_callbacks (w : World) (fuel : nat)
    (e : MerossEvent) (st : Manager) :
  (forall c, In c (_event_callbacks st) -> calls (script w c e) = []) ->
  List.length (_event_callbacks st) <= fuel ->
  exists log,
    _fire_event w fuel e st = Returned tt st log
    /\ invoked log = map (fun c => (c, e)) (_event_callbacks st)
    /\ fired log = [e].
Proof.
  intros Hq Hf. eexists. split; [now apply fire_event_quiet|].
  split.
  - simpl. apply invoked_fanout_log.
  - simpl. f_equal. apply fired_fanout_log.
Qed.

Lemma fire_event_invokes_registered_callbacks_witness :
  ((forall c, In c (_event_callbacks (Fleet.with_callbacks [4; 5])) ->
              calls (script Fleet.scripted c (ClientConnectionEvent 3)) = [])
   /\ List.length (_event_callbacks (Fleet.with_callbacks [4; 5])) <= 2)
  /\ exists log,
       _fire_event Fleet.scripted 2 (ClientConnectionEvent 3)
         (Fleet.with_callbacks [4; 5])
       = Returned tt (Fleet.with_callbacks [4; 5]) log
       /\ invoked log
          = [(4, ClientConnectionEvent 3); (5, ClientConnectionEvent 3)]
       /\ fired log = [ClientConnectionEvent 3].
Proof.
  assert (Hq : forall c, In c (_event_callbacks (Fleet.with_callbacks [4; 5])) ->
              calls (script Fleet.scripted c (ClientConnectionEvent 3)) = []).
  { intros c [<-|[<-|[]]]; reflexivity. }
  assert (Hf : List.length (_event_callbacks (Fleet.with_callbacks [4; 5])) <= 2).
  { simpl. lia. }
  split; [split; assumption|].
  exact (@fire_event_invokes_registered_callbacks Fleet.scripted 2
           (ClientConnectionEvent 3) (Fleet.with_callbacks [4; 5]) Hq Hf).
Defined.

(** C6, refuted as worded: callback 3 unregisters itself and raises; the
    error is caught and logged, yet callback 4, registered after it, is
    not invoked, because the list the fan-out walks has shrunk under it. *)
Lemma failing_callback_can_hide_the_next :
  ~ failure_never_skips_later_callbacks.
Proof.
  intros claim.
  destruct (claim Fleet.scripted 5 (ClientConnectionEvent 3)
              (Fleet.with_callbacks [3; 4]) [] 3 [4] (CallbackError 0))
    as (st' & log & Hrun & _ & Hlater).
  - reflexivity.
  - simpl. repeat constructor; simpl; intuition discriminate.
  - reflexivity.
  - discriminate.
  - simpl in Hrun. inversion Hrun; subst.
    specialize (Hlater 4 (or_introl eq_refl)). discriminate.
Qed.


(** ** Lock discipline *)

Lemma disciplined_ensure_started : disciplined well_stamped _ensure_started.
Proof.
  unfold _ensure_started. discipline.
  destruct (negb (check_status a0 SUBSCRIBED)); discipline.
Qed.

Lemma disciplined_locked_read {A} (f : Manager -> A) :
  disciplined well_stamped (with_lock DevicesLock (gets f)).
Proof. apply disciplined_with_lock_silent, silent_gets. Qed.

Lemma disciplined_discover_devices (w : World) (fuel : nat)
    (online_only : bool) :
  disciplined well_stamped (_discover_devices w fuel online_only).
Proof.
  unfold _discover_devices. discipline.
  apply disciplined_weaken with (P := discovery_entry).
  - apply discovery_entry_well_stamped.
  - apply disciplined_discovery_loop.
Qed.

(** C9, refuted as worded: discovering a new plug while callback 4 is
    registered calls [device.register_event_callback] with the callbacks
    lock held. *)
Lemma callbacks_lock_held_while_registering : ~ no_lock_held_across_calls.
Proof.
  intros claim.
  specialize (claim Fleet.scripted
                (HandleDeviceDiscovered 1 (Fleet.plug "P1") None)
                (Fleet.with_callbacks [4]) eq_refl eq_refl).
  discriminate.
Qed.

(** C9, as the code has it.  Every operation of the manager gives the locks
    back as it found them, and never holds the devices lock while it calls a
    collaborator or a callback.  The callbacks lock is held in exactly one
    place: while [device.register_event_callback] is called on a newly
    inserted device (lines 192-194).  Every other call, the invocation of
    the registered callbacks by [_fire_event] included, is made with the
    callbacks lock as the operation found it. *)
Theorem lock_discipline (w : World) (op : Operation) (st : Manager) :
  match perform w op st with
  | Returned _ st' log | Raised _ st' log =>
      same_locks st st'
      /\ forallb
           (well_stamped (_devices_lock st) (_event_callbacks_lock st)) log
         = true
  | OutOfFuel => True
  end.
Proof.
  change (kept well_stamped st (perform w op st)). revert st.
  change (disciplined well_stamped (perform w op)).
  destruct op; simpl; unfold void, start, call_connect, stop,
    get_device_by_uuid, get_device_by_name, get_supported_devices,
    get_devices_by_kind, get_devices_by_type;
    discipline;
    try apply disciplined_ensure_started;
    try apply disciplined_locked_read;
    try apply disciplined_get_device_by_name;
    try apply disciplined_get_devices_by_type;
    try apply disciplined_discover_devices;
    try apply disciplined_register;
    try apply disciplined_unregister.
  - destruct (connect w); discipline.
  - unfold _dispatch_push_notification.
    destruct (nth_error (split "/" (from_ (header message))) 2);
      discipline; [apply disciplined_locked_read|].
    destruct a as [device|]; discipline.
    apply disciplined_discover_devices.
  - apply disciplined_weaken with (P := discovery_entry);
      [apply discovery_entry_well_stamped|].
    apply disciplined_handle_device_discovered.
  - apply disciplined_weaken with (P := discovery_entry);
      [apply discovery_entry_well_stamped|].
    apply disciplined_fire_event.
Qed.

(** ** Discovery *)

Section Discovery.

Variable w : World.

Lemma resolve_full (dev : Descriptor) (parent_hub : option Handle)
    (st : Manager) (d_type d_id : string) :
  deviceType dev = Some d_type -> uuid dev = Some d_id ->
  let built := build_wrapper w d_type d_id dev in
  let device := option_map (instantiate (next_obj st)) built in
  resolve w dev parent_hub st
  = Returned (Some (d_id, d_id, device)) (after_build built st)
      [stamp st (build_wrapper_called d_type d_id device)].
Proof.
  intros Ht Hu. unfold resolve, call_build_wrapper. rewrite Ht, Hu.
  destruct (build_wrapper w d_type d_id dev); reflexivity.
Qed.

Lemma resolve_sub (dev : Descriptor) (hub : Handle) (st : Manager)
    (d_type d_id : string) :
  shape_of dev = SubDevice ->
  subDeviceType dev = Some d_type -> subDeviceId dev = Some d_id ->
  let built := build_subdevice_wrapper w d_type d_id hub dev in
  let device := option_map (instantiate (next_obj st)) built in
  resolve w dev (Some hub) st
  = Returned (Some (d_id, format_pair (hd_uuid hub) d_id, device))
      (after_build built st)
      [stamp st (build_subdevice_wrapper_called d_type d_id hub device)].
Proof.
  unfold shape_of, resolve, call_build_subdevice_wrapper.
  intros Hs Ht Hi. rewrite Ht, Hi in *.
  destruct (deviceType dev), (uuid dev); try discriminate;
    destruct (build_subdevice_wrapper w d_type d_id hub dev); reflexivity.
Qed.

(** What [_handle_device_discovered] returns is the handle it has just
    built, whether or not that handle went into the dict. *)
Lemma handle_returns_built (fuel : nat) (dev : Descriptor)
    (parent_hub : option Handle) (st st' : Manager) (r : option Handle)
    (log : list Entry) (d_id device_id : string) (device : option Handle)
    (st1 : Manager) (l1 : list Entry) :
  resolve w dev parent_hub st
  = Returned (Some (d_id, device_id, device)) st1 l1 ->
  _handle_device_discovered w fuel dev parent_hub st = Returned r st' log ->
  r = device /\ incl l1 log.
Proof.
  intros Hres H. unfold _handle_device_discovered in H.
  apply bind_returned in H.
  destruct H as (a & sa & la & lb & Ha & Hb & ->).
  rewrite Hres in Ha. inversion Ha; subst.
  split; [|apply incl_appl, incl_refl].
  destruct device as [device|]; [|now inversion Hb].
  apply bind_returned in Hb. destruct Hb as (? & ? & ? & ? & _ & Hb & _).
  apply bind_returned in Hb. destruct Hb as (? & ? & ? & ? & _ & Hb & _).
  now inversion Hb.
Qed.


End Discovery.


(** ** Routing of push notifications *)

Section Routing.

Variable w : World.

Lemma bind_after_silent {A B} (m : M A) (f : A -> M B) (a : A)
    (st : Manager) :
  m st = Returned a st [] -> bind m f st = f a st.
Proof.
  intros H. unfold bind. rewrite H. destruct (f a st); reflexivity.
Qed.

Lemma locked_read {A} (g : Dict -> A) (st : Manager) :
  with_lock DevicesLock (gets (fun s => g (_devices s))) st
  = Returned (g (_devices st)) st [].
Proof. destruct st; reflexivity. Qed.

Lemma discovery_entries_are_neither (d b : nat) (l : list Entry) :
  forallb (discovery_entry d b) l = true ->
  filter is_list_devices (effects l) = []
  /\ filter is_push_delivery (effects l) = [].
Proof.
  induction l as [|x l IH]; simpl; [now split|].
  intros H. apply andb_prop in H. destruct H as [Hx Hl].
  destruct (IH Hl) as [H1 H2].
  unfold discovery_entry in Hx. apply andb_prop in Hx. destruct Hx as [Hx _].
  destruct (eff x); simpl in *; try discriminate; now split.
Qed.

(** The log of a pass: one call of [list_devices], then the effects of
    handling what it returned. *)
Lemma discover_devices_log (fuel : nat) (online_only : bool) (st : Manager) :
  match _discover_devices w fuel online_only st with
  | Returned _ _ log | Raised _ _ log =>
      exists rest,
        log = stamp st list_devices_called :: rest
        /\ forallb
             (discovery_entry (_devices_lock st) (_event_callbacks_lock st))
             rest = true
  | OutOfFuel => True
  end.
Proof.
  unfold _discover_devices.
  assert (H : disciplined discovery_entry
                (for_each (list_devices w) (discover_one w fuel online_only) ;;
                 gets _devices)).
  { apply disciplined_bind; [apply disciplined_discovery_loop|].
    intro. apply disciplined_gets. }
  specialize (H st). unfold bind at 1. simpl.
  destruct ((for_each (list_devices w) (discover_one w fuel online_only) ;;
             gets _devices) st) as [a st' l|e st' l|]; auto;
    destruct H as [_ H]; exists l; split; auto.
Qed.

Lemma void_log {A} (m : M A) (st : Manager) :
  log_of (void m st) = log_of (m st).
Proof.
  unfold void, bind, ret. destruct (m st); simpl; auto using app_nil_r.
Qed.

Lemma discover_devices_counts (fuel : nat) (online_only : bool)
    (st : Manager) :
  let pass := void (_discover_devices w fuel online_only) st in
  (pass <> OutOfFuel ->
   List.length (filter is_list_devices (effects (log_of pass))) = 1)
  /\ filter is_push_delivery (effects (log_of pass)) = [].
Proof.
  intros pass. subst pass. rewrite void_log.
  pose proof (discover_devices_log fuel online_only st) as Hlog.
  unfold void, bind.
  destruct (_discover_devices w fuel online_only st) as [a st' l|e st' l|].
  - destruct Hlog as (rest & -> & Hrest).
    destruct (discovery_entries_are_neither _ _ _ Hrest) as [H1 H2].
    unfold effects in *. simpl. rewrite H1, H2. now split.
  - destruct Hlog as (rest & -> & Hrest).
    destruct (discovery_entries_are_neither _ _ _ Hrest) as [H1 H2].
    unfold effects in *. simpl. rewrite H1, H2. now split.
  - split; [intros H; now elim H|reflexivity].
Qed.



End Routing.


(** ** What the insertion test of [_handle_device_discovered] does *)

Section Directory.

Variable w : World.

Lemma keeps_directory_ret {A} (a : A) : keeps_directory (ret a).
Proof. intro st; now split. Qed.

Lemma keeps_directory_raise {A} (e : PyError) : keeps_directory (@raise A e).
Proof. intro st; now split. Qed.

Lemma keeps_directory_emit (e : Effect) : keeps_directory (emit e).
Proof. intro st; now split. Qed.

Lemma keeps_directory_bind {A B} (m : M A) (f : A -> M B) :
  keeps_directory m -> (forall a, keeps_directory (f a)) ->
  keeps_directory (bind m f).
Proof.
  intros Hm Hf st. unfold bind. specialize (Hm st).
  destruct (m st) as [a st1 l1| |]; auto.
  specialize (Hf a st1). destruct Hm as [Hd Hn].
  destruct (f a st1); auto; destruct Hf; split; congruence.
Qed.

Lemma keeps_directory_try_except {A} (m : M A) (handler : PyError -> M A) :
  keeps_directory m -> (forall e, keeps_directory (handler e)) ->
  keeps_directory (try_except m handler).
Proof.
  intros Hm Hh st. unfold try_except. specialize (Hm st).
  destruct (m st) as [a st1 l1|e st1 l1|]; auto.
  specialize (Hh e st1). destruct Hm as [Hd Hn].
  destruct (handler e st1); auto; destruct Hh; split; congruence.
Qed.

Lemma keeps_directory_for_each {A} (l : list A) (body : A -> M unit) :
  (forall x, keeps_directory (body x)) -> keeps_directory (for_each l body).
Proof.
  intros Hb. induction l as [|x l IH]; simpl.
  - apply keeps_directory_ret.
  - apply keeps_directory_bind; auto.
Qed.

Lemma keeps_directory_run_call (b : BusCall) : keeps_directory (run_call b).
Proof.
  intro st. destruct b as [c|c]; simpl;
    unfold register_event_handler, unregister_event_handler, with_lock,
      bind, gets; simpl;
    destruct (mem c (_event_callbacks st)); simpl; now split.
Qed.

Lemma keeps_directory_fire_loop (fuel : nat) : forall i e,
  keeps_directory (fire_loop w fuel i e).
Proof.
  induction fuel as [|fuel IH]; intros i e st; simpl;
    destruct (nth_error (_event_callbacks st) i) as [c|];
    try (now split); try exact I.
  apply keeps_directory_bind; [|intro; apply IH].
  apply keeps_directory_try_except; [|intro; apply keeps_directory_emit].
  unfold invoke.
  apply keeps_directory_bind; [apply keeps_directory_emit|intro].
  apply keeps_directory_bind;
    [apply keeps_directory_for_each, keeps_directory_run_call|intro].
  destruct (raises (script w c e));
    [apply keeps_directory_raise|apply keeps_directory_ret].
Qed.

Lemma fired_nil_of_fanout (d b : nat) (l : list Entry) :
  forallb (fanout_entry d b) l = true -> fired l = [].
Proof.
  induction l as [|x l IH]; simpl; auto.
  intros H. apply andb_prop in H. destruct H as [Hx Hl].
  unfold fanout_entry in Hx. apply andb_prop in Hx. destruct Hx as [Hx _].
  destruct (eff x); simpl in *; try discriminate; auto.
Qed.

(** One call of [_fire_event] that returns: one event announced, the dict
    untouched. *)
Lemma fire_event_returned (fuel : nat) (e : MerossEvent) (st st' : Manager)
    (log : list Entry) :
  _fire_event w fuel e st = Returned tt st' log ->
  _devices st' = _devices st /\ next_obj st' = next_obj st /\ fired log = [e].
Proof.
  unfold _fire_event. intros H. apply bind_returned in H.
  destruct H as ([] & s1 & l1 & l2 & Hemit & Hloop & ->).
  inversion Hemit; subst.
  pose proof (keeps_directory_fire_loop fuel 0 e s1) as Hk.
  pose proof (fanout_loop_entries w fuel 0 e s1) as Hf.
  rewrite Hloop in Hk, Hf. destruct Hk as [Hd Hn]. destruct Hf as [_ Hf].
  repeat split; auto. simpl. f_equal. eapply fired_nil_of_fanout; eauto.
Qed.

Lemma insert_if_new_run (d_id device_id : string) (device : Handle)
    (st : Manager) :
  with_lock DevicesLock
    (devices <- gets _devices ;;
     if negb (dict_contains d_id devices)
     then modify (set_devices (dict_set device_id device devices)) ;;
          ret true
     else ret false) st
  = Returned (negb (dict_contains d_id (_devices st)))
      (if dict_contains d_id (_devices st) then st
       else set_devices (dict_set device_id device (_devices st)) st)
      [].
Proof.
  unfold with_lock, bind, gets. simpl.
  destruct (dict_contains d_id (_devices st)); destruct st; reflexivity.
Qed.

Lemma fired_registrations (device : Handle) (d b : nat) (cbs : list callback) :
  fired (map (fun c => mkEntry (register_event_callback_called device c) d b)
           cbs) = [].
Proof. induction cbs; simpl; auto. Qed.

(** The second half of [_handle_device_discovered], for a device that was
    built: the test reads [d_id], the insertion writes [device_id]. *)
Lemma handle_built_device (fuel : nat) (dev : Descriptor)
    (parent_hub : option Handle) (st s1 st' : Manager) (l1 log : list Entry)
    (d_id device_id : string) (device : Handle) (r : option Handle) :
  resolve w dev parent_hub st
  = Returned (Some (d_id, device_id, Some device)) s1 l1 ->
  fired l1 = [] ->
  _handle_device_discovered w fuel dev parent_hub st = Returned r st' log ->
  r = Some device
  /\ if dict_contains d_id (_devices s1)
     then st' = s1 /\ log = l1
     else _devices st' = dict_set device_id device (_devices s1)
          /\ fired log = [DeviceOnlineStatusEvent device (hd_online device)].
Proof.
  intros Hres Hl1 H. unfold _handle_device_discovered in H.
  apply bind_returned in H.
  destruct H as (a & sa & la & lb & Ha & Hb & ->).
  rewrite Hres in Ha. inversion Ha; subst. clear Ha.
  apply bind_returned in Hb.
  destruct Hb as (is_new & s2 & l2 & l3 & Hins & Hb & ->).
  rewrite insert_if_new_run in Hins. inversion Hins; subst. clear Hins.
  apply bind_returned in Hb.
  destruct Hb as ([] & s3 & l4 & l5 & Hann & Hret & ->).
  inversion Hret; subst. clear Hret. split; [reflexivity|].
  destruct (dict_contains d_id (_devices sa)); simpl in Hann.
  - inversion Hann; subst. split; [reflexivity|].
    now rewrite !app_nil_r.
  - apply bind_returned in Hann.
    destruct Hann as ([] & s4 & l6 & l7 & Hreg & Hfire & ->).
    rewrite register_known_callbacks in Hreg. inversion Hreg; subst.
    apply fire_event_returned in Hfire. destruct Hfire as (Hd & _ & Hf).
    split; [exact Hd|].
    rewrite !fired_app, Hl1, fired_registrations, Hf. reflexivity.
Qed.

(** A top-level device whose UUID is a key of the dict: the new handle is
    dropped, the dict is unchanged and nothing is announced. *)
Lemma known_device_is_left_alone (fuel : nat) (dev : Descriptor)
    (parent_hub : option Handle) (st st' : Manager) (log : list Entry)
    (d_type d_id : string) (r : option Handle) :
  deviceType dev = Some d_type -> uuid dev = Some d_id ->
  dict_contains d_id (_devices st) = true ->
  _handle_device_discovered w fuel dev parent_hub st = Returned r st' log ->
  _devices st' = _devices st /\ fired log = [].
Proof.
  intros Ht Hu Hin H.
  pose proof (@resolve_full w dev parent_hub st d_type d_id Ht Hu) as Hres.
  cbv zeta in Hres.
  destruct (build_wrapper w d_type d_id dev) as [b|] eqn:Hb; simpl in Hres.
  - destruct (@handle_built_device _ _ _ _ _ _ _ _ _ _ _ _ Hres eq_refl H)
      as [_ Hcase].
    simpl in Hcase. rewrite Hin in Hcase. destruct Hcase as [-> ->].
    now split.
  - unfold _handle_device_discovered, bind in H. rewrite Hres in H.
    inversion H; subst. now split.
Qed.

(** A sub-device whose local identifier is not a key of the dict is stored
    under its composite key and announced, whether or not that composite
    key was in the dict already: the test of line 186 reads the local
    identifier. *)
Lemma subdevice_is_stored_when_local_id_is_free (fuel : nat)
    (dev : Descriptor) (hub : Handle) (st st' : Manager) (log : list Entry)
    (d_type d_id : string) (b : Blueprint) (r : option Handle) :
  shape_of dev = SubDevice ->
  subDeviceType dev = Some d_type -> subDeviceId dev = Some d_id ->
  build_subdevice_wrapper w d_type d_id hub dev = Some b ->
  dict_contains d_id (_devices st) = false ->
  _handle_device_discovered w fuel dev (Some hub) st = Returned r st' log ->
  let device := instantiate (next_obj st) b in
  _devices st'
  = dict_set (format_pair (hd_uuid hub) d_id) device (_devices st)
  /\ fired log = [DeviceOnlineStatusEvent device (hd_online device)].
Proof.
  intros Hs Ht Hi Hb Hfree H device.
  pose proof (@resolve_sub w dev hub st d_type d_id Hs Ht Hi) as Hres.
  cbv zeta in Hres. rewrite Hb in Hres. simpl in Hres.
  destruct (@handle_built_device _ _ _ _ _ _ _ _ _ _ _ _ Hres eq_refl H)
    as [_ Hcase].
  simpl in Hcase. rewrite Hfree in Hcase. exact Hcase.
Qed.

(** A sub-device whose local identifier is a key of the dict is never
    stored, even when its composite key is not in the dict. *)
Lemma subdevice_is_dropped_when_local_id_is_taken (fuel : nat)
    (dev : Descriptor) (hub : Handle) (st st' : Manager) (log : list Entry)
    (d_type d_id : string) (r : option Handle) :
  shape_of dev = SubDevice ->
  subDeviceType dev = Some d_type -> subDeviceId dev = Some d_id ->
  dict_contains d_id (_devices st) = true ->
  _handle_device_discovered w fuel dev (Some hub) st = Returned r st' log ->
  _devices st' = _devices st /\ fired log = [].
Proof.
  intros Hs Ht Hi Hin H.
  pose proof (@resolve_sub w dev hub st d_type d_id Hs Ht Hi) as Hres.
  cbv zeta in Hres.
  destruct (build_subdevice_wrapper w d_type d_id hub dev) as [b|] eqn:Hb;
    simpl in Hres.
  - destruct (@handle_built_device _ _ _ _ _ _ _ _ _ _ _ _ Hres eq_refl H)
      as [_ Hcase].
    simpl in Hcase. rewrite Hin in Hcase. destruct Hcase as [-> ->].
    now split.
  - unfold _handle_device_discovered, bind in H. rewrite Hres in H.
    inversion H; subst. now split.
Qed.

Lemma discover_one_known (fuel : nat) (online_only : bool) (dev : Descriptor)
    (st st' : Manager) (log : list Entry) :
  known_plain_device w (_devices st) dev ->
  discover_one w fuel online_only dev st = Returned tt st' log ->
  _devices st' = _devices st /\ fired log = [].
Proof.
  intros (d_type & d_id & Ht & Hu & Hin & Hplain) H.
  unfold discover_one in H.
  destruct (onlineStatus dev) as [online|]; [|discriminate].
  destruct (online_only && negb (Z.eqb online 1)).
  - inversion H; subst. now split.
  - apply bind_returned in H.
    destruct H as (discovered & sa & la & lb & Hh & Htail & ->).
    destruct (@known_device_is_left_alone _ _ _ _ _ _ _ _ _ Ht Hu Hin Hh)
      as [Hd Hf].
    pose proof (@resolve_full w dev None st d_type d_id Ht Hu) as Hres.
    cbv zeta in Hres.
    destruct (@handle_returns_built _ _ _ _ _ _ _ _ _ _ _ _ _ Hres Hh)
      as [-> _].
    destruct (build_wrapper w d_type d_id dev) as [b|] eqn:Hb;
      simpl in Htail.
    + unfold isinstance in Htail. simpl in Htail.
      rewrite (Hplain b eq_refl) in Htail. inversion Htail; subst.
      rewrite fired_app, Hf. now split.
    + inversion Htail; subst. rewrite fired_app, Hf. now split.
Qed.

(** A pass over devices that are all known, none of them a hub, changes
    nothing in the dict and announces nothing. *)
Lemma rediscovery_of_known_devices (fuel : nat) (online_only : bool)
    (st st' : Manager) (devs : Dict) (log : list Entry) :
  (forall dev, In dev (list_devices w) ->
               known_plain_device w (_devices st) dev) ->
  _discover_devices w fuel online_only st = Returned devs st' log ->
  _devices st' = _devices st /\ devs = _devices st /\ fired log = [].
Proof.
  intros Hknown H. unfold _discover_devices in H.
  apply bind_returned in H.
  destruct H as ([] & s1 & l1 & l2 & Hemit & H & ->).
  inversion Hemit; subst. clear Hemit.
  apply bind_returned in H.
  destruct H as ([] & s2 & l3 & l4 & Hloop & Hgets & ->).
  assert (Hinv : _devices s2 = _devices s1 /\ fired l3 = []).
  { revert Hknown Hloop. generalize (list_devices w) as l.
    intros l. revert s1 l3.
    induction l as [|dev l IH]; intros s1 l3 Hknown Hloop.
    - inversion Hloop; subst. now split.
    - simpl in Hloop. apply bind_returned in Hloop.
      destruct Hloop as ([] & sa & la & lb & Hone & Hrest & ->).
      destruct (@discover_one_known _ _ _ _ _ _
                  (Hknown dev (or_introl eq_refl)) Hone) as [Hd Hf].
      destruct (IH sa lb) as [Hd' Hf']; auto.
      + intros dev' Hdev'. rewrite Hd. apply Hknown. now right.
      + rewrite fired_app, Hf, Hf'. split; [congruence|reflexivity]. }
  destruct Hinv as [Hd Hf]. inversion Hgets; subst. clear Hgets.
  repeat split; auto. simpl. rewrite fired_app, Hf. reflexivity.
Qed.

End Directory.

(** ** Composite keys *)

Lemma append_length (a b : string) :
  String.length (String.append a b) = String.length a + String.length b.
Proof. induction a as [|c a IH]; simpl; auto. Qed.

Lemma append_cancel_r (a b c : string) :
  String.append a c = String.append b c -> a = b.
Proof.
  revert b; induction a as [|x a IH]; intros [|y b] H; simpl in H; auto.
  - apply (f_equal String.length) in H. simpl in H.
    rewrite append_length in H. lia.
  - apply (f_equal String.length) in H. simpl in H.
    rewrite append_length in H. lia.
  - inversion H; subst. f_equal. now apply IH.
Qed.

(** Two hubs with distinct UUIDs give distinct composite keys to the same
    local identifier. *)
Lemma composite_keys_distinct (hub1 hub2 : Handle) (d_id : string) :
  hd_uuid hub1 <> hd_uuid hub2 ->
  format_pair (hd_uuid hub1) d_id <> format_pair (hd_uuid hub2) d_id.
Proof.
  unfold format_pair. intros Hne Heq. apply Hne.
  now apply append_cancel_r with (c := String ":" d_id).
Qed.

(** ** Rediscovery, run on concrete fleets *)

(** C1.  The fleet is one hub [H1] with one valve [S1]; the descriptor
    lists do not change between the passes.  The first pass, from the empty
    manager, stores [H1] and [H1:S1] and announces both.  The second pass
    leaves the size of the dict at two, but it stores a new object under
    [H1:S1] and announces it: the sub-device is not recognised as known,
    because line 186 looks for the local identifier [S1], while line 188
    stores under the composite key [H1:S1]. *)
Theorem rediscovery_announces_subdevice_again :
  (exists log,
     _discover_devices Fleet.one_hub 0 false init
     = Returned (_devices Fleet.one_hub_known) Fleet.one_hub_known log
     /\ List.length (fired log) = 2)
  /\ _discover_devices Fleet.one_hub 0 false Fleet.one_hub_known
     = Returned (_devices Fleet.one_hub_again) Fleet.one_hub_again
         Fleet.one_hub_again_log
  /\ dict_keys (_devices Fleet.one_hub_known) = ["H1"; "H1:S1"]%string
  /\ dict_keys (_devices Fleet.one_hub_again) = ["H1"; "H1:S1"]%string
  /\ _devices Fleet.one_hub_again <> _devices Fleet.one_hub_known
  /\ fired Fleet.one_hub_again_log
     = [DeviceOnlineStatusEvent
          (mkHandle 3 ValveSubDevice "H1" "S1" "mts100v3" true) true].
Proof.
  split; [eexists; split; [vm_compute; reflexivity|reflexivity]|].
  split; [vm_compute; reflexivity|].
  repeat split; try reflexivity.
  vm_compute. discriminate.
Qed.

(** C2.  On the same fleet: after the first pass the identity [H1:S1] is
    mapped to the object built first (object 1); the second pass meets the
    same descriptor again, and afterwards [H1:S1] is mapped to the object
    built last (object 3).  The mapping of the top-level identity [H1] is
    the same before and after. *)
Theorem rediscovery_replaces_subdevice_handle :
  _discover_devices Fleet.one_hub 0 false Fleet.one_hub_known
  = Returned (_devices Fleet.one_hub_again) Fleet.one_hub_again
      Fleet.one_hub_again_log
  /\ option_map obj (dict_get "H1:S1" (_devices Fleet.one_hub_known)) = Some 1
  /\ option_map obj (dict_get "H1:S1" (_devices Fleet.one_hub_again)) = Some 3
  /\ dict_get "H1" (_devices Fleet.one_hub_again)
     = dict_get "H1" (_devices Fleet.one_hub_known).
Proof.
  split; [vm_compute; reflexivity|].
  repeat split; reflexivity.
Qed.

(** C5.  Two hubs [H1] and [H2], each reporting a valve whose local
    identifier is [H1].  The two composite keys [H1:H1] and [H2:H1] differ,
    but neither ends up in the dict: line 186 finds the local identifier
    [H1] among the keys (it is the first hub's UUID) and takes both
    sub-devices for known. *)
Theorem colliding_local_id_hides_subdevices :
  (exists log,
     _discover_devices Fleet.two_hubs 0 false init
     = Returned (_devices Fleet.two_hubs_known) Fleet.two_hubs_known log)
  /\ dict_keys (_devices Fleet.two_hubs_known) = ["H1"; "H2"]%string
  /\ format_pair "H1" "H1" <> format_pair "H2" "H1"
  /\ dict_get (format_pair "H1" "H1") (_devices Fleet.two_hubs_known) = None
  /\ dict_get (format_pair "H2" "H1") (_devices Fleet.two_hubs_known) = None.
Proof.
  split; [eexists; vm_compute; reflexivity|].
  repeat split; try reflexivity. discriminate.
Qed.

(** * Further properties of the manager *)

(** ** Hoare rules *)

Section HoareRules.

Variables (P : Manager -> Prop) (E : Manager -> Prop).

Lemma hoare_ret {A} (a : A) (Q : A -> Manager -> Prop) :
  (forall st, P st -> Q a st) -> hoare P (ret a) Q E.
Proof. intros H st Hp. now apply H. Qed.

Lemma hoare_raise {A} (e : PyError) (Q : A -> Manager -> Prop) :
  (forall st, P st -> E st) -> hoare P (@raise A e) Q E.
Proof. intros H st Hp. now apply H. Qed.

Lemma hoare_gets {A} (f : Manager -> A) (Q : A -> Manager -> Prop) :
  (forall st, P st -> Q (f st) st) -> hoare P (gets f) Q E.
Proof. intros H st Hp. now apply H. Qed.

Lemma hoare_modify (f : Manager -> Manager) (Q : unit -> Manager -> Prop) :
  (forall st, P st -> Q tt (f st)) -> hoare P (modify f) Q E.
Proof. intros H st Hp. now apply H. Qed.

Lemma hoare_emit (e : Effect) (Q : unit -> Manager -> Prop) :
  (forall st, P st -> Q tt st) -> hoare P (emit e) Q E.
Proof. intros H st Hp. now apply H. Qed.

Lemma hoare_bind {A B} (m : M A) (f : A -> M B) (Q : A -> Manager -> Prop)
    (R : B -> Manager -> Prop) :
  hoare P m Q E -> (forall a, hoare (Q a) (f a) R E) ->
  hoare P (bind m f) R E.
Proof.
  intros Hm Hf st Hp. unfold bind. specialize (Hm st Hp).
  destruct (m st) as [a st1 l1|e st1 l1|]; auto.
  specialize (Hf a st1 Hm). destruct (f a st1); auto.
Qed.

Lemma hoare_try_except {A} (m : M A) (handler : PyError -> M A)
    (Q : A -> Manager -> Prop) (E' : Manager -> Prop) :
  hoare P m Q E' -> (forall e, hoare E' (handler e) Q E) ->
  hoare P (try_except m handler) Q E.
Proof.
  intros Hm Hh st Hp. unfold try_except. specialize (Hm st Hp).
  destruct (m st) as [a st1 l1|e st1 l1|]; auto.
  specialize (Hh e st1 Hm). destruct (handler e st1); auto.
Qed.

End HoareRules.

Lemma hoare_weaken {A} (P P' : Manager -> Prop) (m : M A)
    (Q Q' : A -> Manager -> Prop) (E E' : Manager -> Prop) :
  hoare P' m Q' E' ->
  (forall st, P st -> P' st) ->
  (forall a st, Q' a st -> Q a st) ->
  (forall st, E' st -> E st) ->
  hoare P m Q E.
Proof.
  intros Hm HP HQ HE st Hp. specialize (Hm st (HP st Hp)).
  destruct (m st); auto.
Qed.

Section PreservesRules.

Variable I : Manager -> Prop.

Lemma preserves_ret {A} (a : A) : preserves I (ret a).
Proof. now apply hoare_ret. Qed.

Lemma preserves_raise {A} (e : PyError) : preserves I (@raise A e).
Proof. now apply hoare_raise. Qed.

Lemma preserves_gets {A} (f : Manager -> A) : preserves I (gets f).
Proof. now apply hoare_gets. Qed.

Lemma preserves_emit (e : Effect) : preserves I (emit e).
Proof. now apply hoare_emit. Qed.

Lemma preserves_modify (f : Manager -> Manager) :
  (forall st, I st -> I (f st)) -> preserves I (modify f).
Proof. intros H. now apply hoare_modify. Qed.

Lemma preserves_bind {A B} (m : M A) (f : A -> M B) :
  preserves I m -> (forall a, preserves I (f a)) -> preserves I (bind m f).
Proof. intros Hm Hf. eapply hoare_bind; [exact Hm|exact Hf]. Qed.

Lemma preserves_try_except {A} (m : M A) (handler : PyError -> M A) :
  preserves I m -> (forall e, preserves I (handler e)) ->
  preserves I (try_except m handler).
Proof. intros Hm Hh. eapply hoare_try_except; [exact Hm|exact Hh]. Qed.

Lemma preserves_for_each {A} (l : list A) (body : A -> M unit) :
  (forall x, In x l -> preserves I (body x)) -> preserves I (for_each l body).
Proof.
  induction l as [|x l IH]; intros Hb; simpl.
  - apply preserves_ret.
  - apply preserves_bind; [apply Hb; now left|].
    intros _. apply IH. intros y Hy. apply Hb. now right.
Qed.

Lemma preserves_with_lock {A} (l : Lock) (body : M A) :
  (forall st, I st -> I (acquire l st)) ->
  (forall st, I st -> I (release l st)) ->
  preserves I body -> preserves I (with_lock l body).
Proof.
  intros Ha Hr Hb st Hi. unfold with_lock.
  specialize (Hb (acquire l st) (Ha st Hi)).
  destruct (body (acquire l st)); auto; now apply Hr.
Qed.

End PreservesRules.

(** ** What the two registration methods compute *)

Lemma register_run (c : callback) (st : Manager) :
  register_event_handler c st
  = Returned tt
      (if mem c (_event_callbacks st) then st
       else set_event_callbacks (_event_callbacks st ++ [c]) st)
      [].
Proof.
  unfold register_event_handler, with_lock, bind, gets. simpl.
  destruct (mem c (_event_callbacks st)); destruct st; reflexivity.
Qed.

Lemma unregister_run (c : callback) (st : Manager) :
  unregister_event_handler c st
  = Returned tt
      (if mem c (_event_callbacks st)
       then set_event_callbacks (remove_first c (_event_callbacks st)) st
       else st)
      [].
Proof.
  unfold unregister_event_handler, with_lock, bind, gets. simpl.
  destruct (mem c (_event_callbacks st)); destruct st; reflexivity.
Qed.

Lemma mem_In (c : callback) (l : list callback) :
  mem c l = true <-> In c l.
Proof.
  unfold mem. rewrite existsb_exists. split.
  - intros (x & Hx & He). apply Nat.eqb_eq in He. now subst.
  - intros H. exists c. split; [assumption|apply Nat.eqb_refl].
Qed.

Lemma mem_false (c : callback) (l : list callback) :
  mem c l = false <-> ~ In c l.
Proof.
  rewrite <- mem_In. destruct (mem c l); split; congruence.
Qed.

Lemma remove_first_In (c x : callback) (l : list callback) :
  In x (remove_first c l) -> In x l.
Proof.
  induction l as [|y l IH]; simpl; auto.
  destruct (Nat.eqb c y); simpl; intuition.
Qed.

Lemma remove_first_NoDup (c : callback) (l : list callback) :
  NoDup l -> NoDup (remove_first c l) /\ ~ In c (remove_first c l).
Proof.
  induction 1 as [|y l Hy Hl IH]; simpl.
  - split; [constructor|auto].
  - destruct (Nat.eqb c y) eqn:E.
    + apply Nat.eqb_eq in E. subst. now split.
    + apply Nat.eqb_neq in E. destruct IH as [IH1 IH2]. split.
      * constructor; auto. intros H. apply Hy. eapply remove_first_In; eauto.
      * simpl. intros [H|H]; [congruence|auto].
Qed.

Lemma remove_first_other (c x : callback) (l : list callback) :
  x <> c -> In x l -> In x (remove_first c l).
Proof.
  intros Hne. induction l as [|y l IH]; simpl; auto.
  destruct (Nat.eqb c y) eqn:E.
  - apply Nat.eqb_eq in E. subst. intros [H|H]; [congruence|auto].
  - simpl. intuition.
Qed.

Lemma remove_first_last (c : callback) (l : list callback) :
  ~ In c l -> remove_first c (l ++ [c]) = l.
Proof.
  induction l as [|y l IH]; simpl; intros H.
  - now rewrite Nat.eqb_refl.
  - destruct (Nat.eqb c y) eqn:E.
    + apply Nat.eqb_eq in E. subst. elim H. now left.
    + f_equal. apply IH. intuition.
Qed.

(** ** Invariants of the whole manager *)

Section StateInvariant.

Variable w : World.
Variable I : Manager -> Prop.

Hypothesis I_acquire : forall l st, I st -> I (acquire l st).
Hypothesis I_release : forall l st, I st -> I (release l st).
Hypothesis I_register : forall c st,
  I st -> mem c (_event_callbacks st) = false ->
  I (set_event_callbacks (_event_callbacks st ++ [c]) st).
Hypothesis I_unregister : forall c st,
  I st -> I (set_event_callbacks (remove_first c (_event_callbacks st)) st).
Hypothesis I_allocate : forall st,
  I st -> I (set_next_obj (S (next_obj st)) st).
Hypothesis I_insert : forall st d_id device_id device,
  I st -> obj device < next_obj st ->
  dict_contains d_id (_devices st) = false ->
  device_id = d_id \/ (exists u, device_id = format_pair u d_id) ->
  I (set_devices (dict_set device_id device (_devices st)) st).

Ltac keep :=
  repeat match goal with
  | |- preserves _ (ret _) => apply preserves_ret
  | |- preserves _ (raise _) => apply preserves_raise
  | |- preserves _ (gets _) => apply preserves_gets
  | |- preserves _ (emit _) => apply preserves_emit
  | |- preserves _ (with_lock _ _) =>
      apply preserves_with_lock; [apply I_acquire|apply I_release|]
  | |- preserves _ (bind _ _) => apply preserves_bind; [|intro]
  end.

Lemma preserves_register (c : callback) :
  preserves I (register_event_handler c).
Proof.
  intros st Hi. rewrite register_run.
  destruct (mem c (_event_callbacks st)) eqn:E; auto.
Qed.

Lemma preserves_unregister (c : callback) :
  preserves I (unregister_event_handler c).
Proof.
  intros st Hi. rewrite unregister_run.
  destruct (mem c (_event_callbacks st)); auto.
Qed.

Lemma preserves_invoke (c : callback) (e : MerossEvent) :
  preserves I (invoke w c e).
Proof.
  unfold invoke. keep.
  - apply preserves_for_each. intros [c'|c'] _; simpl.
    + apply preserves_register.
    + apply preserves_unregister.
  - destruct (raises (script w c e)); keep.
Qed.

Lemma preserves_fire_loop (fuel : nat) : forall i e,
  preserves I (fire_loop w fuel i e).
Proof.
  induction fuel as [|fuel IH]; intros i e st Hi; simpl;
    destruct (nth_error (_event_callbacks st) i) as [c|]; auto.
  revert st Hi.
  change (preserves I
            (try_except (invoke w c e)
               (fun _ => emit (log_exception exception_message)) ;;
             fire_loop w fuel (S i) e)).
  apply preserves_bind; [|intro; apply IH].
  apply preserves_try_except; [apply preserves_invoke|intro; keep].
Qed.

Lemma preserves_fire_event (fuel : nat) (e : MerossEvent) :
  preserves I (_fire_event w fuel e).
Proof. unfold _fire_event. keep. apply preserves_fire_loop. Qed.

(** After [resolve], the device it built, if any, is an object older than
    the counter, and its key is the identifier tested at line 186 or a
    composite ending in it. *)
Lemma resolve_post (dev : Descriptor) (parent_hub : option Handle) :
  hoare I (resolve w dev parent_hub)
    (fun r st =>
       I st
       /\ match r with
          | Some (d_id, device_id, Some device) =>
              obj device < next_obj st
              /\ (device_id = d_id
                  \/ exists u, device_id = format_pair u d_id)
          | _ => True
          end)
    I.
Proof.
  intros st Hi.
  unfold resolve, call_build_wrapper, call_build_subdevice_wrapper.
  destruct (deviceType dev) as [t|], (uuid dev) as [u|],
    (subDeviceType dev) as [t'|], (subDeviceId dev) as [u'|],
    parent_hub as [hub|];
    try match goal with
        | |- context [allocate ?b] => destruct b as [bp|]
        end;
    simpl; auto;
    (split; [apply I_allocate; assumption|]);
    (split; [lia|]); eauto.
Qed.

Lemma preserves_handle_device_discovered (fuel : nat) (dev : Descriptor)
    (parent_hub : option Handle) :
  preserves I (_handle_device_discovered w fuel dev parent_hub).
Proof.
  unfold _handle_device_discovered.
  eapply hoare_bind; [apply resolve_post|].
  intros [[[d_id device_id] [device|]]|];
    try (apply hoare_ret; intros st [Hi _]; exact Hi).
  eapply hoare_bind with (Q := fun _ => I).
  - intros st (Hi & Hfresh & Hkey). rewrite insert_if_new_run.
    destruct (dict_contains d_id (_devices st)) eqn:Hc; auto.
    now apply I_insert with (d_id := d_id).
  - intros is_new.
    match goal with
    | |- hoare _ ?m _ _ => change (preserves I m)
    end.
    keep. destruct is_new; keep.
    + apply preserves_for_each. intros; keep.
    + apply preserves_fire_event.
Qed.

Lemma preserves_discover_one (fuel : nat) (online_only : bool)
    (dev : Descriptor) :
  preserves I (discover_one w fuel online_only dev).
Proof.
  unfold discover_one. destruct (onlineStatus dev) as [online|]; keep.
  destruct (online_only && negb (Z.eqb online 1)); keep.
  - apply preserves_handle_device_discovered.
  - destruct a as [hub|]; keep.
    destruct (isinstance hub GenericHub); keep.
    apply preserves_for_each. intros subdev _. keep.
    apply preserves_handle_device_discovered.
Qed.

Lemma preserves_discover_devices (fuel : nat) (online_only : bool) :
  preserves I (_discover_devices w fuel online_only).
Proof.
  unfold _discover_devices. keep.
  apply preserves_for_each. intros dev _. apply preserves_discover_one.
Qed.

Lemma preserves_ensure_started : preserves I _ensure_started.
Proof.
  unfold _ensure_started. keep.
  destruct (negb (check_status a0 SUBSCRIBED)); keep.
Qed.

Lemma preserves_lower_of (s : attr) : preserves I (lower_of w s).
Proof. unfold lower_of. destruct s; keep. Qed.

Lemma preserves_find_by_name (name : string) (items : Dict) :
  preserves I (find_by_name w name items).
Proof.
  induction items as [|[k v] items IH]; simpl; keep.
  - apply preserves_lower_of.
  - destruct (String.eqb a (lower w name)); keep. exact IH.
Qed.

Lemma preserves_filter_by_type (type_name : string) (items : Dict) :
  preserves I (filter_by_type w type_name items).
Proof.
  induction items as [|[k v] items IH]; simpl; keep.
  - apply preserves_lower_of.
  - exact IH.
Qed.

Lemma preserves_perform (op : Operation) : preserves I (perform w op).
Proof.
  destruct op; simpl; unfold void, start, call_connect, stop,
    get_device_by_uuid, get_device_by_name, get_supported_devices,
    get_devices_by_kind, get_devices_by_type;
    keep;
    try apply preserves_ensure_started;
    try apply preserves_find_by_name;
    try apply preserves_filter_by_type;
    try apply preserves_discover_devices;
    try apply preserves_register;
    try apply preserves_unregister;
    try apply preserves_handle_device_discovered;
    try apply preserves_fire_event.
  - destruct (connect w); keep.
  - unfold _dispatch_push_notification.
    destruct (nth_error (split "/" (from_ (header message))) 2); keep.
    destruct a as [device|]; keep.
    apply preserves_discover_devices.
Qed.

Lemma preserves_run (ops : list Operation) : preserves I (run w ops).
Proof.
  unfold run. apply preserves_for_each. intros op _. apply preserves_perform.
Qed.

End StateInvariant.

(** ** The dict *)

Lemma dict_get_set_same (k : string) (v : Handle) (d : Dict) :
  dict_get k (dict_set k v d) = Some v.
Proof.
  induction d as [|[k' v'] d IH]; simpl.
  - now rewrite String.eqb_refl.
  - destruct (String.eqb k k') eqn:E; simpl; rewrite E; auto.
Qed.

Lemma dict_get_set_other (k k' : string) (v : Handle) (d : Dict) :
  k <> k' -> dict_get k (dict_set k' v d) = dict_get k d.
Proof.
  intros Hne. apply String.eqb_neq in Hne.
  induction d as [|[k2 v2] d IH]; simpl.
  - now rewrite Hne.
  - destruct (String.eqb k' k2) eqn:E; simpl.
    + apply String.eqb_eq in E. subst. now rewrite Hne.
    + destruct (String.eqb k k2); auto.
Qed.

Lemma dict_contains_set (k k' : string) (v : Handle) (d : Dict) :
  dict_contains k d = true -> dict_contains k (dict_set k' v d) = true.
Proof.
  unfold dict_contains. destruct (String.eqb k k') eqn:E.
  - apply String.eqb_eq in E. subst. now rewrite dict_get_set_same.
  - apply String.eqb_neq in E. now rewrite dict_get_set_other.
Qed.

Lemma dict_set_In (k k' : string) (v v' : Handle) (d : Dict) :
  In (k, v) (dict_set k' v' d) -> In (k, v) d \/ v = v'.
Proof.
  induction d as [|[k2 v2] d IH]; simpl.
  - intros [H|[]]. inversion H. now right.
  - destruct (String.eqb k' k2); simpl.
    + intros [H|H]; [inversion H; now right|left; now right].
    + intros [H|H]; [left; now left|].
      destruct (IH H); [left; now right|now right].
Qed.

Lemma has_colon_append (a b : string) :
  has_colon (String.append a b) = has_colon a || has_colon b.
Proof.
  induction a as [|c a IH]; simpl; auto.
  rewrite IH. now rewrite orb_assoc.
Qed.

Lemma has_colon_format_pair (a b : string) :
  has_colon (format_pair a b) = true.
Proof.
  unfold format_pair. rewrite has_colon_append. simpl. apply orb_true_r.
Qed.

(** ** Four invariants, over every sequence of operations *)

(** X1. Whatever is done with the manager, a callback is never stored
    twice in the list of callbacks: every sequence of operations started
    with distinct callbacks ends, by returning or by raising, with distinct
    callbacks. *)
Theorem callbacks_stay_distinct (w : World) (ops : list Operation)
    (st : Manager) :
  NoDup (_event_callbacks st) ->
  match run w ops st with
  | Returned _ st' _ | Raised _ st' _ => NoDup (_event_callbacks st')
  | OutOfFuel => True
  end.
Proof.
  revert st.
  change (preserves (fun st => NoDup (_event_callbacks st)) (run w ops)).
  apply preserves_run; try (intros; assumption).
  - intros [] st H; exact H.
  - intros [] st H; exact H.
  - intros c st H Hm. simpl. apply NoDup_app; auto.
    + constructor; [intros []|constructor].
    + intros x Hx [->|[]]. apply mem_false in Hm. contradiction.
  - intros c st H. simpl. now apply remove_first_NoDup.
Qed.

Lemma callbacks_stay_distinct_witness :
  NoDup (_event_callbacks (Fleet.with_callbacks [4; 5]))
  /\ match run Fleet.scripted
             [RegisterEventHandler 4; FireEvent 3 (ClientConnectionEvent 3);
              UnregisterEventHandler 5; RegisterEventHandler 1;
              DiscoverDevices 3 false]
             (Fleet.with_callbacks [4; 5]) with
     | Returned _ st' _ | Raised _ st' _ => NoDup (_event_callbacks st')
     | OutOfFuel => True
     end.
Proof.
  assert (H : NoDup (_event_callbacks (Fleet.with_callbacks [4; 5]))).
  { simpl. repeat constructor; simpl; intuition discriminate. }
  split; [exact H|].
  exact (@callbacks_stay_distinct Fleet.scripted
           [RegisterEventHandler 4; FireEvent 3 (ClientConnectionEvent 3);
            UnregisterEventHandler 5; RegisterEventHandler 1;
            DiscoverDevices 3 false]
           (Fleet.with_callbacks [4; 5]) H).
Defined.


(** X3. No operation removes a key from the dict of devices: a key that is
    in the dict is still there after every sequence of operations, whether
    the sequence returns or raises. *)
Theorem keys_are_never_removed (w : World) (ops : list Operation)
    (st : Manager) (k : string) :
  dict_contains k (_devices st) = true ->
  match run w ops st with
  | Returned _ st' _ | Raised _ st' _ => dict_contains k (_devices st') = true
  | OutOfFuel => True
  end.
Proof.
  revert st.
  change (preserves (fun st => dict_contains k (_devices st) = true)
            (run w ops)).
  apply preserves_run; try (intros; assumption).
  - intros [] st H; exact H.
  - intros [] st H; exact H.
  - intros st d_id device_id device H _ _ _. simpl.
    now apply dict_contains_set.
Qed.

Lemma keys_are_never_removed_witness :
  dict_contains "H1:S1" (_devices Fleet.one_hub_known) = true
  /\ match run Fleet.one_hub [DiscoverDevices 0 false; Stop]
             Fleet.one_hub_known with
     | Returned _ st' _ | Raised _ st' _ =>
         dict_contains "H1:S1" (_devices st') = true
     | OutOfFuel => True
     end.
Proof.
  split; [reflexivity|].
  exact (@keys_are_never_removed Fleet.one_hub
           [DiscoverDevices 0 false; Stop] Fleet.one_hub_known
           "H1:S1" eq_refl).
Defined.

(** X4. A key without a colon, once mapped to a handle, stays mapped to
    that same handle through every sequence of operations: line 188 writes
    under a key that either was absent at line 186 or is a composite key,
    and a composite key has a colon.  So the handle of a top-level device
    whose UUID has no colon is never replaced. *)
Theorem colon_free_key_keeps_its_handle (w : World) (ops : list Operation)
    (st : Manager) (k : string) (v : Handle) :
  has_colon k = false ->
  dict_get k (_devices st) = Some v ->
  match run w ops st with
  | Returned _ st' _ | Raised _ st' _ => dict_get k (_devices st') = Some v
  | OutOfFuel => True
  end.
Proof.
  intros Hk. revert st.
  change (preserves (fun st => dict_get k (_devices st) = Some v)
            (run w ops)).
  apply preserves_run; try (intros; assumption).
  - intros [] st H; exact H.
  - intros [] st H; exact H.
  - intros st d_id device_id device H _ Habsent Hkey. simpl.
    rewrite dict_get_set_other; [exact H|].
    intros ->. destruct Hkey as [->|[u ->]].
    + unfold dict_contains in Habsent. now rewrite H in Habsent.
    + rewrite has_colon_format_pair in Hk. discriminate.
Qed.

Lemma colon_free_key_keeps_its_handle_witness :
  (has_colon "H1" = false
   /\ dict_get "H1" (_devices Fleet.one_hub_known)
      = Some (mkHandle 0 GenericHub "H1" "hub" "msh300" true))
  /\ match run Fleet.one_hub [DiscoverDevices 0 false; Start 0]
             Fleet.one_hub_known with
     | Returned _ st' _ | Raised _ st' _ =>
         dict_get "H1" (_devices st')
         = Some (mkHandle 0 GenericHub "H1" "hub" "msh300" true)
     | OutOfFuel => True
     end.
Proof.
  split; [split; reflexivity|].
  exact (@colon_free_key_keeps_its_handle Fleet.one_hub
           [DiscoverDevices 0 false; Start 0] Fleet.one_hub_known "H1"
           (mkHandle 0 GenericHub "H1" "hub" "msh300" true)
           eq_refl eq_refl).
Defined.

(** ** Registering and unregistering callbacks *)

Lemma bind_returned_nil {A B} (m : M A) (f : A -> M B) (a : A)
    (st st1 : Manager) :
  m st = Returned a st1 [] -> bind m f st = f a st1.
Proof.
  intros H. unfold bind. rewrite H. destruct (f a st1); reflexivity.
Qed.

Lemma mem_app_last (c : callback) (l : list callback) :
  mem c (l ++ [c]) = true.
Proof. apply mem_In. apply in_or_app. right. now left. Qed.

Lemma set_event_callbacks_same (st : Manager) :
  set_event_callbacks (_event_callbacks st) st = st.
Proof. destruct st; reflexivity. Qed.

Lemma remove_first_filter (c : callback) (l : list callback) :
  NoDup l -> remove_first c l = filter (fun x => negb (Nat.eqb c x)) l.
Proof.
  induction 1 as [|y l Hy Hl IH]; simpl; auto.
  destruct (Nat.eqb c y) eqn:E; simpl.
  - apply Nat.eqb_eq in E. subst.
    symmetry. apply forallb_filter_id. apply forallb_forall.
    intros x Hx. apply negb_true_iff. apply Nat.eqb_neq.
    intros Heq. subst. contradiction.
  - now rewrite IH.
Qed.

(** X5. Registering a callback twice is the same as registering it once:
    the second call finds the callback in the list and changes nothing, so
    a callback keeps the position of its first registration. *)
Theorem register_event_handler_twice (c : callback) (st : Manager) :
  (register_event_handler c ;; register_event_handler c) st
  = register_event_handler c st.
Proof.
  rewrite (@bind_returned_nil _ _ _ _ _ _ _ (register_run c st)).
  rewrite !register_run.
  destruct (mem c (_event_callbacks st)) eqn:E.
  - now rewrite E.
  - simpl. now rewrite mem_app_last.
Qed.

(** X6. Unregistering undoes a registration: when the callback was not
    registered, registering it and then unregistering it leaves the manager
    exactly as it was.  Unregistering a callback that is not registered
    changes nothing and raises nothing (line 63 guards [list.remove]). *)
Theorem unregister_undoes_register (c : callback) (st : Manager) :
  ~ In c (_event_callbacks st) ->
  (register_event_handler c ;; unregister_event_handler c) st
  = Returned tt st []
  /\ unregister_event_handler c st = Returned tt st [].
Proof.
  intros Hc. pose proof (proj2 (mem_false _ _) Hc) as Hm. split.
  - rewrite (@bind_returned_nil _ _ _ _ _ _ _ (register_run c st)).
    rewrite unregister_run, Hm. simpl.
    rewrite mem_app_last, remove_first_last by assumption.
    destruct st; reflexivity.
  - rewrite unregister_run, Hm. reflexivity.
Qed.

Lemma unregister_undoes_register_witness :
  ~ In 7 (_event_callbacks (Fleet.with_callbacks [4; 5]))
  /\ (register_event_handler 7 ;; unregister_event_handler 7)
       (Fleet.with_callbacks [4; 5])
     = Returned tt (Fleet.with_callbacks [4; 5]) [].
Proof.
  assert (H : ~ In 7 (_event_callbacks (Fleet.with_callbacks [4; 5]))).
  { simpl. intuition discriminate. }
  split; [exact H|].
  exact (proj1 (@unregister_undoes_register 7 (Fleet.with_callbacks [4; 5]) H)).
Defined.

(** X7. [list.remove] drops one occurrence only; since the callbacks are
    kept distinct, unregistering removes the callback altogether and leaves
    the others in their order: the new list is the old one filtered. *)
Theorem unregister_removes_the_callback (c : callback) (st : Manager) :
  NoDup (_event_callbacks st) ->
  exists st',
    unregister_event_handler c st = Returned tt st' []
    /\ _event_callbacks st'
       = filter (fun x => negb (Nat.eqb c x)) (_event_callbacks st)
    /\ ~ In c (_event_callbacks st')
    /\ _devices st' = _devices st.
Proof.
  intros Hn. rewrite unregister_run. eexists. split; [reflexivity|].
  destruct (mem c (_event_callbacks st)) eqn:E; simpl.
  - rewrite <- remove_first_filter by assumption.
    repeat split. now apply remove_first_NoDup.
  - apply mem_false in E. repeat split; auto.
    symmetry. apply forallb_filter_id. apply forallb_forall.
    intros x Hx. apply negb_true_iff. apply Nat.eqb_neq.
    intros Heq. subst. contradiction.
Qed.

Lemma unregister_removes_the_callback_witness :
  NoDup (_event_callbacks (Fleet.with_callbacks [4; 5; 6]))
  /\ exists st',
       unregister_event_handler 5 (Fleet.with_callbacks [4; 5; 6])
       = Returned tt st' []
       /\ _event_callbacks st' = [4; 6].
Proof.
  assert (H : NoDup (_event_callbacks (Fleet.with_callbacks [4; 5; 6]))).
  { simpl. repeat constructor; simpl; intuition discriminate. }
  split; [exact H|].
  destruct (@unregister_removes_the_callback 5
              (Fleet.with_callbacks [4; 5; 6]) H) as (st' & Hrun & Hl & _).
  exists st'. split; [exact Hrun|exact Hl].
Defined.

(** ** Registration and fan-out together *)

(** X8. A callback that has been registered is invoked by the next
    [_fire_event], once, and after the callbacks registered before it;
    here no callback calls back into the manager. *)
Theorem registered_callback_is_invoked_once (w : World) (fuel : nat)
    (e : MerossEvent) (st : Manager) (c : callback) :
  NoDup (_event_callbacks st) ->
  (forall c', In c' (c :: _event_callbacks st) -> calls (script w c' e) = []) ->
  S (List.length (_event_callbacks st)) <= fuel ->
  exists st' log,
    (register_event_handler c ;; _fire_event w fuel e) st
    = Returned tt st' log
    /\ invoked log
       = map (fun x => (x, e))
           (if mem c (_event_callbacks st) then _event_callbacks st
            else _event_callbacks st ++ [c])
    /\ times_called c log = 1.
Proof.
  intros Hn Hq Hf.
  rewrite (@bind_returned_nil _ _ _ _ _ _ _ (register_run c st)).
  set (st1 := if mem c (_event_callbacks st) then st
              else set_event_callbacks (_event_callbacks st ++ [c]) st).
  assert (Hcbs : _event_callbacks st1
                 = if mem c (_event_callbacks st) then _event_callbacks st
                   else _event_callbacks st ++ [c]).
  { subst st1. destruct (mem c (_event_callbacks st)); reflexivity. }
  assert (Hin : In c (_event_callbacks st1)).
  { rewrite Hcbs. destruct (mem c (_event_callbacks st)) eqn:E.
    - now apply mem_In.
    - apply in_or_app. right. now left. }
  assert (Hincl : forall x, In x (_event_callbacks st1) ->
                            In x (c :: _event_callbacks st)).
  { rewrite Hcbs. destruct (mem c (_event_callbacks st)); intros x Hx.
    - now right.
    - apply in_app_or in Hx. destruct Hx as [Hx|[<-|[]]];
        [now right|now left]. }
  assert (Hn1 : NoDup (_event_callbacks st1)).
  { rewrite Hcbs. destruct (mem c (_event_callbacks st)) eqn:E; auto.
    apply mem_false in E. apply NoDup_app; auto.
    - constructor; [intros []|constructor].
    - intros x Hx [->|[]]. contradiction. }
  rewrite fire_event_quiet.
  - eexists _, _. split; [reflexivity|]. split.
    + simpl. rewrite invoked_fanout_log. now rewrite Hcbs.
    + change (times_called c (fanout_log w e st1 (_event_callbacks st1)) = 1).
      rewrite times_called_fanout.
      now apply (proj1 (NoDup_count_occ' Nat.eq_dec _) Hn1).
  - intros x Hx. apply Hq. now apply Hincl.
  - rewrite Hcbs. destruct (mem c (_event_callbacks st)); [lia|].
    rewrite length_app. simpl. lia.
Qed.

Lemma registered_callback_is_invoked_once_witness :
  (NoDup (_event_callbacks (Fleet.with_callbacks [4; 5]))
   /\ (forall c', In c' (7 :: _event_callbacks (Fleet.with_callbacks [4; 5])) ->
         calls (script still c' (ClientConnectionEvent 3)) = [])
   /\ S (List.length (_event_callbacks (Fleet.with_callbacks [4; 5]))) <= 3)
  /\ exists st' log,
       (register_event_handler 7 ;;
        _fire_event still 3 (ClientConnectionEvent 3))
         (Fleet.with_callbacks [4; 5])
       = Returned tt st' log
       /\ times_called 7 log = 1.
Proof.
  assert (H1 : NoDup (_event_callbacks (Fleet.with_callbacks [4; 5]))).
  { simpl. repeat constructor; simpl; intuition discriminate. }
  assert (H2 : forall c',
             In c' (7 :: _event_callbacks (Fleet.with_callbacks [4; 5])) ->
             calls (script still c' (ClientConnectionEvent 3)) = []).
  { intros; reflexivity. }
  assert (H3 : S (List.length
                    (_event_callbacks (Fleet.with_callbacks [4; 5]))) <= 3).
  { simpl. lia. }
  split; [repeat split; assumption|].
  destruct (@registered_callback_is_invoked_once still 3
              (ClientConnectionEvent 3) (Fleet.with_callbacks [4; 5]) 7
              H1 H2 H3) as (st' & log & Hrun & _ & Hc).
  exists st', log. split; [exact Hrun|exact Hc].
Defined.

Lemma unregister_removes_the_callback_aux (c : callback) (st : Manager) :
  NoDup (_event_callbacks st) ->
  exists st',
    unregister_event_handler c st = Returned tt st' []
    /\ incl (_event_callbacks st') (_event_callbacks st)
    /\ NoDup (_event_callbacks st')
    /\ ~ In c (_event_callbacks st')
    /\ (forall x, In x (_event_callbacks st) -> x <> c ->
                  In x (_event_callbacks st')).
Proof.
  intros Hn. rewrite unregister_run. eexists. split; [reflexivity|].
  destruct (mem c (_event_callbacks st)) eqn:E; simpl.
  - destruct (@remove_first_NoDup c _ Hn) as [H1 H2].
    repeat split; auto.
    + intros x Hx. eapply remove_first_In; eauto.
    + intros x Hx Hne. now apply remove_first_other.
  - apply mem_false in E. repeat split; auto. apply incl_refl.
Qed.

(** X9. A callback that has been unregistered is not invoked by the next
    [_fire_event], and every other registered callback still is, once;
    here no callback calls back into the manager. *)
Theorem unregistered_callback_is_not_invoked (w : World) (fuel : nat)
    (e : MerossEvent) (st : Manager) (c : callback) :
  NoDup (_event_callbacks st) ->
  (forall c', In c' (_event_callbacks st) -> calls (script w c' e) = []) ->
  List.length (_event_callbacks st) <= fuel ->
  exists st' log,
    (unregister_event_handler c ;; _fire_event w fuel e) st
    = Returned tt st' log
    /\ times_called c log = 0
    /\ (forall x, In x (_event_callbacks st) -> x <> c ->
                  times_called x log = 1).
Proof.
  intros Hn Hq Hf.
  destruct (@unregister_removes_the_callback_aux c st Hn)
    as (st1 & Hrun & Hsub & Hn1 & Hout & Hother).
  rewrite (@bind_returned_nil _ _ _ _ _ _ _ Hrun).
  rewrite fire_event_quiet.
  - eexists _, _. split; [reflexivity|]. split.
    + change (times_called c (fanout_log w e st1 (_event_callbacks st1)) = 0).
      rewrite times_called_fanout. now apply count_occ_not_In.
    + intros x Hx Hne.
      change (times_called x (fanout_log w e st1 (_event_callbacks st1)) = 1).
      rewrite times_called_fanout.
      apply (proj1 (NoDup_count_occ' Nat.eq_dec _) Hn1). now apply Hother.
  - intros x Hx. apply Hq. now apply Hsub.
  - pose proof (NoDup_incl_length Hn1 Hsub). lia.
Qed.

Lemma unregistered_callback_is_not_invoked_witness :
  (NoDup (_event_callbacks (Fleet.with_callbacks [4; 5]))
   /\ (forall c', In c' (_event_callbacks (Fleet.with_callbacks [4; 5])) ->
         calls (script still c' (ClientConnectionEvent 3)) = [])
   /\ List.length (_event_callbacks (Fleet.with_callbacks [4; 5])) <= 2)
  /\ exists st' log,
       (unregister_event_handler 4 ;;
        _fire_event still 2 (ClientConnectionEvent 3))
         (Fleet.with_callbacks [4; 5])
       = Returned tt st' log
       /\ times_called 4 log = 0
       /\ times_called 5 log = 1.
Proof.
  assert (H1 : NoDup (_event_callbacks (Fleet.with_callbacks [4; 5]))).
  { simpl. repeat constructor; simpl; intuition discriminate. }
  assert (H2 : forall c',
             In c' (_event_callbacks (Fleet.with_callbacks [4; 5])) ->
             calls (script still c' (ClientConnectionEvent 3)) = []).
  { intros; reflexivity. }
  assert (H3 : List.length
                 (_event_callbacks (Fleet.with_callbacks [4; 5])) <= 2).
  { simpl. lia. }
  split; [repeat split; assumption|].
  destruct (@unregistered_callback_is_not_invoked still 2
              (ClientConnectionEvent 3) (Fleet.with_callbacks [4; 5]) 4
              H1 H2 H3) as (st' & log & Hrun & H4 & H5).
  exists st', log. split; [exact Hrun|]. split; [exact H4|].
  apply H5; [right; now left|discriminate].
Defined.

(** ** What a fan-out can and cannot do *)

(** X10. Whatever the registered callbacks do (register, unregister,
    raise), [_fire_event] lets no error out, leaves the dict of devices and
    the object counter untouched, gives both locks back, and fires the one
    event it was given: the callbacks reach nothing of the manager but the
    list of callbacks. *)
Theorem fire_event_is_contained (w : World) (fuel : nat) (e : MerossEvent)
    (st : Manager) :
  match _fire_event w fuel e st with
  | Returned _ st' log =>
      _devices st' = _devices st
      /\ next_obj st' = next_obj st
      /\ connection_status st' = connection_status st
      /\ same_locks st st'
      /\ fired log = [e]
  | Raised _ _ _ => False
  | OutOfFuel => True
  end.
Proof.
  pose proof (never_raises_fire_event w fuel e st) as Hn.
  pose proof (disciplined_fire_event w fuel e st) as Hd.
  pose proof (@preserves_fire_event w
                (fun s => connection_status s = connection_status st)) as Hc.
  destruct (_fire_event w fuel e st) as [[] st' log| |] eqn:E; auto.
  destruct (@fire_event_returned w fuel e st st' log E) as (H1 & H2 & H3).
  destruct Hd as [Hl _].
  repeat split; auto; try apply Hl.
  assert (Hp : preserves (fun s => connection_status s = connection_status st)
                 (_fire_event w fuel e)).
  { apply Hc; intros; simpl; assumption. }
  specialize (Hp st eq_refl). now rewrite E in Hp.
Qed.

Lemma invoke_restless (w : World) (c : callback) (e : MerossEvent)
    (st : Manager) :
  script w c e = restless_script c e ->
  try_except (invoke w c e)
    (fun _ => emit (log_exception exception_message)) st
  = Returned tt
      (if mem (S c) (_event_callbacks st) then st
       else set_event_callbacks (_event_callbacks st ++ [S c]) st)
      [stamp st (callback_called c e)].
Proof.
  intros Hw. unfold try_except, invoke. rewrite Hw. simpl.
  unfold bind. simpl. rewrite register_run.
  destruct (mem (S c) (_event_callbacks st)); reflexivity.
Qed.

Lemma restless_loop (w : World) (e : MerossEvent) (k : nat) :
  (forall c e', script w c e' = restless_script c e') ->
  forall fuel i st,
    _event_callbacks st = seq k (S i) ->
    fire_loop w fuel i e st = OutOfFuel.
Proof.
  intros Hw.
  assert (Hnth : forall i, nth_error (seq k (S i)) i = Some (k + i)).
  { intros i. rewrite nth_error_nth' with (d := 0) by (rewrite length_seq; lia).
    rewrite seq_nth by lia. reflexivity. }
  induction fuel as [|fuel IH]; intros i st Hl.
  - simpl. rewrite Hl, Hnth. reflexivity.
  - simpl. rewrite Hl, Hnth. unfold bind.
    rewrite invoke_restless by apply Hw.
    assert (Hm : mem (S (k + i)) (_event_callbacks st) = false).
    { apply mem_false. rewrite Hl, in_seq. lia. }
    rewrite Hm. rewrite IH; [reflexivity|].
    change (_event_callbacks st ++ [S (k + i)] = seq k (S (S i))).
    rewrite Hl, (seq_S (S i)). do 2 f_equal. lia.
Qed.

(** X11. A fan-out need not end.  When every callback, on being invoked,
    registers a callback that was not registered before, the loop of
    [_fire_event] finds a new callback at the end of the list each time it
    gets there: whatever the bound on the number of invocations, the
    fan-out started with one registered callback is still running when the
    bound is reached. *)
Theorem fan_out_can_run_forever (w : World) (fuel : nat) (e : MerossEvent)
    (st : Manager) (k : callback) :
  (forall c e', script w c e' = restless_script c e') ->
  _event_callbacks st = [k] ->
  _fire_event w fuel e st = OutOfFuel.
Proof.
  intros Hw Hl. unfold _fire_event, bind. simpl.
  rewrite (@restless_loop w e k Hw fuel 0 st Hl). reflexivity.
Qed.

Lemma fan_out_can_run_forever_witness :
  ((forall c e', script restless c e' = restless_script c e')
   /\ _event_callbacks (Fleet.with_callbacks [0]) = [0])
  /\ _fire_event restless 1000 (ClientConnectionEvent 3)
       (Fleet.with_callbacks [0])
     = OutOfFuel.
Proof.
  split; [split; reflexivity|].
  exact (@fan_out_can_run_forever restless 1000 (ClientConnectionEvent 3)
           (Fleet.with_callbacks [0]) 0 (fun _ _ => eq_refl) eq_refl).
Defined.

(** ** A device seen for the first time *)

Lemma registered_on_app (l1 l2 : list Entry) :
  registered_on (l1 ++ l2) = registered_on l1 ++ registered_on l2.
Proof.
  induction l1 as [|x l1 IH]; simpl; auto.
  destruct (eff x); simpl; now rewrite ?IH.
Qed.

Lemma registered_on_registrations (device : Handle) (d b : nat)
    (cbs : list callback) :
  registered_on
    (map (fun c => mkEntry (register_event_callback_called device c) d b) cbs)
  = map (fun c => (device, c)) cbs.
Proof. induction cbs as [|c cbs IH]; simpl; now rewrite ?IH. Qed.

Lemma registered_on_fanout (d b : nat) (l : list Entry) :
  forallb (fanout_entry d b) l = true -> registered_on l = [].
Proof.
  induction l as [|x l IH]; simpl; auto.
  intros H. apply andb_prop in H. destruct H as [Hx Hl].
  unfold fanout_entry in Hx. apply andb_prop in Hx. destruct Hx as [Hx _].
  destruct (eff x); simpl in *; try discriminate; auto.
Qed.

Lemma fire_event_registers_nothing (w : World) (fuel : nat) (e : MerossEvent)
    (st st' : Manager) (log : list Entry) :
  _fire_event w fuel e st = Returned tt st' log -> registered_on log = [].
Proof.
  unfold _fire_event. intros H. apply bind_returned in H.
  destruct H as ([] & s1 & l1 & l2 & Hemit & Hloop & ->).
  inversion Hemit; subst.
  pose proof (fanout_loop_entries w fuel 0 e s1) as Hf.
  rewrite Hloop in Hf. destruct Hf as [_ Hf]. simpl.
  eapply registered_on_fanout; eauto.
Qed.

(** The whole of [_handle_device_discovered] on a device that was built and
    whose tested identifier is not a key: the insertion, the registrations
    and the fan-out. *)
Lemma handle_new_device (w : World) (fuel : nat) (dev : Descriptor)
    (parent_hub : option Handle) (st s1 st' : Manager) (l1 log : list Entry)
    (d_id device_id : string) (device : Handle) (r : option Handle) :
  resolve w dev parent_hub st
  = Returned (Some (d_id, device_id, Some device)) s1 l1 ->
  dict_contains d_id (_devices s1) = false ->
  _handle_device_discovered w fuel dev parent_hub st = Returned r st' log ->
  exists firelog,
    r = Some device
    /\ _fire_event w fuel (DeviceOnlineStatusEvent device (hd_online device))
         (set_devices (dict_set device_id device (_devices s1)) s1)
       = Returned tt st' firelog
    /\ log
       = l1
         ++ map (fun c => mkEntry (register_event_callback_called device c)
                            (_devices_lock s1) (S (_event_callbacks_lock s1)))
              (_event_callbacks s1)
         ++ firelog.
Proof.
  intros Hres Hnew H. unfold _handle_device_discovered in H.
  apply bind_returned in H.
  destruct H as (a & sa & la & lb & Ha & Hb & ->).
  rewrite Hres in Ha. inversion Ha; subst. clear Ha.
  apply bind_returned in Hb.
  destruct Hb as (is_new & s2 & l2 & l3 & Hins & Hb & ->).
  rewrite insert_if_new_run, Hnew in Hins. inversion Hins; subst. clear Hins.
  apply bind_returned in Hb.
  destruct Hb as ([] & s3 & l4 & l5 & Hann & Hret & ->).
  inversion Hret; subst. clear Hret. simpl in Hann.
  apply bind_returned in Hann.
  destruct Hann as ([] & s4 & l6 & l7 & Hreg & Hfire & ->).
  rewrite register_known_callbacks in Hreg. inversion Hreg; subst.
  exists l7. split; [reflexivity|]. split; [exact Hfire|].
  simpl. now rewrite !app_nil_r.
Qed.

Lemma get_device_by_uuid_run (u : string) (st : Manager) :
  exists l,
    get_device_by_uuid u st = Returned (dict_get u (_devices st)) st l.
Proof.
  unfold get_device_by_uuid, _ensure_started, with_lock, bind, gets, emit.
  simpl. destruct (negb (check_status (connection_status st) SUBSCRIBED));
    simpl; eexists; destruct st; reflexivity.
Qed.

(** X12. A top-level device whose UUID is not a key of the dict.
    [_handle_device_discovered] never raises on it, and returns when the
    callbacks leave the manager alone (and the fuel covers them).  Whenever
    it returns, whatever the callbacks do, the handle it returns is the one
    the factory built, that handle is what [get_device_by_uuid] now finds
    under the UUID, every callback registered at that moment has been
    registered on the device, in registration order, and one event was
    fired, carrying the device and its online flag. *)
Theorem new_device_is_stored_wired_and_announced (w : World) (fuel : nat)
    (dev : Descriptor) (parent_hub : option Handle) (st : Manager)
    (d_type d_id : string) (b : Blueprint) :
  deviceType dev = Some d_type -> uuid dev = Some d_id ->
  build_wrapper w d_type d_id dev = Some b ->
  dict_contains d_id (_devices st) = false ->
  let device := instantiate (next_obj st) b in
  let run := _handle_device_discovered w fuel dev parent_hub st in
  (forall r st' log,
      run = Returned r st' log ->
      r = Some device
      /\ (exists l, get_device_by_uuid d_id st' = Returned (Some device) st' l)
      /\ registered_on log = map (fun c => (device, c)) (_event_callbacks st)
      /\ fired log = [DeviceOnlineStatusEvent device (bp_online b)])
  /\ (forall e st' log, run <> Raised e st' log)
  /\ ((forall c e, In c (_event_callbacks st) -> calls (script w c e) = []) ->
      List.length (_event_callbacks st) <= fuel ->
      exists st' log, run = Returned (Some device) st' log).
Proof.
  intros Ht Hu Hb Hnew device run.
  assert (Hret : forall r st' log,
            run = Returned r st' log ->
            r = Some device
            /\ (exists l,
                   get_device_by_uuid d_id st' = Returned (Some device) st' l)
            /\ registered_on log
               = map (fun c => (device, c)) (_event_callbacks st)
            /\ fired log = [DeviceOnlineStatusEvent device (bp_online b)]).
  { intros r st' log H.
    pose proof (@resolve_full w dev parent_hub st d_type d_id Ht Hu) as Hres.
    cbv zeta in Hres. rewrite Hb in Hres. simpl in Hres.
    destruct (@handle_new_device _ _ _ _ _ _ _ _ _ _ _ _ _ Hres Hnew H)
      as (firelog & Hr & Hfire & Hlog).
    destruct (@fire_event_returned _ _ _ _ _ _ Hfire) as (Hd & _ & Hf).
    pose proof (@fire_event_registers_nothing _ _ _ _ _ _ Hfire) as Hreg.
    split; [exact Hr|]. split; [|split].
    - destruct (get_device_by_uuid_run d_id st') as (l & Hl).
      exists l. rewrite Hl, Hd. simpl. now rewrite dict_get_set_same.
    - rewrite Hlog. simpl.
      rewrite registered_on_app, registered_on_registrations, Hreg.
      now rewrite app_nil_r.
    - rewrite Hlog. simpl. rewrite fired_app, fired_registrations.
      exact Hf. }
  assert (Hnr : forall e st' log, run <> Raised e st' log).
  { intros e st' log H.
    pose proof (@never_raises_handle_device_discovered w fuel dev parent_hub)
      as Hn.
    assert (Hshape : shape_of dev <> SubDevice \/ parent_hub <> None).
    { left. unfold shape_of. rewrite Ht, Hu. discriminate. }
    specialize (Hn Hshape st). fold run in Hn. now rewrite H in Hn. }
  split; [exact Hret|]. split; [exact Hnr|].
  intros Hq Hf.
  pose proof (@steady_handle_device_discovered w fuel (_event_callbacks st)
                Hq Hf dev parent_hub st eq_refl) as Hs.
  fold run in Hs.
  destruct run as [r st' log|e st' log|] eqn:Hrun.
  - destruct (Hret r st' log eq_refl) as [-> _]. now exists st', log.
  - now elim (Hnr e st' log).
  - contradiction.
Qed.

Lemma new_device_is_stored_wired_and_announced_witness :
  (deviceType (Fleet.plug "P1") = Some "mss310"%string
   /\ uuid (Fleet.plug "P1") = Some "P1"%string
   /\ build_wrapper Fleet.scripted "mss310" "P1" (Fleet.plug "P1")
      = Some (mkBlueprint GenericPlug "P1" "plug" "mss310" true)
   /\ dict_contains "P1" (_devices (Fleet.with_callbacks [4; 5])) = false
   /\ (forall c e, In c (_event_callbacks (Fleet.with_callbacks [4; 5])) ->
                   calls (script Fleet.scripted c e) = [])
   /\ List.length (_event_callbacks (Fleet.with_callbacks [4; 5])) <= 2)
  /\ exists st' log,
       _handle_device_discovered Fleet.scripted 2 (Fleet.plug "P1") None
         (Fleet.with_callbacks [4; 5])
       = Returned (Some (mkHandle 0 GenericPlug "P1" "plug" "mss310" true))
           st' log
       /\ registered_on log
          = [(mkHandle 0 GenericPlug "P1" "plug" "mss310" true, 4);
             (mkHandle 0 GenericPlug "P1" "plug" "mss310" true, 5)].
Proof.
  assert (Hq : forall c e,
            In c (_event_callbacks (Fleet.with_callbacks [4; 5])) ->
            calls (script Fleet.scripted c e) = []).
  { intros c e [<-|[<-|[]]]; reflexivity. }
  assert (Hf : List.length (_event_callbacks (Fleet.with_callbacks [4; 5]))
               <= 2) by (simpl; lia).
  split; [split; [reflexivity|split; [reflexivity|split; [reflexivity|
    split; [reflexivity|split; [exact Hq|exact Hf]]]]]|].
  pose proof (@new_device_is_stored_wired_and_announced Fleet.scripted 2
                (Fleet.plug "P1") None (Fleet.with_callbacks [4; 5])
                "mss310" "P1"
                (mkBlueprint GenericPlug "P1" "plug" "mss310" true)
                eq_refl eq_refl eq_refl eq_refl) as H.
  cbv zeta in H. destruct H as (Hret & _ & Hgo).
  destruct (Hgo Hq Hf) as (st' & log & Hrun).
  exists st', log. split; [exact Hrun|].
  exact (proj1 (proj2 (proj2 (Hret _ _ _ Hrun)))).
Defined.

(** ** What a pass leaves in the dict *)

Section Passes.

Variable w : World.

Lemma key_kept_handle (k : string) (fuel : nat) (dev : Descriptor)
    (parent_hub : option Handle) :
  preserves (fun st => dict_contains k (_devices st) = true)
    (_handle_device_discovered w fuel dev parent_hub).
Proof.
  apply preserves_handle_device_discovered; try (intros; assumption).
  - intros [] st H; exact H.
  - intros [] st H; exact H.
  - intros st d_id device_id device H _ _ _. simpl.
    now apply dict_contains_set.
Qed.

Lemma key_kept_discover_one (k : string) (fuel : nat) (online_only : bool)
    (dev : Descriptor) :
  preserves (fun st => dict_contains k (_devices st) = true)
    (discover_one w fuel online_only dev).
Proof.
  apply preserves_discover_one; try (intros; assumption).
  - intros [] st H; exact H.
  - intros [] st H; exact H.
  - intros st d_id device_id device H _ _ _. simpl.
    now apply dict_contains_set.
Qed.

(** After its turn in the loop, a top-level device that was built is in
    the dict. *)
Lemma discover_one_stores (fuel : nat) (online_only : bool)
    (dev : Descriptor) (st st' : Manager) (log : list Entry)
    (online : Z) (d_type d_id : string) (b : Blueprint) :
  onlineStatus dev = Some online -> not_skipped online_only online ->
  deviceType dev = Some d_type -> uuid dev = Some d_id ->
  build_wrapper w d_type d_id dev = Some b ->
  discover_one w fuel online_only dev st = Returned tt st' log ->
  dict_contains d_id (_devices st') = true.
Proof.
  intros Ho Hon Ht Hu Hb H. unfold discover_one in H. rewrite Ho in H.
  assert (Hskip : online_only && negb (Z.eqb online 1) = false).
  { destruct Hon as [->| ->]; [reflexivity|apply andb_false_r]. }
  rewrite Hskip in H. apply bind_returned in H.
  destruct H as (discovered & sa & la & lb & Hh & Htail & ->).
  pose proof (@resolve_full w dev None st d_type d_id Ht Hu) as Hres.
  cbv zeta in Hres. rewrite Hb in Hres. simpl in Hres.
  destruct (handle_built_device w fuel dev None st Hres eq_refl Hh)
    as [-> Hcase].
  assert (Hsa : dict_contains d_id (_devices sa) = true).
  { simpl in Hcase.
    destruct (dict_contains d_id (_devices st)) eqn:Hc.
    - destruct Hcase as [-> _]. exact Hc.
    - destruct Hcase as [Hd _]. rewrite Hd. unfold dict_contains.
      now rewrite dict_get_set_same. }
  assert (Hk : preserves (fun s => dict_contains d_id (_devices s) = true)
                 (fun s =>
                    (if isinstance (instantiate (next_obj st) b) GenericHub
                     then
                       emit (list_hub_subdevices_called
                               (hd_uuid (instantiate (next_obj st) b))) ;;
                       for_each
                         (list_hub_subdevices w
                            (hd_uuid (instantiate (next_obj st) b)))
                         (fun subdev =>
                            _handle_device_discovered w fuel subdev
                              (Some (instantiate (next_obj st) b)) ;;
                            ret tt)
                     else ret tt) s)).
  { destruct (isinstance (instantiate (next_obj st) b) GenericHub).
    - apply preserves_bind; [apply preserves_emit|intro].
      apply preserves_for_each. intros subdev _.
      apply preserves_bind; [apply key_kept_handle|intro; apply preserves_ret].
    - apply preserves_ret. }
  specialize (Hk sa Hsa). cbv beta in Hk. rewrite Htail in Hk. exact Hk.
Qed.

Lemma discovery_loop_stores (fuel : nat) (online_only : bool)
    (dev : Descriptor) (online : Z) (d_type d_id : string) (b : Blueprint) :
  onlineStatus dev = Some online -> not_skipped online_only online ->
  deviceType dev = Some d_type -> uuid dev = Some d_id ->
  build_wrapper w d_type d_id dev = Some b ->
  forall (l : list Descriptor) (st st' : Manager) (log : list Entry),
    In dev l ->
    for_each l (discover_one w fuel online_only) st = Returned tt st' log ->
    dict_contains d_id (_devices st') = true.
Proof.
  intros Ho Hon Ht Hu Hb.
  induction l as [|x l IH]; intros st st' log Hin H; [contradiction|].
  simpl in H. apply bind_returned in H.
  destruct H as ([] & s1 & l1 & l2 & Hone & Hrest & ->).
  destruct Hin as [->|Hin].
  - assert (Hs1 : dict_contains d_id (_devices s1) = true)
      by (eapply discover_one_stores; eauto).
    assert (Hk : preserves (fun s => dict_contains d_id (_devices s) = true)
                   (for_each l (discover_one w fuel online_only))).
    { apply preserves_for_each. intros y _. apply key_kept_discover_one. }
    specialize (Hk s1 Hs1). rewrite Hrest in Hk. exact Hk.
  - eapply IH; eauto.
Qed.

Lemma pass_stores_listed_key (fuel : nat) (online_only : bool)
    (st st' : Manager) (devs : Dict) (log : list Entry) (dev : Descriptor)
    (online : Z) (d_type d_id : string) (b : Blueprint) :
  _discover_devices w fuel online_only st = Returned devs st' log ->
  In dev (list_devices w) ->
  onlineStatus dev = Some online -> not_skipped online_only online ->
  deviceType dev = Some d_type -> uuid dev = Some d_id ->
  build_wrapper w d_type d_id dev = Some b ->
  exists device,
    dict_get d_id (_devices st') = Some device /\ devs = _devices st'.
Proof.
  intros H Hin Ho Hon Ht Hu Hb. unfold _discover_devices in H.
  apply bind_returned in H.
  destruct H as ([] & s1 & l1 & l2 & _ & H & ->).
  apply bind_returned in H.
  destruct H as ([] & s2 & l3 & l4 & Hloop & Hgets & ->).
  inversion Hgets; subst. clear Hgets.
  assert (Hk : dict_contains d_id (_devices st') = true)
    by (eapply discovery_loop_stores; eauto).
  unfold dict_contains in Hk.
  destruct (dict_get d_id (_devices st')) as [device|] eqn:Hg;
    [|discriminate].
  exists device. now split.
Qed.

(** X13. After a pass that returns, every top-level device of the listing
    that passed the online filter and that the factory built is in the
    dict: [get_device_by_uuid] finds a handle under its UUID. *)
Theorem pass_stores_every_listed_device (fuel : nat) (online_only : bool)
    (st st' : Manager) (devs : Dict) (log : list Entry) (dev : Descriptor)
    (online : Z) (d_type d_id : string) (b : Blueprint) :
  _discover_devices w fuel online_only st = Returned devs st' log ->
  In dev (list_devices w) ->
  onlineStatus dev = Some online -> not_skipped online_only online ->
  deviceType dev = Some d_type -> uuid dev = Some d_id ->
  build_wrapper w d_type d_id dev = Some b ->
  exists device l,
    get_device_by_uuid d_id st' = Returned (Some device) st' l
    /\ dict_get d_id devs = Some device.
Proof.
  intros H Hin Ho Hon Ht Hu Hb.
  destruct (@pass_stores_listed_key fuel online_only st st' devs log dev
              online d_type d_id b H Hin Ho Hon Ht Hu Hb)
    as (device & Hg & ->).
  destruct (get_device_by_uuid_run d_id st') as (l & Hl).
  exists device, l. rewrite Hl, Hg. now split.
Qed.

End Passes.

Lemma pass_stores_every_listed_device_witness :
  (_discover_devices Fleet.one_hub 0 false init
   = Returned (_devices Fleet.one_hub_known) Fleet.one_hub_known
       (log_of (_discover_devices Fleet.one_hub 0 false init))
   /\ In (Fleet.hub "H1") (list_devices Fleet.one_hub)
   /\ not_skipped false 1)
  /\ exists device,
       dict_get "H1" (_devices Fleet.one_hub_known) = Some device.
Proof.
  assert (Hrun : _discover_devices Fleet.one_hub 0 false init
                 = Returned (_devices Fleet.one_hub_known) Fleet.one_hub_known
                     (log_of (_discover_devices Fleet.one_hub 0 false init)))
    by (vm_compute; reflexivity).
  assert (Hin : In (Fleet.hub "H1") (list_devices Fleet.one_hub))
    by (left; reflexivity).
  assert (Hon : not_skipped false 1) by (left; reflexivity).
  split; [split; [exact Hrun|split; [exact Hin|exact Hon]]|].
  destruct (@pass_stores_every_listed_device Fleet.one_hub 0 false init
              Fleet.one_hub_known (_devices Fleet.one_hub_known) _
              (Fleet.hub "H1") 1%Z "msh300" "H1"
              (mkBlueprint GenericHub "H1" "hub" "msh300" true)
              Hrun Hin eq_refl Hon eq_refl eq_refl eq_refl)
    as (device & l & _ & Hd).
  exists device. exact Hd.
Defined.

(** ** A pass over known devices *)

Section KnownDevices.

Variable w : World.

(** Line 186 finds the UUID: the handle just built is returned and
    dropped, whatever the fuel and the callbacks. *)
Lemma handle_known_run (fuel : nat) (dev : Descriptor)
    (parent_hub : option Handle) (st : Manager) (d_type d_id : string) :
  deviceType dev = Some d_type -> uuid dev = Some d_id ->
  dict_contains d_id (_devices st) = true ->
  let built := build_wrapper w d_type d_id dev in
  let device := option_map (instantiate (next_obj st)) built in
  _handle_device_discovered w fuel dev parent_hub st
  = Returned device (after_build built st)
      [stamp st (build_wrapper_called d_type d_id device)].
Proof.
  intros Ht Hu Hin built device. subst built device.
  unfold _handle_device_discovered.
  pose proof (@resolve_full w dev parent_hub st d_type d_id Ht Hu) as Hres.
  cbv zeta in Hres. unfold bind at 1. rewrite Hres.
  destruct (build_wrapper w d_type d_id dev) as [b|]; simpl; [|reflexivity].
  unfold bind at 1. rewrite insert_if_new_run. simpl. rewrite Hin. simpl.
  reflexivity.
Qed.

Lemma discover_one_known_run (fuel : nat) (online_only : bool)
    (dev : Descriptor) (st : Manager) (online : Z) (d_type d_id : string)
    (b : Blueprint) :
  onlineStatus dev = Some online ->
  deviceType dev = Some d_type -> uuid dev = Some d_id ->
  build_wrapper w d_type d_id dev = Some b ->
  issubclass (bp_class b) GenericHub = false ->
  dict_contains d_id (_devices st) = true ->
  exists st' log,
    discover_one w fuel online_only dev st = Returned tt st' log
    /\ _devices st' = _devices st
    /\ _event_callbacks st' = _event_callbacks st
    /\ fired log = [] /\ registered_on log = [].
Proof.
  intros Ho Ht Hu Hb Hplain Hin. unfold discover_one. rewrite Ho.
  destruct (online_only && negb (Z.eqb online 1)).
  - exists st, []. repeat split.
  - unfold bind.
    rewrite (@handle_known_run fuel dev None st d_type d_id Ht Hu Hin).
    rewrite Hb. simpl. unfold isinstance. simpl. rewrite Hplain. simpl.
    eexists _, _. split; [reflexivity|]. repeat split.
Qed.

Lemma known_loop_run (fuel : nat) (online_only : bool) :
  forall (l : list Descriptor) (st : Manager),
    (forall dev, In dev l ->
       exists online d_type d_id b,
         onlineStatus dev = Some online
         /\ deviceType dev = Some d_type /\ uuid dev = Some d_id
         /\ build_wrapper w d_type d_id dev = Some b
         /\ issubclass (bp_class b) GenericHub = false
         /\ dict_contains d_id (_devices st) = true) ->
    exists st' log,
      for_each l (discover_one w fuel online_only) st = Returned tt st' log
      /\ _devices st' = _devices st
      /\ _event_callbacks st' = _event_callbacks st
      /\ fired log = [] /\ registered_on log = [].
Proof.
  induction l as [|dev l IH]; intros st Hall.
  - exists st, []. repeat split.
  - destruct (Hall dev (or_introl eq_refl))
      as (online & d_type & d_id & b & Ho & Ht & Hu & Hb & Hp & Hin).
    destruct (@discover_one_known_run fuel online_only dev st online
                d_type d_id b Ho Ht Hu Hb Hp Hin)
      as (s1 & l1 & Hone & Hd & Hc & Hf & Hr).
    destruct (IH s1) as (s2 & l2 & Hrest & Hd' & Hc' & Hf' & Hr').
    { intros dev' Hdev'.
      destruct (Hall dev' (or_intror Hdev'))
        as (o' & t' & u' & b' & ? & ? & ? & ? & ? & ?).
      exists o', t', u', b'. rewrite Hd. repeat split; assumption. }
    exists s2, (l1 ++ l2). simpl. unfold bind. rewrite Hone, Hrest.
    split; [reflexivity|].
    rewrite fired_app, registered_on_app, Hf, Hf', Hr, Hr'.
    repeat split; congruence.
Qed.

(** X14. Discovery is idempotent on a fleet of plain top-level devices.
    After one pass without the online filter has returned, any further
    pass, with any fuel and whatever the callbacks do, returns, leaves the
    dict and the list of callbacks as they are, fires no event and
    registers no callback on any device; in particular a callback
    registered between the two passes is not attached to the devices
    already known. *)
Theorem second_pass_over_plain_fleet_is_idle (fuel fuel' : nat)
    (online_only : bool) (st st1 : Manager) (devs1 : Dict)
    (log1 : list Entry) :
  plain_fleet w ->
  _discover_devices w fuel false st = Returned devs1 st1 log1 ->
  forall cbs,
    let st1' := set_event_callbacks cbs st1 in
    exists st2 log2,
      _discover_devices w fuel' online_only st1'
      = Returned (_devices st1) st2 log2
      /\ _devices st2 = _devices st1
      /\ _event_callbacks st2 = cbs
      /\ fired log2 = [] /\ registered_on log2 = [].
Proof.
  intros Hplain Hfirst cbs st1'.
  destruct (@known_loop_run fuel' online_only (list_devices w) st1')
    as (s2 & l2 & Hloop & Hd & Hc & Hf & Hr).
  { intros dev Hdev.
    destruct (Hplain dev Hdev)
      as (online & d_type & d_id & b & Ho & Ht & Hu & Hb & Hp).
    exists online, d_type, d_id, b. repeat split; auto.
    assert (Hnot : not_skipped false online) by now left.
    destruct (@pass_stores_listed_key w fuel false st st1 devs1 log1 dev
                online d_type d_id b Hfirst Hdev Ho Hnot Ht Hu Hb)
      as (device & Hg & _).
    subst st1'. unfold dict_contains. simpl. now rewrite Hg. }
  exists s2, (stamp st1' list_devices_called :: l2 ++ []).
  unfold _discover_devices, bind. simpl. rewrite Hloop. simpl.
  rewrite Hd. split; [reflexivity|].
  rewrite app_nil_r. repeat split; auto.
Qed.

End KnownDevices.

Lemma second_pass_over_plain_fleet_is_idle_witness :
  (plain_fleet Fleet.scripted
   /\ _discover_devices Fleet.scripted 0 false init
      = Returned (_devices plug_known) plug_known
          (log_of (_discover_devices Fleet.scripted 0 false init)))
  /\ exists st2 log2,
       _discover_devices Fleet.scripted 0 true
         (set_event_callbacks [1; 3] plug_known)
       = Returned (_devices plug_known) st2 log2
       /\ fired log2 = [] /\ registered_on log2 = [].
Proof.
  assert (Hp : plain_fleet Fleet.scripted).
  { intros dev [<-|[]].
    exists 1%Z, "mss310"%string, "P1"%string,
      (mkBlueprint GenericPlug "P1" "plug" "mss310" true).
    repeat split. }
  assert (Hrun : _discover_devices Fleet.scripted 0 false init
                 = Returned (_devices plug_known) plug_known
                     (log_of (_discover_devices Fleet.scripted 0 false init)))
    by (vm_compute; reflexivity).
  split; [split; [exact Hp|exact Hrun]|].
  destruct (@second_pass_over_plain_fleet_is_idle Fleet.scripted 0 0 true
              init plug_known (_devices plug_known) _ Hp Hrun [1; 3])
    as (st2 & log2 & H2 & _ & _ & Hf & Hr).
  exists st2, log2. split; [exact H2|]. split; [exact Hf|exact Hr].
Defined.

(** ** The online filter and malformed listings *)

Lemma bind_ext {A B} (m : M A) (f g : A -> M B) (st : Manager) :
  (forall a s, f a s = g a s) -> bind m f st = bind m g st.
Proof.
  intros H. unfold bind. destruct (m st) as [a s1 l1| |]; auto.
  now rewrite H.
Qed.

Section Listings.

Variable w : World.

Lemma discover_one_with_listing (l : list Descriptor) (fuel : nat)
    (online_only : bool) (dev : Descriptor) (st : Manager) :
  discover_one (with_listing w l) fuel online_only dev st
  = discover_one w fuel online_only dev st.
Proof. reflexivity. Qed.

Lemma online_loop (fuel : nat) (l0 : list Descriptor) :
  forall (l : list Descriptor) (st : Manager),
    (forall dev, In dev l -> onlineStatus dev <> None) ->
    for_each l (discover_one w fuel true) st
    = for_each (filter is_online l)
        (discover_one (with_listing w l0) fuel false) st.
Proof.
  induction l as [|dev l IH]; intros st Hall; [reflexivity|].
  simpl. unfold is_online at 1.
  destruct (onlineStatus dev) as [online|] eqn:Ho;
    [|elim (Hall dev (or_introl eq_refl)); exact Ho].
  assert (Hl : forall d, In d l -> onlineStatus d <> None)
    by (intros d Hd; apply Hall; now right).
  destruct (Z.eqb online 1) eqn:E.
  - simpl.
    transitivity (bind (discover_one w fuel true dev)
                    (fun _ => for_each (filter is_online l)
                                (discover_one (with_listing w l0) fuel false))
                    st).
    + apply bind_ext. intros _ s. now apply IH.
    + unfold bind. rewrite discover_one_with_listing.
      unfold discover_one. rewrite Ho, E. reflexivity.
  - rewrite <- IH by assumption.
    apply (@bind_returned_nil _ _ (discover_one w fuel true dev)
             (fun _ => for_each l (discover_one w fuel true)) tt st st).
    unfold discover_one. rewrite Ho, E. reflexivity.
Qed.

(** X15. [online_only] is a filter on the listing and nothing more: when
    every descriptor carries an online status, a pass with
    [online_only=True] is, outcome, final state and log, the pass with
    [online_only=False] over the descriptors whose status is 1. *)
Theorem online_only_filters_the_listing (fuel : nat) (st : Manager) :
  (forall dev, In dev (list_devices w) -> onlineStatus dev <> None) ->
  _discover_devices w fuel true st
  = _discover_devices
      (with_listing w (filter is_online (list_devices w))) fuel false st.
Proof.
  intros Hall. unfold _discover_devices.
  apply bind_ext. intros _ s.
  unfold bind. simpl list_devices. now rewrite <- online_loop.
Qed.

Lemma pass_fails_on (fuel : nat) (online_only : bool) (dev : Descriptor)
    (st : Manager) :
  In dev (list_devices w) ->
  (forall s, fails (discover_one w fuel online_only dev s)) ->
  fails (_discover_devices w fuel online_only st).
Proof.
  intros Hin Hbad.
  destruct (_discover_devices w fuel online_only st) as [devs st' log| |]
    eqn:H; simpl; auto.
  unfold _discover_devices in H. apply bind_returned in H.
  destruct H as ([] & s1 & l1 & l2 & _ & H & ->).
  apply bind_returned in H.
  destruct H as ([] & s2 & l3 & l4 & Hloop & _ & ->).
  destruct (for_each_returned_In _ _ _ _ Hloop Hin)
    as (sa & sb & lx & Hone & _).
  specialize (Hbad sa). now rewrite Hone in Hbad.
Qed.

Lemma void_fails {A} (m : M A) (st : Manager) :
  fails (m st) -> fails (void m st).
Proof. unfold void, bind. destruct (m st); simpl; auto. Qed.

(** X16. One descriptor without an online status anywhere in the listing
    makes the whole pass fail, also when the online filter is off: line
    143 reads [dev['onlineStatus']] before anything else.  The pass does
    not return, and neither does [start].  When it is the first
    descriptor, the failure is the [KeyError], with nothing built. *)
Theorem descriptor_without_online_status_fails_the_pass (fuel : nat)
    (online_only : bool) (st : Manager) (dev : Descriptor) :
  In dev (list_devices w) ->
  onlineStatus dev = None ->
  fails (_discover_devices w fuel online_only st)
  /\ fails (start w fuel st)
  /\ (forall rest, list_devices w = dev :: rest ->
        _discover_devices w fuel online_only st
        = Raised (KeyError "onlineStatus") st
            [stamp st list_devices_called]).
Proof.
  intros Hin Ho.
  assert (Hbad : forall oo s, fails (discover_one w fuel oo dev s)).
  { intros oo s. unfold discover_one. rewrite Ho. exact I. }
  split; [now apply pass_fails_on with (dev := dev)|]. split.
  - unfold start.
    assert (Hp : fails (_discover_devices w fuel false st))
      by now apply pass_fails_on with (dev := dev).
    unfold call_connect, bind, emit, raise, ret. simpl.
    destruct (connect w); simpl; auto.
    destruct (_discover_devices w fuel false st); simpl in *; auto.
  - intros rest Hl. unfold _discover_devices, bind. rewrite Hl. simpl.
    unfold discover_one, bind. rewrite Ho. reflexivity.
Qed.

(** X17. One sub-device descriptor in the top-level listing, if it passes
    the online filter, makes the whole pass fail: it is handled without a
    parent hub.  So a push notification from an unknown device, which
    starts a pass, fails as well. *)
Theorem subdevice_in_listing_fails_the_pass (fuel : nat)
    (online_only : bool) (st : Manager) (dev : Descriptor) (online : Z) :
  In dev (list_devices w) ->
  onlineStatus dev = Some online ->
  shape_of dev = SubDevice ->
  not_skipped online_only online ->
  fails (_discover_devices w fuel online_only st)
  /\ forall message from_myself dev_uuid,
       online_only = false ->
       nth_error (split "/" (from_ (header message))) 2 = Some dev_uuid ->
       dict_get dev_uuid (_devices st) = None ->
       fails (_dispatch_push_notification w fuel message from_myself st).
Proof.
  intros Hin Ho Hs Hon.
  assert (Hskip : online_only && negb (Z.eqb online 1) = false).
  { destruct Hon as [->| ->]; [reflexivity|apply andb_false_r]. }
  assert (Hbad : forall s, fails (discover_one w fuel online_only dev s)).
  { intros s. unfold discover_one. rewrite Ho, Hskip. unfold bind.
    rewrite handle_subdevice_without_parent by assumption. exact I. }
  assert (Hp : fails (_discover_devices w fuel online_only st))
    by now apply pass_fails_on with (dev := dev).
  split; [exact Hp|].
  intros message from_myself dev_uuid -> Hseg Hd.
  unfold _dispatch_push_notification. rewrite Hseg.
  rewrite (@bind_after_silent _ _ _ _ _ _
             (locked_read (dict_get dev_uuid) st)).
  rewrite Hd. now apply void_fails.
Qed.

End Listings.

Lemma online_only_filters_the_listing_witness :
  (forall dev, In dev (list_devices mixed_fleet) -> onlineStatus dev <> None)
  /\ _discover_devices mixed_fleet 0 true init
     = _discover_devices (with_listing mixed_fleet [Fleet.plug "P1"]) 0 false
         init.
Proof.
  assert (H : forall dev, In dev (list_devices mixed_fleet) ->
                          onlineStatus dev <> None).
  { intros dev [<-|[<-|[]]]; discriminate. }
  split; [exact H|].
  exact (@online_only_filters_the_listing mixed_fleet 0 init H).
Defined.

Lemma descriptor_without_online_status_fails_the_pass_witness :
  (In (bare_plug "P2") (list_devices bare_fleet)
   /\ onlineStatus (bare_plug "P2") = None)
  /\ fails (_discover_devices bare_fleet 0 false init).
Proof.
  assert (H : In (bare_plug "P2") (list_devices bare_fleet))
    by (right; left; reflexivity).
  split; [split; [exact H|reflexivity]|].
  exact (proj1 (@descriptor_without_online_status_fails_the_pass bare_fleet
                  0 false init (bare_plug "P2") H eq_refl)).
Defined.

Lemma subdevice_in_listing_fails_the_pass_witness :
  (In (stray_valve "S1") (list_devices stray_fleet)
   /\ onlineStatus (stray_valve "S1") = Some 1%Z
   /\ shape_of (stray_valve "S1") = SubDevice
   /\ not_skipped true 1)
  /\ fails (_discover_devices stray_fleet 0 true init).
Proof.
  assert (H : In (stray_valve "S1") (list_devices stray_fleet))
    by (right; left; reflexivity).
  assert (Hon : not_skipped true 1) by (right; reflexivity).
  split; [split; [exact H|split; [reflexivity|split; [reflexivity|exact Hon]]]|].
  exact (proj1 (@subdevice_in_listing_fails_the_pass stray_fleet 0 true init
                  (stray_valve "S1") 1%Z H eq_refl eq_refl Hon)).
Defined.

(** ** Sub-devices and their composite keys *)

Lemma format_pair_longer (u d_id : string) : format_pair u d_id <> d_id.
Proof.
  unfold format_pair. intros H. apply (f_equal String.length) in H.
  rewrite append_length in H. simpl in H. lia.
Qed.

Lemma dict_contains_set_other (k k' : string) (v : Handle) (d : Dict) :
  k <> k' -> dict_contains k (dict_set k' v d) = dict_contains k d.
Proof.
  intros Hne. unfold dict_contains. now rewrite dict_get_set_other.
Qed.

Section SubDevices.

Variable w : World.

(** A sub-device whose local identifier is free, handled to the end. *)
Lemma handle_free_subdevice (fuel : nat) (dev : Descriptor) (hub : Handle)
    (st st' : Manager) (log : list Entry) (r : option Handle)
    (d_type d_id : string) (b : Blueprint) :
  shape_of dev = SubDevice ->
  subDeviceType dev = Some d_type -> subDeviceId dev = Some d_id ->
  build_subdevice_wrapper w d_type d_id hub dev = Some b ->
  dict_contains d_id (_devices st) = false ->
  _handle_device_discovered w fuel dev (Some hub) st = Returned r st' log ->
  _devices st'
  = dict_set (format_pair (hd_uuid hub) d_id) (instantiate (next_obj st) b)
      (_devices st)
  /\ next_obj st' = S (next_obj st).
Proof.
  intros Hs Ht Hi Hb Hfree H.
  pose proof (@resolve_sub w dev hub st d_type d_id Hs Ht Hi) as Hres.
  cbv zeta in Hres. rewrite Hb in Hres. simpl in Hres.
  destruct (@handle_new_device _ _ _ _ _ _ _ _ _ _ _ _ _ Hres Hfree H)
    as (firelog & _ & Hfire & _).
  destruct (@fire_event_returned _ _ _ _ _ _ Hfire) as (Hd & Hn & _).
  split; [exact Hd|exact Hn].
Qed.

(** X18. Sub-device key isolation, where it holds.  Two hubs with distinct
    UUIDs each report a sub-device with the same local identifier, and that
    identifier is not itself a key of the dict.  Handling the two
    descriptors never raises, and returns when the callbacks leave the
    manager alone (and the fuel covers them).  Whenever it returns, the
    dict has an entry under each of the two composite keys, the keys
    differ, and each entry is the handle built for that hub's
    sub-device. *)
Theorem subdevices_of_two_hubs_get_two_entries (fuel : nat)
    (st : Manager) (hub1 hub2 : Handle) (dev1 dev2 : Descriptor)
    (t1 t2 d_id : string) (b1 b2 : Blueprint) :
  hd_uuid hub1 <> hd_uuid hub2 ->
  shape_of dev1 = SubDevice ->
  subDeviceType dev1 = Some t1 -> subDeviceId dev1 = Some d_id ->
  shape_of dev2 = SubDevice ->
  subDeviceType dev2 = Some t2 -> subDeviceId dev2 = Some d_id ->
  build_subdevice_wrapper w t1 d_id hub1 dev1 = Some b1 ->
  build_subdevice_wrapper w t2 d_id hub2 dev2 = Some b2 ->
  dict_contains d_id (_devices st) = false ->
  let k1 := format_pair (hd_uuid hub1) d_id in
  let k2 := format_pair (hd_uuid hub2) d_id in
  let run :=
    (_handle_device_discovered w fuel dev1 (Some hub1) ;;
     _handle_device_discovered w fuel dev2 (Some hub2)) st in
  (forall r st' log,
      run = Returned r st' log ->
      k1 <> k2
      /\ dict_get k1 (_devices st') = Some (instantiate (next_obj st) b1)
      /\ dict_get k2 (_devices st')
         = Some (instantiate (S (next_obj st)) b2))
  /\ (forall e st' log, run <> Raised e st' log)
  /\ ((forall c e, In c (_event_callbacks st) -> calls (script w c e) = []) ->
      List.length (_event_callbacks st) <= fuel ->
      exists r st' log, run = Returned r st' log).
Proof.
  intros Hu Hs1 Ht1 Hi1 Hs2 Ht2 Hi2 Hb1 Hb2 Hfree k1 k2 run.
  assert (Hnr : forall e st' log, run <> Raised e st' log).
  { intros e st' log H.
    assert (Hn : never_raises
                   (_handle_device_discovered w fuel dev1 (Some hub1) ;;
                    _handle_device_discovered w fuel dev2 (Some hub2))).
    { apply never_raises_bind; [|intro];
        apply never_raises_handle_device_discovered; right; discriminate. }
    specialize (Hn st). fold run in Hn. now rewrite H in Hn. }
  split; [|split; [exact Hnr|]].
  - intros r st' log H.
    assert (Hk : k1 <> k2) by now apply composite_keys_distinct.
    apply bind_returned in H.
    destruct H as (r1 & s1 & l1 & l2 & H1 & H2 & ->).
    destruct (@handle_free_subdevice _ _ _ _ _ _ _ _ _ _
                Hs1 Ht1 Hi1 Hb1 Hfree H1) as [Hd1 Hn1].
    assert (Hfree1 : dict_contains d_id (_devices s1) = false).
    { rewrite Hd1, dict_contains_set_other; [exact Hfree|].
      intros Heq. symmetry in Heq. now apply format_pair_longer in Heq. }
    destruct (@handle_free_subdevice _ _ _ _ _ _ _ _ _ _
                Hs2 Ht2 Hi2 Hb2 Hfree1 H2) as [Hd2 _].
    split; [exact Hk|]. rewrite Hd2, Hd1, Hn1. split.
    + rewrite dict_get_set_other by exact Hk. apply dict_get_set_same.
    + apply dict_get_set_same.
  - intros Hq Hf.
    assert (Hs : steady (_event_callbacks st)
                   (_handle_device_discovered w fuel dev1 (Some hub1) ;;
                    _handle_device_discovered w fuel dev2 (Some hub2))).
    { apply steady_bind; [|intro];
        now apply steady_handle_device_discovered. }
    specialize (Hs st eq_refl). fold run in Hs.
    destruct run as [r st' log|e st' log|] eqn:Hrun.
    + now exists r, st', log.
    + now elim (Hnr e st' log).
    + contradiction.
Qed.

(** X19. A sub-device whose local identifier is a key of the dict is never
    stored: whatever its composite key, the fuel and the callbacks,
    [_handle_device_discovered] builds the handle, returns it, changes
    nothing in the dict, registers no callback and fires no event. *)
Theorem taken_local_id_blocks_the_subdevice (fuel : nat) (dev : Descriptor)
    (hub : Handle) (st : Manager) (d_type d_id : string) (b : Blueprint) :
  shape_of dev = SubDevice ->
  subDeviceType dev = Some d_type -> subDeviceId dev = Some d_id ->
  build_subdevice_wrapper w d_type d_id hub dev = Some b ->
  dict_contains d_id (_devices st) = true ->
  let device := instantiate (next_obj st) b in
  _handle_device_discovered w fuel dev (Some hub) st
  = Returned (Some device) (set_next_obj (S (next_obj st)) st)
      [stamp st (build_subdevice_wrapper_called d_type d_id hub
                   (Some device))].
Proof.
  intros Hs Ht Hi Hb Hin device. subst device.
  unfold _handle_device_discovered.
  pose proof (@resolve_sub w dev hub st d_type d_id Hs Ht Hi) as Hres.
  cbv zeta in Hres. rewrite Hb in Hres. simpl in Hres.
  unfold bind at 1. rewrite Hres.
  unfold bind at 1. rewrite insert_if_new_run. simpl. rewrite Hin. simpl.
  reflexivity.
Qed.

End SubDevices.

Lemma subdevices_of_two_hubs_get_two_entries_witness :
  (hd_uuid (hub_handle 0 "H1") <> hd_uuid (hub_handle 1 "H2")
   /\ dict_contains "S1" (_devices init) = false
   /\ (forall c e, In c (_event_callbacks init) ->
                   calls (script Fleet.one_hub c e) = [])
   /\ List.length (_event_callbacks init) <= 0)
  /\ exists r st' log,
       two_valves init = Returned r st' log
       /\ dict_get "H1:S1" (_devices st')
          = Some (mkHandle 0 ValveSubDevice "H1" "S1" "mts100v3" true)
       /\ dict_get "H2:S1" (_devices st')
          = Some (mkHandle 1 ValveSubDevice "H2" "S1" "mts100v3" true).
Proof.
  assert (Hne : hd_uuid (hub_handle 0 "H1") <> hd_uuid (hub_handle 1 "H2"))
    by discriminate.
  assert (Hq : forall c e, In c (_event_callbacks init) ->
                           calls (script Fleet.one_hub c e) = [])
    by (intros c e []).
  assert (Hf : List.length (_event_callbacks init) <= 0) by (simpl; lia).
  split; [split; [exact Hne|split; [reflexivity|split;
                                     [exact Hq|exact Hf]]]|].
  pose proof (@subdevices_of_two_hubs_get_two_entries Fleet.one_hub 0 init
                (hub_handle 0 "H1") (hub_handle 1 "H2")
                (Fleet.valve "S1") (Fleet.valve "S1")
                "mts100v3" "mts100v3" "S1"
                (mkBlueprint ValveSubDevice "H1" "S1" "mts100v3" true)
                (mkBlueprint ValveSubDevice "H2" "S1" "mts100v3" true)
                Hne eq_refl eq_refl eq_refl eq_refl eq_refl eq_refl
                eq_refl eq_refl eq_refl) as H.
  cbv zeta in H. destruct H as (Hret & _ & Hgo).
  destruct (Hgo Hq Hf) as (r & st' & log & Hrun).
  destruct (Hret r st' log Hrun) as (_ & Ha & Hb).
  exists r, st', log.
  split; [exact Hrun|split; [exact Ha|exact Hb]].
Defined.

Lemma taken_local_id_blocks_the_subdevice_witness :
  (shape_of (Fleet.valve "H1") = SubDevice
   /\ dict_contains "H1" (_devices Fleet.two_hubs_known) = true)
  /\ _handle_device_discovered Fleet.two_hubs 0 (Fleet.valve "H1")
       (Some (hub_handle 2 "H2")) Fleet.two_hubs_known
     = Returned (Some (mkHandle 4 ValveSubDevice "H2" "H1" "mts100v3" true))
         (set_next_obj 5 Fleet.two_hubs_known)
         [stamp Fleet.two_hubs_known
            (build_subdevice_wrapper_called "mts100v3" "H1"
               (hub_handle 2 "H2")
               (Some (mkHandle 4 ValveSubDevice "H2" "H1" "mts100v3" true)))].
Proof.
  split; [split; reflexivity|].
  exact (@taken_local_id_blocks_the_subdevice Fleet.two_hubs 0
           (Fleet.valve "H1") (hub_handle 2 "H2") Fleet.two_hubs_known
           "mts100v3" "H1"
           (mkBlueprint ValveSubDevice "H2" "H1" "mts100v3" true)
           eq_refl eq_refl eq_refl eq_refl eq_refl).
Defined.

(** ** Origin paths *)

Lemma split_length (sep : ascii) (s : string) :
  List.length (split sep s) = S (count_char sep s).
Proof.
  induction s as [|c s IH]; simpl; auto.
  destruct (Ascii.eqb c sep); simpl.
  - now rewrite IH.
  - destruct (split sep s) as [|x l]; simpl in *; [discriminate|exact IH].
Qed.

Lemma split_without_separator (sep : ascii) (s : string) :
  count_char sep s = 0 -> split sep s = [s].
Proof.
  induction s as [|c s IH]; simpl; auto.
  destruct (Ascii.eqb c sep); simpl; [discriminate|].
  intros H. now rewrite IH.
Qed.

Lemma split_append (sep : ascii) (a b : string) :
  count_char sep a = 0 ->
  split sep (String.append a (String sep b)) = a :: split sep b.
Proof.
  induction a as [|c a IH]; simpl.
  - intros _. now rewrite Ascii.eqb_refl.
  - destruct (Ascii.eqb c sep); simpl; [discriminate|].
    intros H. now rewrite IH.
Qed.

Section Origins.

Variable w : World.

(** X20. The target of a message is read at position 2 of the origin path
    split at the slashes (line 122).  An origin with fewer than two
    slashes has no such segment: the dispatch raises [IndexError] at once,
    before the dict is looked at, and nothing is delivered or
    discovered. *)
Theorem short_origin_raises_index_error (fuel : nat) (message : Message)
    (from_myself : bool) (st : Manager) :
  count_char "/" (from_ (header message)) < 2 ->
  _dispatch_push_notification w fuel message from_myself st
  = Raised IndexError st [].
Proof.
  intros H. unfold _dispatch_push_notification.
  assert (Hn : nth_error (split "/" (from_ (header message))) 2 = None).
  { apply nth_error_None. rewrite split_length. lia. }
  now rewrite Hn.
Qed.

Lemma third_segment (a b u rest : string) :
  count_char "/" a = 0 -> count_char "/" b = 0 -> count_char "/" u = 0 ->
  nth_error
    (split "/"
       (String.append a (String "/"
          (String.append b (String "/"
             (String.append u (String "/" rest)))))))
    2 = Some u.
Proof.
  intros Ha Hb Hu. rewrite !split_append by assumption. reflexivity.
Qed.

(** X21. A message whose origin is [a/b/u/...], with no slash inside [a],
    [b] and [u] (for the topics of the Meross cloud, [/appliance/u/publish]),
    is routed to the device stored under [u]: that device, and no other,
    receives the namespace and the payload, and the manager is left as it
    was. *)
Theorem origin_topic_routes_to_its_device (fuel : nat) (message : Message)
    (from_myself : bool) (st : Manager) (a b u rest : string)
    (device : Handle) :
  count_char "/" a = 0 -> count_char "/" b = 0 -> count_char "/" u = 0 ->
  from_ (header message)
  = String.append a (String "/"
      (String.append b (String "/" (String.append u (String "/" rest))))) ->
  dict_get u (_devices st) = Some device ->
  _dispatch_push_notification w fuel message from_myself st
  = Returned tt st
      [stamp st (handle_push_notification_called device
                   (namespace (header message)) (payload message)
                   from_myself)].
Proof.
  intros Ha Hb Hu Hfrom Hd. unfold _dispatch_push_notification.
  rewrite Hfrom, third_segment by assumption.
  rewrite (@bind_after_silent _ _ _ _ _ _ (locked_read (dict_get u) st)).
  rewrite Hd. reflexivity.
Qed.

(** X22. The directory catches up after a miss.  A message arrives from a
    device that is not in the dict but is in the listing of the HTTP API
    (a top-level device that the factory builds).  If the dispatch
    returns, the message itself was delivered to no device, the device is
    now in the dict, and the same message dispatched again is delivered to
    it without any further discovery. *)
Theorem next_message_after_a_miss_is_delivered (fuel : nat)
    (message : Message) (from_myself again : bool) (st st1 : Manager)
    (log : list Entry) (dev_uuid : string) (dev : Descriptor) (online : Z)
    (d_type : string) (b : Blueprint) :
  nth_error (split "/" (from_ (header message))) 2 = Some dev_uuid ->
  dict_get dev_uuid (_devices st) = None ->
  In dev (list_devices w) ->
  onlineStatus dev = Some online ->
  deviceType dev = Some d_type -> uuid dev = Some dev_uuid ->
  build_wrapper w d_type dev_uuid dev = Some b ->
  _dispatch_push_notification w fuel message from_myself st
  = Returned tt st1 log ->
  filter is_push_delivery (effects log) = []
  /\ exists device,
       dict_get dev_uuid (_devices st1) = Some device
       /\ _dispatch_push_notification w fuel message again st1
          = Returned tt st1
              [stamp st1 (handle_push_notification_called device
                            (namespace (header message)) (payload message)
                            again)].
Proof.
  intros Hseg Hmiss Hin Ho Ht Hu Hb H.
  unfold _dispatch_push_notification in H. rewrite Hseg in H.
  rewrite (@bind_after_silent _ _ _ _ _ _
             (locked_read (dict_get dev_uuid) st)) in H.
  rewrite Hmiss in H.
  destruct (discover_devices_counts w fuel false st) as [_ Hnone].
  change ((_discover_devices w fuel false ;; ret tt) st)
    with (void (_discover_devices w fuel false) st) in H.
  rewrite H in Hnone. simpl in Hnone. split; [exact Hnone|].
  unfold void in H. apply bind_returned in H.
  destruct H as (devs & s1 & l1 & l2 & Hpass & Hret & ->).
  inversion Hret; subst. clear Hret.
  assert (Hnot : not_skipped false online) by now left.
  destruct (@pass_stores_listed_key w fuel false st st1 devs l1 dev online
              d_type dev_uuid b Hpass Hin Ho Hnot Ht Hu Hb)
    as (device & Hg & _).
  exists device. split; [exact Hg|].
  unfold _dispatch_push_notification. rewrite Hseg.
  rewrite (@bind_after_silent _ _ _ _ _ _
             (locked_read (dict_get dev_uuid) st1)).
  rewrite Hg. reflexivity.
Qed.

End Origins.


Lemma short_origin_raises_index_error_witness :
  count_char "/" (from_ (header (mkMessage (mkHeader "appliance/P1" "ns") [])))
  < 2
  /\ _dispatch_push_notification Fleet.one_hub 0
       (mkMessage (mkHeader "appliance/P1" "ns") []) false init
     = Raised IndexError init [].
Proof.
  assert (H : count_char "/"
                (from_ (header (mkMessage (mkHeader "appliance/P1" "ns") [])))
              < 2) by (simpl; lia).
  split; [exact H|].
  exact (@short_origin_raises_index_error Fleet.one_hub 0
           (mkMessage (mkHeader "appliance/P1" "ns") []) false init H).
Defined.

Lemma origin_topic_routes_to_its_device_witness :
  (count_char "/" "appliance" = 0 /\ count_char "/" "P1" = 0
   /\ dict_get "P1" (_devices plug_known)
      = Some (mkHandle 0 GenericPlug "P1" "plug" "mss310" true))
  /\ _dispatch_push_notification Fleet.scripted 0 (message_from "P1") true
       plug_known
     = Returned tt plug_known
         [stamp plug_known
            (handle_push_notification_called
               (mkHandle 0 GenericPlug "P1" "plug" "mss310" true)
               (namespace (header (message_from "P1")))
               (payload (message_from "P1")) true)].
Proof.
  split; [split; [reflexivity|split; reflexivity]|].
  exact (@origin_topic_routes_to_its_device Fleet.scripted 0
           (message_from "P1") true plug_known "" "appliance" "P1" "publish"
           (mkHandle 0 GenericPlug "P1" "plug" "mss310" true)
           eq_refl eq_refl eq_refl eq_refl eq_refl).
Defined.

Lemma next_message_after_a_miss_is_delivered_witness :
  (nth_error (split "/" (from_ (header (message_from "P1")))) 2 = Some "P1"
   /\ dict_get "P1" (_devices init) = None
   /\ In (Fleet.plug "P1") (list_devices Fleet.scripted)
   /\ _dispatch_push_notification Fleet.scripted 0 (message_from "P1") false
        init
      = Returned tt plug_known
          (log_of (_dispatch_push_notification Fleet.scripted 0
                     (message_from "P1") false init)))
  /\ exists device,
       dict_get "P1" (_devices plug_known) = Some device
       /\ _dispatch_push_notification Fleet.scripted 0 (message_from "P1")
            true plug_known
          = Returned tt plug_known
              [stamp plug_known
                 (handle_push_notification_called device
                    (namespace (header (message_from "P1")))
                    (payload (message_from "P1")) true)].
Proof.
  assert (Hseg : nth_error (split "/" (from_ (header (message_from "P1")))) 2
                 = Some "P1") by reflexivity.
  assert (Hmiss : dict_get "P1" (_devices init) = None) by reflexivity.
  assert (Hin : In (Fleet.plug "P1") (list_devices Fleet.scripted))
    by (left; reflexivity).
  assert (Hrun : _dispatch_push_notification Fleet.scripted 0
                   (message_from "P1") false init
                 = Returned tt plug_known
                     (log_of (_dispatch_push_notification Fleet.scripted 0
                                (message_from "P1") false init)))
    by (vm_compute; reflexivity).
  split; [split; [exact Hseg|split; [exact Hmiss|split;
                                      [exact Hin|exact Hrun]]]|].
  exact (proj2 (@next_message_after_a_miss_is_delivered Fleet.scripted 0
                  (message_from "P1") false true init plug_known
                  (log_of (_dispatch_push_notification Fleet.scripted 0
                             (message_from "P1") false init))
                  "P1" (Fleet.plug "P1") 1%Z "mss310"
                  (mkBlueprint GenericPlug "P1" "plug" "mss310" true)
                  Hseg Hmiss Hin eq_refl eq_refl eq_refl eq_refl Hrun)).
Defined.

(** ** Devices the factory declines *)

Section Unsupported.

Variable w : World.

(** X23. A top-level descriptor for which the factory returns [None] is
    dropped: [_handle_device_discovered] returns [None] after the one
    factory call, the dict is not touched, no callback is registered and no
    event is fired. *)
Theorem unsupported_device_is_dropped (fuel : nat) (dev : Descriptor)
    (parent_hub : option Handle) (st : Manager) (d_type d_id : string) :
  deviceType dev = Some d_type -> uuid dev = Some d_id ->
  build_wrapper w d_type d_id dev = None ->
  _handle_device_discovered w fuel dev parent_hub st
  = Returned None st [stamp st (build_wrapper_called d_type d_id None)].
Proof.
  intros Ht Hu Hb.
  unfold _handle_device_discovered, resolve, call_build_wrapper.
  rewrite Ht, Hu, Hb. destruct st; reflexivity.
Qed.

End Unsupported.

Lemma unsupported_device_is_dropped_witness :
  build_wrapper still "mss310" "P1" (Fleet.plug "P1") = None
  /\ _handle_device_discovered still 0 (Fleet.plug "P1") None init
     = Returned None init
         [stamp init (build_wrapper_called "mss310" "P1" None)].
Proof.
  split; [reflexivity|].
  exact (@unsupported_device_is_dropped still 0 (Fleet.plug "P1") None init
           "mss310" "P1" eq_refl eq_refl eq_refl).
Defined.

(** ** The queries *)

Lemma ensure_started_run (st : Manager) :
  exists l, _ensure_started st = Returned tt st l.
Proof.
  unfold _ensure_started, bind, gets, emit.
  destruct (negb (check_status (connection_status st) SUBSCRIBED));
    simpl; eexists; reflexivity.
Qed.

(** X24. [get_device_by_name] compares with [str.lower] (any function
    will do) and answers with the first match in the order of insertion: a
    stored device whose name matches the argument is returned when the
    devices stored before it have names, none of which matches.  What is
    stored after it is not looked at, so a device without a name there does
    no harm.  The manager is left as it was. *)
Theorem name_lookup_returns_first_match (w : World) (name : string)
    (st : Manager) (k : string) (v : Handle) (n : string)
    (before after : Dict) :
  _devices st = before ++ (k, v) :: after ->
  hd_name v = Some n ->
  lower w n = lower w name ->
  (forall kv, In kv before -> exists n',
      hd_name (snd kv) = Some n' /\ lower w n' <> lower w name) ->
  exists l, get_device_by_name w name st = Returned (Some v) st l.
Proof.
  intros Hd Hv Hn Hb.
  destruct (ensure_started_run st) as (l & Hl).
  exists l. unfold get_device_by_name.
  rewrite (locked_scan (find_by_name w name) Hl).
  rewrite Hd, find_by_name_first by assumption.
  rewrite Hv, Hn, String.eqb_refl, release_acquire, app_nil_r.
  reflexivity.
Qed.

Lemma name_lookup_returns_first_match_witness :
  (_devices three_plugs
   = [("P1", mkHandle 0 GenericPlug "P1" "Desk" "mss310" true)]
       ++ ("P2", mkHandle 1 GenericPlug "P2" "Lamp" "MSS310" true)
       :: [("P3", mkHandle 2 GenericPlug "P3" None "mss110" true)]
   /\ lower Fleet.scripted "Lamp" = lower Fleet.scripted "lAMP")
  /\ exists l,
       get_device_by_name Fleet.scripted "lAMP" three_plugs
       = Returned (Some (mkHandle 1 GenericPlug "P2" "Lamp" "MSS310" true))
           three_plugs l.
Proof.
  split; [split; reflexivity|].
  refine (@name_lookup_returns_first_match Fleet.scripted "lAMP" three_plugs
            "P2" (mkHandle 1 GenericPlug "P2" "Lamp" "MSS310" true) "Lamp"
            [("P1", mkHandle 0 GenericPlug "P1" "Desk" "mss310" true)]
            [("P3", mkHandle 2 GenericPlug "P3" None "mss110" true)]
            eq_refl eq_refl eq_refl _).
  intros kv [<-|[]]. exists "Desk". split; [reflexivity|discriminate].
Defined.

(** X25. When every device in the dict has a type that is a string,
    [get_devices_by_type] returns, leaves the manager as it was, and is a
    filter on the values of the dict: a handle is in the answer exactly
    when it is stored under some key and its type and the argument have
    the same [str.lower]. *)
Theorem type_lookup_is_a_case_insensitive_filter (w : World)
    (type_name : string) (st : Manager) :
  Forall (fun kv => hd_type (snd kv) <> None) (_devices st) ->
  exists r l,
    get_devices_by_type w type_name st = Returned r st l
    /\ forall v,
         In v r
         <-> (exists k, In (k, v) (_devices st))
             /\ exists t, hd_type v = Some t
                          /\ lower w t = lower w type_name.
Proof.
  intros Hall.
  destruct (ensure_started_run st) as (l & Hl).
  eexists _, l. split.
  - unfold get_devices_by_type.
    rewrite (locked_scan (filter_by_type w type_name) Hl).
    rewrite filter_by_type_typed by assumption.
    rewrite release_acquire, app_nil_r. reflexivity.
  - intros v. rewrite filter_In. unfold dict_values, type_matches.
    rewrite in_map_iff. split.
    + intros [([k v'] & <- & Hin) Ht]. simpl in *.
      split; [now exists k|].
      destruct (hd_type v') as [t|]; [|discriminate].
      exists t. split; [reflexivity|now apply String.eqb_eq].
    + intros [(k & Hin) (t & Ht & Heq)]. split; [now exists (k, v)|].
      rewrite Ht. now apply String.eqb_eq.
Qed.

Lemma type_lookup_is_a_case_insensitive_filter_witness :
  Forall (fun kv => hd_type (snd kv) <> None) (_devices three_plugs)
  /\ exists r l,
       get_devices_by_type Fleet.scripted "Mss310" three_plugs
       = Returned r three_plugs l
       /\ forall v,
            In v r
            <-> (exists k, In (k, v) (_devices three_plugs))
                /\ exists t, hd_type v = Some t
                             /\ lower Fleet.scripted t
                                = lower Fleet.scripted "Mss310".
Proof.
  assert (H : Forall (fun kv => hd_type (snd kv) <> None)
                (_devices three_plugs)).
  { repeat constructor; discriminate. }
  split; [exact H|].
  exact (@type_lookup_is_a_case_insensitive_filter Fleet.scripted "Mss310"
           three_plugs H).
Defined.

Lemma issubclass_trans (a b c : DeviceClass) :
  issubclass a b = true -> issubclass b c = true -> issubclass a c = true.
Proof. destruct a, b, c; cbv; intros; congruence. Qed.

(** X26. [get_devices_by_kind] follows the class hierarchy: asked for a
    class, it returns the stored handles of that class and of its
    subclasses, so the answer for a subclass is contained in the answer
    for the class: it is that answer, in the same order, without the
    handles that are not of the subclass. *)
Theorem kind_lookup_follows_subclassing (sub clazz : DeviceClass)
    (st : Manager) :
  issubclass sub clazz = true ->
  exists r_sub r_clazz l,
    get_devices_by_kind sub st = Returned r_sub st l
    /\ get_devices_by_kind clazz st = Returned r_clazz st l
    /\ incl r_sub r_clazz
    /\ r_sub = filter (fun v => isinstance v sub) r_clazz.
Proof.
  intros Hsub.
  destruct (ensure_started_run st) as (l & Hl).
  exists (filter (fun v => isinstance v sub) (dict_values (_devices st))),
    (filter (fun v => isinstance v clazz) (dict_values (_devices st))), l.
  assert (Hrun : forall c,
    get_devices_by_kind c st
    = Returned (filter (fun v => isinstance v c) (dict_values (_devices st)))
        st l).
  { intros c. unfold get_devices_by_kind, bind at 1.
    rewrite Hl.
    rewrite (locked_read
               (fun d => filter (fun v => isinstance v c) (dict_values d))).
    now rewrite app_nil_r. }
  split; [apply Hrun|]. split; [apply Hrun|].
  assert (Himp : forall v, isinstance v sub = true ->
                           isinstance v clazz = true).
  { intros v Hv. unfold isinstance in *.
    now apply (issubclass_trans _ _ _ Hv). }
  split.
  - intros v Hv. apply filter_In in Hv. apply filter_In.
    split; [tauto|apply Himp; tauto].
  - clear Hrun.
    induction (dict_values (_devices st)) as [|v vs IH]; simpl; auto.
    destruct (isinstance v sub) eqn:Es.
    + rewrite (Himp v Es). simpl. rewrite Es. now f_equal.
    + destruct (isinstance v clazz); simpl; rewrite ?Es; exact IH.
Qed.

Lemma kind_lookup_follows_subclassing_witness :
  issubclass ValveSubDevice GenericSubDevice = true
  /\ exists r_sub r_clazz l,
       get_devices_by_kind ValveSubDevice Fleet.one_hub_known
       = Returned r_sub Fleet.one_hub_known l
       /\ get_devices_by_kind GenericSubDevice Fleet.one_hub_known
          = Returned r_clazz Fleet.one_hub_known l
       /\ incl r_sub r_clazz
       /\ r_sub = filter (fun v => isinstance v ValveSubDevice) r_clazz.
Proof.
  split; [reflexivity|].
  exact (@kind_lookup_follows_subclassing ValveSubDevice GenericSubDevice
           Fleet.one_hub_known eq_refl).
Defined.

(** ** Starting the manager *)

Lemma discovery_entries_effects (d b : nat) (l : list Entry) :
  forallb (discovery_entry d b) l = true ->
  forallb discovery_effect (effects l) = true.
Proof.
  unfold effects. induction l as [|x l IH]; simpl; auto.
  intros H. apply andb_prop in H. destruct H as [Hx Hl].
  unfold discovery_entry in Hx. apply andb_prop in Hx.
  destruct Hx as [-> _]. now apply IH.
Qed.

(** X27. [start] connects first.  When [connect] raises, [start] ends
    there with that error: nothing is listed and the manager is as it was.
    When [connect] returns, [start] runs one pass over the whole listing:
    whenever it gets to an end, by returning or by raising, its second
    call is [list_devices], and all that follows is the handling of
    discovered devices (factory calls, hub listings, callback
    registrations, callbacks and log lines).  So [connect] is called once,
    [list_devices] at most once, and [close] and the status check never. *)
Theorem start_connects_then_discovers (w : World) (fuel : nat)
    (st : Manager) :
  match connect w with
  | Some e => start w fuel st = Raised e st [stamp st connect_called]
  | None =>
      match start w fuel st with
      | Returned _ _ log | Raised _ _ log =>
          exists rest,
            effects log = connect_called :: list_devices_called :: rest
            /\ forallb discovery_effect rest = true
      | OutOfFuel => _discover_devices w fuel false st = OutOfFuel
      end
  end.
Proof.
  pose proof (discover_devices_log w fuel false st) as Hlog.
  unfold start, call_connect, bind at 1, bind at 1, emit.
  destruct (connect w) as [e|]; [reflexivity|].
  unfold ret at 1.
  change ((_discover_devices w fuel false ;; ret tt) st)
    with (void (_discover_devices w fuel false) st).
  unfold void, bind, ret.
  destruct (_discover_devices w fuel false st) as [a st' l|e st' l|];
    [| |reflexivity];
    destruct Hlog as (rest & -> & Hrest);
    exists (effects rest); (split;
      [unfold effects; simpl; now rewrite ?app_nil_r
      |now apply discovery_entries_effects
         with (d := _devices_lock st) (b := _event_callbacks_lock st)]).
Qed.

(** * The fan-out while callbacks register *)

Lemma set_event_callbacks_twice (l l' : list callback) (st : Manager) :
  set_event_callbacks l (set_event_callbacks l' st) = set_event_callbacks l st.
Proof. reflexivity. Qed.

Section Growing.

Variable w : World.
Variable e : MerossEvent.
Variable U : list callback.

Hypothesis within : registers_within w e U.

(** Registrations only append, keep the callbacks distinct and stay in
    [U]. *)
Lemma registrations_run (bs : list BusCall) : forall st,
  (forall b, In b bs ->
     exists c', b = call_register_event_handler c' /\ In c' U) ->
  NoDup (_event_callbacks st) -> incl (_event_callbacks st) U ->
  exists extra,
    for_each bs run_call st
    = Returned tt (set_event_callbacks (_event_callbacks st ++ extra) st) []
    /\ NoDup (_event_callbacks st ++ extra)
    /\ incl (_event_callbacks st ++ extra) U.
Proof.
  induction bs as [|b bs IH]; intros st Hb Hnd Hin.
  - exists []. simpl. rewrite app_nil_r, set_event_callbacks_same. auto.
  - destruct (Hb b (or_introl eq_refl)) as (c' & -> & Hc').
    assert (Hbs : forall b, In b bs ->
              exists c', b = call_register_event_handler c' /\ In c' U)
      by (intros b Hin'; apply Hb; now right).
    simpl. unfold bind. rewrite register_run.
    destruct (mem c' (_event_callbacks st)) eqn:Hm.
    + destruct (IH st Hbs Hnd Hin) as (extra & -> & H1 & H2).
      exists extra. auto.
    + apply mem_false in Hm.
      assert (Hnd' : NoDup (_event_callbacks st ++ [c'])).
      { apply NoDup_app; auto.
        - constructor; [intros []|constructor].
        - intros x Hx [->|[]]. contradiction. }
      assert (Hin' : incl (_event_callbacks st ++ [c']) U).
      { apply incl_app; auto. intros x [<-|[]]. exact Hc'. }
      destruct (IH (set_event_callbacks (_event_callbacks st ++ [c']) st)
                  Hbs Hnd' Hin') as (extra & -> & H1 & H2).
      simpl in H1, H2 |- *. rewrite <- app_assoc in H1, H2 |- *.
      exists ([c'] ++ extra). auto.
Qed.

Lemma guarded_invoke_growing (c : callback) (st : Manager) :
  In c U -> NoDup (_event_callbacks st) -> incl (_event_callbacks st) U ->
  exists extra,
    try_except (invoke w c e)
      (fun _ => emit (log_exception exception_message)) st
    = Returned tt (set_event_callbacks (_event_callbacks st ++ extra) st)
        (fanout_log w e st [c])
    /\ NoDup (_event_callbacks st ++ extra)
    /\ incl (_event_callbacks st ++ extra) U.
Proof.
  intros Hc Hnd Hin.
  destruct (@registrations_run (calls (script w c e)) st
              (fun b Hb => within c b Hc Hb) Hnd Hin)
    as (extra & Hrun & H1 & H2).
  exists extra. split; [|now split].
  unfold try_except, invoke, bind at 1, emit at 1.
  unfold bind at 1. rewrite Hrun.
  unfold fanout_log, stamp. simpl.
  destruct (raises (script w c e)); reflexivity.
Qed.

Lemma fire_loop_growing (fuel : nat) : forall i st,
  NoDup (_event_callbacks st) -> incl (_event_callbacks st) U ->
  List.length U <= i + fuel ->
  exists extra,
    fire_loop w fuel i e st
    = Returned tt (set_event_callbacks (_event_callbacks st ++ extra) st)
        (fanout_log w e st (skipn i (_event_callbacks st ++ extra)))
    /\ NoDup (_event_callbacks st ++ extra)
    /\ incl (_event_callbacks st ++ extra) U.
Proof.
  induction fuel as [|fuel IH]; intros i st Hnd Hin Hlen.
  - destruct (nth_error (_event_callbacks st) i) as [c|] eqn:Hn.
    + exfalso.
      assert (i < List.length (_event_callbacks st))
        by (apply nth_error_Some; congruence).
      pose proof (NoDup_incl_length Hnd Hin). lia.
    + exists []. simpl. rewrite Hn, app_nil_r, set_event_callbacks_same.
      rewrite (nth_error_skipn_nil _ _ Hn). auto.
  - destruct (nth_error (_event_callbacks st) i) as [c|] eqn:Hn.
    + assert (Hc : In c U) by (apply Hin; eapply nth_error_In; eauto).
      destruct (@guarded_invoke_growing c st Hc Hnd Hin)
        as (extra1 & Hinv & Hnd1 & Hin1).
      destruct (IH (S i)
                  (set_event_callbacks (_event_callbacks st ++ extra1) st)
                  Hnd1 Hin1 ltac:(lia)) as (extra2 & Hloop & Hnd2 & Hin2).
      simpl in Hloop, Hnd2, Hin2. rewrite <- app_assoc in Hloop, Hnd2, Hin2.
      exists (extra1 ++ extra2). split; [|now split].
      simpl. rewrite Hn. unfold bind. rewrite Hinv, Hloop.
      rewrite set_event_callbacks_twice. f_equal.
      assert (Hn' : nth_error (_event_callbacks st ++ extra1 ++ extra2) i
                    = Some c).
      { rewrite nth_error_app1; [exact Hn|].
        apply nth_error_Some. congruence. }
      rewrite (nth_error_skipn_cons _ _ Hn').
      unfold fanout_log. simpl. now rewrite app_nil_r.
    + exists []. simpl. rewrite Hn, app_nil_r, set_event_callbacks_same.
      rewrite (nth_error_skipn_nil _ _ Hn). auto.
Qed.

(** The fan-out comes to an end when the callbacks it can reach are
    finitely many and only register: it invokes the callbacks registered
    at its start and then those registered on the way, once each. *)
Lemma fire_event_growing (fuel : nat) (st : Manager) :
  NoDup (_event_callbacks st) -> incl (_event_callbacks st) U ->
  List.length U <= fuel ->
  exists extra,
    _fire_event w fuel e st
    = Returned tt (set_event_callbacks (_event_callbacks st ++ extra) st)
        (stamp st (event_fired e)
           :: fanout_log w e st (_event_callbacks st ++ extra))
    /\ NoDup (_event_callbacks st ++ extra)
    /\ incl (_event_callbacks st ++ extra) U.
Proof.
  intros Hnd Hin Hlen.
  destruct (@fire_loop_growing fuel 0 st Hnd Hin Hlen)
    as (extra & Hloop & H1 & H2).
  exists extra. split; [|now split].
  unfold _fire_event, bind, emit. rewrite Hloop. reflexivity.
Qed.

(** C6, as the code has it.  The fan-out walks the live list, so what
    must be excluded is a callback that unregisters while it runs; a
    callback that registers does no harm.  When the callbacks within reach
    (the finite set [U], which holds those registered and those they
    register) call nothing of the manager but [register_event_handler],
    and one of the registered callbacks raises, [_fire_event] returns
    normally, the error is logged, and every callback registered after the
    failing one is invoked, with the event, exactly once.  The list of
    callbacks is the one at the start, followed by those registered during
    the fan-out. *)
Theorem callback_failure_is_isolated (fuel : nat) (st : Manager)
    (before after : list callback) (c : callback) (x : PyError) :
  _event_callbacks st = before ++ c :: after ->
  NoDup (_event_callbacks st) ->
  incl (_event_callbacks st) U ->
  raises (script w c e) = Some x ->
  List.length U <= fuel ->
  exists st' log extra,
    _fire_event w fuel e st = Returned tt st' log
    /\ _event_callbacks st' = _event_callbacks st ++ extra
    /\ In (log_exception exception_message) (effects log)
    /\ (forall c', In c' after ->
          times_called c' log = 1 /\ In (callback_called c' e) (effects log)).
Proof.
  intros Hsplit Hnd Hin Hr Hf.
  destruct (@fire_event_growing fuel st Hnd Hin Hf) as (extra & Hrun & Hnd' & _).
  eexists _, _, extra. split; [exact Hrun|]. split; [reflexivity|].
  assert (Hc : In c (_event_callbacks st ++ extra)).
  { rewrite Hsplit. apply in_or_app. left. apply in_or_app. right. now left. }
  split.
  - right. now apply exception_in_fanout_log with (c := c) (x := x).
  - intros c' Hc'.
    assert (Hin' : In c' (_event_callbacks st ++ extra)).
    { rewrite Hsplit. apply in_or_app. left. apply in_or_app. right.
      now right. }
    split.
    + change (times_called c'
                (fanout_log w e st (_event_callbacks st ++ extra)) = 1).
      rewrite times_called_fanout.
      now apply (proj1 (NoDup_count_occ' Nat.eq_dec _) Hnd').
    + right. now apply call_in_fanout_log.
Qed.

End Growing.

Lemma callback_failure_is_isolated_witness :
  (_event_callbacks (Fleet.with_callbacks [1; 6; 4]) = [1] ++ 6 :: [4]
   /\ registers_within Fleet.scripted (ClientConnectionEvent 3) [1; 6; 4; 2]
   /\ raises (script Fleet.scripted 6 (ClientConnectionEvent 3))
      = Some (CallbackError 1)
   /\ List.length [1; 6; 4; 2] <= 4)
  /\ exists st' log extra,
       _fire_event Fleet.scripted 4 (ClientConnectionEvent 3)
         (Fleet.with_callbacks [1; 6; 4])
       = Returned tt st' log
       /\ _event_callbacks st'
          = _event_callbacks (Fleet.with_callbacks [1; 6; 4]) ++ extra
       /\ In (log_exception exception_message) (effects log)
       /\ (forall c', In c' [4] ->
             times_called c' log = 1
             /\ In (callback_called c' (ClientConnectionEvent 3))
                  (effects log)).
Proof.
  assert (H1 : _event_callbacks (Fleet.with_callbacks [1; 6; 4])
               = [1] ++ 6 :: [4]) by reflexivity.
  assert (H2 : registers_within Fleet.scripted (ClientConnectionEvent 3)
                 [1; 6; 4; 2]).
  { intros c b [<-|[<-|[<-|[<-|[]]]]] Hb; simpl in Hb;
      try contradiction.
    destruct Hb as [<-|[]]. exists 2. split; [reflexivity|].
    right. right. right. now left. }
  assert (H3 : raises (script Fleet.scripted 6 (ClientConnectionEvent 3))
               = Some (CallbackError 1)) by reflexivity.
  assert (H4 : List.length [1; 6; 4; 2] <= 4) by (simpl; lia).
  assert (Hnd : NoDup (_event_callbacks (Fleet.with_callbacks [1; 6; 4]))).
  { simpl. repeat constructor; simpl; intuition discriminate. }
  assert (Hin : incl (_event_callbacks (Fleet.with_callbacks [1; 6; 4]))
                  [1; 6; 4; 2]).
  { intros x [<-|[<-|[<-|[]]]]; simpl; auto. }
  split; [split; [exact H1|split; [exact H2|split; [exact H3|exact H4]]]|].
  exact (@callback_failure_is_isolated Fleet.scripted
           (ClientConnectionEvent 3) [1; 6; 4; 2] H2 4
           (Fleet.with_callbacks [1; 6; 4]) [1] [4] 6 (CallbackError 1)
           H1 Hnd Hin H3 H4).
Defined.

(** * The hub recursion, pass by pass *)



Section HubRecursion.

Variable w : World.

Variables (fuel : nat) (online_only : bool).
Variables (dev : Descriptor) (online : Z) (d_type d_id : string).
Variable b : Blueprint.

Hypothesis has_status : onlineStatus dev = Some online.
Hypothesis is_processed : not_skipped online_only online.
Hypothesis has_type : deviceType dev = Some d_type.
Hypothesis has_uuid : uuid dev = Some d_id.
Hypothesis is_built : build_wrapper w d_type d_id dev = Some b.
Hypothesis is_hub : issubclass (bp_class b) GenericHub = true.






End HubRecursion.

